(** * SDK discovery, caching and formatting in the Mojo VS Code extension

    A shallow embedding of [extension/pyenv.ts] (classes [SDK], [HomeSDK] and
    [PythonEnvironmentManager]) and of [extension/formatter.ts]
    ([registerFormatter]).

    The extension is single threaded; every [async] method is embedded as a
    sequential computation over
    - the mutable fields of the manager and the objects it allocated (a heap
      of [SDK] instances addressed by reference, so that "the same instance"
      is a statement about references),
    - a trace of the observable interactions with the host (file system
      probes, Python extension queries, subprocesses, dialogs, notifications),
    - a possibly thrown exception.

    What the host answers is not part of the program: the answers are read
    from a [World] record that is an argument of every operation, so that two
    consecutive calls may see different worlds.  Logger calls have no influence
    on control flow and are left out of the trace. *)

From Stdlib Require Import ZArith Lia.
From stdpp Require Import base option list strings gmap pretty.

Local Open Scope string_scope.
Local Open Scope list_scope.

(** ** Host values *)

(** [enum SDKKind]. *)
Inductive SDKKind := Environment | Custom | Internal.

(** A JavaScript value whose static type is [string] but which may be
    [undefined] at run time is an [option string]; [None] is [undefined]. *)
Definition truthy (v : option string) : bool :=
  match v with
  | Some s => negb (bool_decide (s = ""))
  | None => false
  end.

(** [s.indexOf(pat)] for a non-empty pattern: the first position at which
    [pat] occurs in [s], or [-1]. *)
Fixpoint indexOf_from (i : Z) (s pat : string) : Z :=
  if String.prefix pat s then i
  else match s with
       | EmptyString => (-1)%Z
       | String _ s' => indexOf_from (i + 1)%Z s' pat
       end.

Definition indexOf (s pat : string) : Z := indexOf_from 0 s pat.

(** The one-character string holding a double quote. *)
Definition dquote : string := String (Ascii.ascii_of_nat 34) EmptyString.

(** The value an INI document binds to a top-level name: a scalar, or a
    section holding its own keys.  This is the shape [ini.parse] returns for
    documents with one level of sections. *)
Inductive IniValue :=
  | IniString (s : string)
  | IniSection (kv : gmap string string).

(** [vscode.FileStat]; [ftype] is the [FileType] bit mask
    (File = 1, Directory = 2, SymbolicLink = 64). *)
Record FileStat := { ftype : Z }.

Definition FileType_Directory : Z := 2.

(** [ResolvedEnvironment] of the Python extension, restricted to the fields
    the manager reads.  [major] and [minor] are [number | undefined]. *)
Record VersionInfo := { major : option N; minor : option N }.

Record ResolvedEnvironment := {
  sysPrefix : string;              (* env.executable.sysPrefix *)
  pyversion : option VersionInfo   (* env.version *)
}.

(** The [(error, stdout, stderr)] triple handed to an [execFile] callback. *)
Record ExecResult := {
  exec_error : option string;
  exec_stdout : string;
  exec_stderr : string
}.

(** Everything the host decides.  A rejected promise or a thrown exception of
    a host call is [None] (or [inl] with the printed error). *)
Record World := {
  platform : string;                                   (* process.platform *)
  path_join : list string → string;                    (* path.join(...) *)
  workspaceFolders : option (list string);             (* vscode.workspace.workspaceFolders, by uri *)
  uri_joinPath : string → string → string;             (* vscode.Uri.joinPath(uri, seg).fsPath *)
  fs_stat : string → option FileStat;                  (* vscode.workspace.fs.stat *)
  fs_readFile : string → string + list Byte.byte;      (* vscode.workspace.fs.readFile *)
  decode : list Byte.byte → option string;             (* new TextDecoder().decode *)
  ini_parse : string → option (gmap string IniValue);  (* ini.parse *)
  fileExists : string → bool;                          (* utils/files fileExists *)
  activeEnvironmentPath : string;                      (* getActiveEnvironmentPath().path *)
  resolveEnvironment : string → option ResolvedEnvironment;
  exec : string → option string;                       (* exec(cmd): stdout, or rejected *)
  execFile : string → list string → option (string * string);
                                                       (* execFile(file, args): stdout and stderr *)
  getWorkspaceFolder : string → option string;         (* vscode.workspace.getWorkspaceFolder(uri) *)
  formattingArgs : option string → list string;        (* get('formatting.args', folder, []) *)
  runFormatter : string → list string → option string → gmap string (option string)
                 → string → ExecResult                 (* execFile with the text written to stdin *)
}.

(** ** The SDK objects *)

(** The two extra private fields of [class HomeSDK extends SDK]. *)
Record HomeFields := {
  homePath : string;
  prefixPath : option string
}.

(** An instance of [SDK] or of its subclass [HomeSDK] ([home] is [Some] for
    the subclass).  The path fields are declared [string]; an instance built
    from a descriptor file holds whatever the property lookups produced.
    [memo] is the slot the [@Memoize()] decorator keeps on the instance for
    [lldbHasPythonScriptingSupport]. *)
Record SDK := {
  kind : SDKKind;
  version : string;
  lspPath : option string;
  mblackPath : option string;
  lldbPluginPath : option string;
  dapPath : option string;
  mojoPath : option string;
  visualizersPath : option string;
  lldbPath : option string;
  home : option HomeFields;
  memo : option bool
}.

(** [supportsFileDebug]: [false] in [SDK], overridden to [true] in [HomeSDK]. *)
Definition supportsFileDebug (sdk : SDK) : bool := bool_decide (is_Some (home sdk)).

(** [SDK.getProcessEnv] and its override in [HomeSDK] (which spreads the
    result of the super call and adds two properties).  A property bound to
    [undefined] is present in the object with value [None]. *)
Definition getProcessEnv (sdk : SDK) (withTelemetry : bool) : gmap string (option string) :=
  let base : gmap string (option string) :=
    {[ "MODULAR_TELEMETRY_ENABLED" := Some (if withTelemetry then "true" else "false") ]} in
  match home sdk with
  | None => base
  | Some h => <["CONDA_PREFIX" := prefixPath h]> (<["MODULAR_HOME" := Some (homePath h)]> base)
  end.

(** ** Program state, observable events, computations *)

(** A reference to an allocated [SDK] instance: its index in the heap. *)
Abbreviation ref := nat (only parsing).

(** The private fields of [PythonEnvironmentManager].  [api] records whether
    [init] has stored the Python extension's API object. *)
Record Manager := {
  api : bool;
  displayedSDKError : bool;
  lastLoadedEnv : option string;
  activeSDK : option ref
}.

Record State := {
  mgr : Manager;
  heap : list SDK
}.

Inductive Event :=
  | EvStat (target : string)
  | EvReadFile (target : string)
  | EvFileExists (target : string)
  | EvGetActiveEnvironmentPath
  | EvResolveEnvironment (envPath : string)
  | EvExec (cmd : string)
  | EvExecFile (file : string) (args : list string)
  | EvRunFormatter (file : string) (args : list string) (stdin : string)
  | EvTelemetry (name : string) (ver : string) (k : SDKKind)
  | EvShowErrorMessage (message : string)
  | EvFire.

Inductive Outcome (A : Type) :=
  | Ret (a : A)
  | Throw (e : string).
Arguments Ret {A} a.
Arguments Throw {A} e.

Definition M (A : Type) : Type := State → Outcome A * State * list Event.

Definition ret {A} (a : A) : M A := λ st, (Ret a, st, []).

Definition bind {A B} (m : M A) (k : A → M B) : M B := λ st,
  match m st with
  | (Ret a, st1, tr1) =>
      match k a st1 with
      | (o, st2, tr2) => (o, st2, tr1 ++ tr2)
      end
  | (Throw e, st1, tr1) => (Throw e, st1, tr1)
  end.

Notation "'do' x <- m ; k" := (bind m (λ x, k))
  (at level 10, x name, m at level 100, k at level 200,
   format "'[v' 'do'  x  <-  m ; '/' k ']'").
Notation "m ;; k" := (bind m (λ _, k))
  (at level 100, k at level 200, right associativity).

Definition throw {A} (e : string) : M A := λ st, (Throw e, st, []).

(** [try { m } catch (e) { h e }]. *)
Definition try_catch {A} (m : M A) (h : string → M A) : M A := λ st,
  match m st with
  | (Throw e, st1, tr1) =>
      match h e st1 with
      | (o, st2, tr2) => (o, st2, tr1 ++ tr2)
      end
  | r => r
  end.

Definition emit (e : Event) : M unit := λ st, (Ret tt, st, [e]).

Definition getMgr : M Manager := λ st, (Ret (mgr st), st, []).

Definition modifyMgr (f : Manager → Manager) : M unit := λ st,
  (Ret tt, {| mgr := f (mgr st); heap := heap st |}, []).

Definition set_displayedSDKError (b : bool) (m : Manager) : Manager :=
  {| api := api m; displayedSDKError := b;
     lastLoadedEnv := lastLoadedEnv m; activeSDK := activeSDK m |}.

Definition set_lastLoadedEnv (e : option string) (m : Manager) : Manager :=
  {| api := api m; displayedSDKError := displayedSDKError m;
     lastLoadedEnv := e; activeSDK := activeSDK m |}.

Definition set_activeSDK (r : option ref) (m : Manager) : Manager :=
  {| api := api m; displayedSDKError := displayedSDKError m;
     lastLoadedEnv := lastLoadedEnv m; activeSDK := r |}.

(** [new SDK(...)] / [new HomeSDK(...)]: the instance gets the next free
    reference. *)
Definition alloc (sdk : SDK) : M ref := λ st,
  (Ret (length (heap st)), {| mgr := mgr st; heap := heap st ++ [sdk] |}, []).

Definition deref (r : ref) : M SDK := λ st,
  match heap st !! r with
  | Some sdk => (Ret sdk, st, [])
  | None => (Throw "TypeError", st, [])
  end.

Definition set_memo (b : bool) (sdk : SDK) : SDK :=
  {| kind := kind sdk; version := version sdk; lspPath := lspPath sdk;
     mblackPath := mblackPath sdk; lldbPluginPath := lldbPluginPath sdk;
     dapPath := dapPath sdk; mojoPath := mojoPath sdk;
     visualizersPath := visualizersPath sdk; lldbPath := lldbPath sdk;
     home := home sdk; memo := Some b |}.

Definition store_memo (r : ref) (b : bool) : M unit := λ st,
  (Ret tt, {| mgr := mgr st; heap := alter (set_memo b) r (heap st) |}, []).

(** ** [class SDK]: the scripting-support probe *)

(** The body of [lldbHasPythonScriptingSupport] (without the decorator).
    [execFile] with an [undefined] file throws before spawning anything; like
    a failed invocation, that is caught and answered [false]. *)
Definition probeScripting (w : World) (sdk : SDK) : M bool :=
  try_catch
    (match lldbPath sdk with
     | None => throw "TypeError"
     | Some file =>
         let args := ["-b"; "-o"; "script print(100+1)"] in
         emit (EvExecFile file args);;
         match execFile w file args with
         | None => throw "Error"
         | Some (stdout, stderr) =>
             if negb (bool_decide (indexOf stdout "101" = (-1)%Z))
             then ret true
             else ret false
         end
     end)
    (λ _, ret false).

(** [@Memoize()] on a method without arguments: the first call on an instance
    runs the body and stores what it returned on that instance; later calls on
    the same instance return the stored value. *)
Definition lldbHasPythonScriptingSupport (w : World) (r : ref) : M bool :=
  do sdk <- deref r;
  match memo sdk with
  | Some b => ret b
  | None =>
      do b <- probeScripting w sdk;
      store_memo r b;;
      ret b
  end.

(** ** [class PythonEnvironmentManager] *)

Definition handleEnvironmentChange (newEnv : string) : M unit :=
  do m <- getMgr;
  if negb (bool_decide (Some newEnv = lastLoadedEnv m)) then
    emit EvFire;;
    modifyMgr (set_displayedSDKError false)
  else ret tt.

Definition displaySDKError (message : string) : M unit :=
  do m <- getMgr;
  if displayedSDKError m then ret tt
  else
    modifyMgr (set_displayedSDKError true);;
    emit (EvShowErrorMessage message).

Definition envHasModularCfg (w : World) (env : ResolvedEnvironment) : M bool :=
  let target := path_join w [sysPrefix env; "share"; "max"; "modular.cfg"] in
  emit (EvFileExists target);;
  ret (fileExists w target).

(** The local helper [retrievePath] of [createSDKFromWheelEnv]. *)
Definition retrievePath (w : World) (target : string) : M (option string) :=
  emit (EvStat target);;
  match fs_stat w target with
  | Some _ => ret (Some target)
  | None => ret None
  end.

(** A number or [undefined] inside a template literal. *)
Definition show_num (n : option N) : string :=
  match n with
  | Some k => pretty k
  | None => "undefined"
  end.

Definition wheelSDK (ver : string)
    (lsp mblack plugin dap mojo visualizers lldb : option string) : SDK :=
  {| kind := Environment; version := ver; lspPath := lsp; mblackPath := mblack;
     lldbPluginPath := plugin; dapPath := dap; mojoPath := mojo;
     visualizersPath := visualizers; lldbPath := lldb;
     home := None; memo := None |}.

Definition createSDKFromWheelEnv (w : World) (env : ResolvedEnvironment) : M (option ref) :=
  let binPath := path_join w [sysPrefix env; "bin"] in
  match pyversion env with
  | None => throw "TypeError"   (* env.version!.major *)
  | Some v =>
      let libPath :=
        path_join w [sysPrefix env; "lib";
                     "python" +:+ show_num (major v) +:+ "." +:+ show_num (minor v);
                     "site-packages"; "modular"; "lib"] in
      let libExt := if bool_decide (platform w = "darwin") then "dylib" else "so" in
      do mojoPath <- retrievePath w (path_join w [binPath; "mojo"]);
      do lspPath <- retrievePath w (path_join w [binPath; "mojo-lsp-server"]);
      do lldbPluginPath <- retrievePath w (path_join w [libPath; "libMojoLLDB." +:+ libExt]);
      do mblackPath <- retrievePath w (path_join w [binPath; "mblack"]);
      do dapPath <- retrievePath w (path_join w [binPath; "lldb-dap"]);
      do visualizerPath <- retrievePath w (path_join w [libPath; "lldb-visualizers"]);
      do lldbPath <- retrievePath w (path_join w [binPath; "mojo-lldb"]);
      do rawMojoPath <- retrievePath w (path_join w [libPath; ".."; "bin"; "mojo"]);
      if negb (truthy mojoPath) || negb (truthy lspPath) || negb (truthy lldbPluginPath)
         || negb (truthy rawMojoPath) || negb (truthy mblackPath)
         || negb (truthy lldbPluginPath) || negb (truthy dapPath)
         || negb (truthy visualizerPath) || negb (truthy lldbPath)
      then ret None
      else
        let cmd := dquote +:+ default "" mojoPath +:+ dquote +:+ " --version" in
        emit (EvExec cmd);;
        match exec w cmd with
        | None => throw "Error"
        | Some stdout =>
            do r <- alloc (wheelSDK stdout lspPath mblackPath lldbPluginPath
                             dapPath mojoPath visualizerPath lldbPath);
            ret (Some r)
        end
  end.

(** [key in obj] on a value found in the parsed configuration: a [TypeError]
    unless [obj] is an object. *)
Definition prop_in (key : string) (obj : option IniValue) : M bool :=
  match obj with
  | Some (IniSection kv) => ret (bool_decide (is_Some (kv !! key)))
  | _ => throw "TypeError"
  end.

(** [obj[key]]: a [TypeError] on [undefined]; [undefined] for a key the
    object (or the string) does not have. *)
Definition prop_get (obj : option IniValue) (key : string) : M (option string) :=
  match obj with
  | None => throw "TypeError"
  | Some (IniString _) => ret None
  | Some (IniSection kv) => ret (kv !! key)
  end.

Definition homeSDK (k : SDKKind) (ver : string) (homeDir : string)
    (lsp mblack plugin dap mojo visualizers lldb : option string)
    (prefix : option string) : SDK :=
  {| kind := k; version := ver; lspPath := lsp; mblackPath := mblack;
     lldbPluginPath := plugin; dapPath := dap; mojoPath := mojo;
     visualizersPath := visualizers; lldbPath := lldb;
     home := Some {| homePath := homeDir; prefixPath := prefix |}; memo := None |}.

Definition createSDKFromHomePath (w : World) (k : SDKKind) (homeDir : string)
    (prefix : option string) : M (option ref) :=
  let modularCfgPath := path_join w [homeDir; "modular.cfg"] in
  emit (EvReadFile modularCfgPath);;
  match fs_readFile w modularCfgPath with
  | inl e =>
      displaySDKError ("Unable to read modular.cfg: " +:+ e);;
      ret None
  | inr bytes =>
      match decode w bytes with
      | None =>
          displaySDKError
            "Unable to decode modular.cfg; your MAX installation may be corrupted.";;
          ret None
      | Some contents =>
          match ini_parse w contents with
          | None =>
              displaySDKError
                "Unable to parse modular.cfg; your MAX installation may be corrupted.";;
              ret None
          | Some config =>
              try_catch
                (do hasVersion <- prop_in "version" (config !! "max");
                 do ver <- (if hasVersion
                            then do v <- prop_get (config !! "max") "version";
                                 ret (default "" v)
                            else ret "0.0.0");
                 emit (EvTelemetry "sdkLoaded" ver k);;
                 let section := config !! "mojo-max" in
                 do lsp <- prop_get section "lsp_server_path";
                 do mblack <- prop_get section "mblack_path";
                 do plugin <- prop_get section "lldb_plugin_path";
                 do dap <- prop_get section "lldb_vscode_path";
                 do mojo <- prop_get section "driver_path";
                 do visualizers <- prop_get section "lldb_visualizers_path";
                 do lldb <- prop_get section "lldb_path";
                 do r <- alloc (homeSDK k ver homeDir lsp mblack plugin dap mojo
                                  visualizers lldb prefix);
                 ret (Some r))
                (λ _,
                 displaySDKError
                   "Unable to read a configuration key from modular.cfg; your MAX installation may be corrupted.";;
                 ret None)
          end
      end
  end.

Definition tryGetMonorepoSDK (w : World) : M (option ref) :=
  match workspaceFolders w with
  | None => ret None
  | Some folders =>
      if negb (bool_decide (length folders = 1)) then ret None
      else
        match folders !! 0 with
        | None => throw "TypeError"
        | Some root =>
            let folder := uri_joinPath w root ".derived" in
            emit (EvStat folder);;
            match fs_stat w folder with
            | None => ret None
            | Some info =>
                if negb (bool_decide (Z.land (ftype info) FileType_Directory = 0%Z))
                then createSDKFromHomePath w Internal folder None
                else ret None
            end
        end
  end.

Definition findActiveSDK (w : World) : M (option ref) :=
  do m <- getMgr;
  if negb (api m) then throw "AssertionError"
  else
    do monorepoSDK <- tryGetMonorepoSDK w;
    match monorepoSDK with
    | Some r => ret (Some r)
    | None =>
        emit EvGetActiveEnvironmentPath;;
        let envPath := activeEnvironmentPath w in
        emit (EvResolveEnvironment envPath);;
        modifyMgr (set_lastLoadedEnv (Some envPath));;
        match resolveEnvironment w envPath with
        | None =>
            displaySDKError
              "Unable to load a Python enviroment from the VS Code Python extension.";;
            ret None
        | Some env =>
            do cfg <- envHasModularCfg w env;
            if cfg then
              createSDKFromHomePath w Environment
                (path_join w [sysPrefix env; "share"; "max"]) (Some (sysPrefix env))
            else createSDKFromWheelEnv w env
        end
    end.

Definition getActiveSDK (w : World) : M (option ref) :=
  do m <- getMgr;
  match activeSDK m with
  | Some r => ret (Some r)
  | None =>
      do found <- findActiveSDK w;
      modifyMgr (set_activeSDK found);;
      ret found
  end.

(** ** [registerFormatter]: the document formatting provider *)

Record Position := { line : nat; character : nat }.
Record Range := { range_start : Position; range_end : Position }.
Record TextLine := { range : Range; rangeIncludingLineBreak : Range }.
Record TextEdit := { edit_range : Range; newText : string }.

(** [vscode.TextDocument], restricted to what the provider reads;
    [lineCount] is the length of [lines] and [lineAt n] is [lines !! n]. *)
Record TextDocument := {
  uri : string;
  getText : string;
  lines : list TextLine
}.

(** How the promise returned by the provider ends.  An exception thrown
    inside the subprocess callback settles nothing. *)
Inductive Settled :=
  | Resolved (edits : list TextEdit)
  | Rejected (e : string)
  | Unsettled.

(** [a || b] on two optional paths. *)
Definition or_else (a b : option string) : option string :=
  if truthy a then a else b.

(** The callback passed to [execFile]. *)
Definition formatterCallback (document : TextDocument) (originalDocumentText : string)
    (res : ExecResult) : Settled :=
  match exec_error res with
  | Some error => Rejected error
  | None =>
      if bool_decide (0 < String.length originalDocumentText)
         && bool_decide (String.length (exec_stdout res) = 0)
      then Resolved []
      else
        match lines document !! 0, lines document !! (length (lines document) - 1) with
        | Some first, Some last =>
            let documentRange :=
              {| range_start := range_start (range first);
                 range_end := range_end (rangeIncludingLineBreak last) |} in
            Resolved [ {| edit_range := documentRange; newText := exec_stdout res |} ]
        | _, _ => Unsettled
        end
  end.

(** The working directory and the argument vector of the formatter process. *)
Definition formatterCwd (w : World) (document : TextDocument) : option string :=
  let workspaceFolder := getWorkspaceFolder w (uri document) in
  let backupFolder := workspaceFolders w ≫= (λ fs, fs !! 0) in
  or_else workspaceFolder backupFolder.

Definition formatterArgv (w : World) (document : TextDocument) : list string :=
  let workspaceFolder := getWorkspaceFolder w (uri document) in
  let args := formattingArgs w workspaceFolder in
  ["--fast"; "--preview"; "--quiet"; "-t"; "mojo"] ++ args ++ ["-"].

Definition provideDocumentFormattingEdits (w : World) (document : TextDocument)
    : State → Settled * State * list Event := λ st,
  let cwd := formatterCwd w document in
  let argv := formatterArgv w document in
  match getActiveSDK w st with
  | (Throw e, st1, tr1) => (Rejected e, st1, tr1)
  | (Ret None, st1, tr1) => (Resolved [], st1, tr1)
  | (Ret (Some r), st1, tr1) =>
      match heap st1 !! r with
      | None => (Rejected "TypeError", st1, tr1)
      | Some sdk =>
          let originalDocumentText := getText document in
          match mblackPath sdk with
          | None => (Rejected "TypeError", st1, tr1)
          | Some file =>
              let res := runFormatter w file argv cwd (getProcessEnv sdk true)
                           originalDocumentText in
              (formatterCallback document originalDocumentText res, st1,
               tr1 ++ [EvRunFormatter file argv originalDocumentText])
          end
      end
  end.

(** ** A concrete host

    [path.posix.join] of Node.js and a family of worlds over it, used to run
    the operations on explicit inputs. *)
Module Posix.

Fixpoint segments (s : string) : list string :=
  match s with
  | EmptyString => [EmptyString]
  | String c s' =>
      if bool_decide (c = Ascii.ascii_of_nat 47) then EmptyString :: segments s'
      else match segments s' with
           | x :: xs => String c x :: xs
           | [] => [String c EmptyString]
           end
  end.

(** [normalizeString]: the stack of kept segments, innermost first. *)
Definition push_segment (allowAboveRoot : bool) (acc : list string) (seg : string)
    : list string :=
  if bool_decide (seg = "") || bool_decide (seg = ".") then acc
  else if bool_decide (seg = "..") then
    match acc with
    | x :: acc' => if bool_decide (x = "..") then seg :: acc else acc'
    | [] => if allowAboveRoot then [seg] else []
    end
  else seg :: acc.

Fixpoint join_with (sep : string) (l : list string) : string :=
  match l with
  | [] => ""
  | [x] => x
  | x :: rest => x +:+ sep +:+ join_with sep rest
  end.

Definition ends_with_slash (s : string) : bool :=
  match last (segments s) with
  | Some "" => negb (bool_decide (s = ""))
  | _ => false
  end.

Definition normalize (p : string) : string :=
  if bool_decide (p = "") then "."
  else
    let isAbsolute := String.prefix "/" p in
    let trailing := ends_with_slash p in
    let body := join_with "/" (rev (fold_left (push_segment (negb isAbsolute))
                                      (segments p) [])) in
    if bool_decide (body = "") then
      if isAbsolute then "/" else if trailing then "./" else "."
    else
      (if isAbsolute then "/" else "") +:+ body +:+ (if trailing then "/" else "").

Definition join (parts : list string) : string :=
  normalize (join_with "/" (filter (λ s, s ≠ "") parts)).

(** A Linux host; its arguments are the answers that vary between the
    scenarios below. *)
Definition world
    (folders : option (list string))
    (stat : string → option FileStat)
    (readFile : string → string + list Byte.byte)
    (parse : string → option (gmap string IniValue))
    (exists_ : string → bool)
    (resolve : string → option ResolvedEnvironment)
    (run : string → option string)
    (runFile : string → list string → option (string * string))
    (fmt : string → ExecResult) : World :=
  {| platform := "linux";
     path_join := join;
     workspaceFolders := folders;
     uri_joinPath := λ u seg, join [u; seg];
     fs_stat := stat;
     fs_readFile := readFile;
     decode := λ bytes, Some (String.string_of_list_byte bytes);
     ini_parse := parse;
     fileExists := exists_;
     activeEnvironmentPath := "/venv/bin/python";
     resolveEnvironment := resolve;
     exec := run;
     execFile := runFile;
     getWorkspaceFolder := λ _, None;
     formattingArgs := λ _, [];
     runFormatter := λ _ _ _ _ stdin, fmt stdin |}.

(** No workspace, no environment, nothing on disk. *)
Definition bare : World :=
  world None (λ _, None) (λ _, inl "ENOENT") (λ _, Some ∅) (λ _, false)
    (λ _, None) (λ _, None) (λ _ _, None)
    (λ _, {| exec_error := None; exec_stdout := ""; exec_stderr := "" |}).

End Posix.

Definition initialManager : Manager :=
  {| api := false; displayedSDKError := false; lastLoadedEnv := None; activeSDK := None |}.

(** The manager after [init()]. *)
Definition readyManager : Manager :=
  {| api := true; displayedSDKError := false; lastLoadedEnv := None; activeSDK := None |}.

Definition readyState : State := {| mgr := readyManager; heap := [] |}.

(** ** Reading traces *)

Definition is_dialog (e : Event) : bool :=
  match e with EvShowErrorMessage _ => true | _ => false end.

Definition is_fire (e : Event) : bool :=
  match e with EvFire => true | _ => false end.

Definition is_execFile (e : Event) : bool :=
  match e with EvExecFile _ _ => true | _ => false end.

Definition dialogs (tr : list Event) : nat := length (List.filter is_dialog tr).
Definition fires (tr : list Event) : nat := length (List.filter is_fire tr).
Definition probes (tr : list Event) : nat := length (List.filter is_execFile tr).

(** ** Scenarios *)
Module Scenario.

Definition dir : FileStat := {| ftype := 2 |}.
Definition file : FileStat := {| ftype := 1 |}.

Definition venv : ResolvedEnvironment :=
  {| sysPrefix := "/venv";
     pyversion := Some {| major := Some 3%N; minor := Some 12%N |} |}.

(** A wheel installation: every path exists, no [modular.cfg]. *)
Definition wheel : World :=
  Posix.world None (λ _, Some file) (λ _, inl "ENOENT") (λ _, Some ∅) (λ _, false)
    (λ _, Some venv) (λ _, Some "mojo 25.1.0") (λ _ _, None)
    (λ _, {| exec_error := None; exec_stdout := ""; exec_stderr := "" |}).


(** A descriptor file with both sections in which [lsp_server_path] is the
    one key that is missing:
<<
    [max]
    version = 25.1.0
    [mojo-max]
    mblack_path = /sdk/bin/mblack
    lldb_plugin_path = /sdk/lib/libMojoLLDB.so
    lldb_vscode_path = /sdk/bin/lldb-dap
    driver_path = /sdk/bin/mojo
    lldb_visualizers_path = /sdk/lib/lldb-visualizers
    lldb_path = /sdk/bin/mojo-lldb
>>  *)
Definition cfg_without_lsp : gmap string IniValue :=
  {[ "max" := IniSection {[ "version" := "25.1.0" ]};
     "mojo-max" := IniSection
       (<[ "mblack_path" := "/sdk/bin/mblack" ]>
        (<[ "lldb_plugin_path" := "/sdk/lib/libMojoLLDB.so" ]>
         (<[ "lldb_vscode_path" := "/sdk/bin/lldb-dap" ]>
          (<[ "driver_path" := "/sdk/bin/mojo" ]>
           (<[ "lldb_visualizers_path" := "/sdk/lib/lldb-visualizers" ]>
            {[ "lldb_path" := "/sdk/bin/mojo-lldb" ]}))))) ]}.

Definition complete_cfg : gmap string IniValue :=
  {[ "max" := IniSection {[ "version" := "25.1.0" ]};
     "mojo-max" := IniSection
       (<[ "lsp_server_path" := "/sdk/bin/mojo-lsp-server" ]>
        (<[ "mblack_path" := "/sdk/bin/mblack" ]>
         (<[ "lldb_plugin_path" := "/sdk/lib/libMojoLLDB.so" ]>
          (<[ "lldb_vscode_path" := "/sdk/bin/lldb-dap" ]>
           (<[ "driver_path" := "/sdk/bin/mojo" ]>
            (<[ "lldb_visualizers_path" := "/sdk/lib/lldb-visualizers" ]>
             {[ "lldb_path" := "/sdk/bin/mojo-lldb" ]})))))) ]}.

(** A Conda-like environment whose [modular.cfg] parses to [cfg]. *)
Definition conda (cfg : gmap string IniValue) : World :=
  Posix.world None (λ _, None) (λ _, inr []) (λ _, Some cfg) (λ _, true)
    (λ _, Some venv) (λ _, None) (λ _ _, None)
    (λ _, {| exec_error := None; exec_stdout := ""; exec_stderr := "" |}).

(** One workspace root [/repo] with a [.derived] directory whose
    [modular.cfg] parses to [cfg], next to a complete wheel installation in
    the active environment. *)
Definition monorepo (cfg : gmap string IniValue) : World :=
  Posix.world (Some ["/repo"])
    (λ p, if bool_decide (p = "/repo/.derived") then Some dir else Some file)
    (λ _, inr []) (λ _, Some cfg) (λ _, false)
    (λ _, Some venv) (λ _, Some "mojo 25.1.0") (λ _ _, None)
    (λ _, {| exec_error := None; exec_stdout := ""; exec_stderr := "" |}).

(** One workspace root [/repo] with a [.derived] directory that holds no
    readable [modular.cfg]; no Python environment. *)
Definition derived_without_cfg : World :=
  Posix.world (Some ["/repo"])
    (λ p, if bool_decide (p = "/repo/.derived") then Some dir else None)
    (λ _, inl "ENOENT") (λ _, Some ∅) (λ _, false)
    (λ _, None) (λ _, None) (λ _ _, None)
    (λ _, {| exec_error := None; exec_stdout := ""; exec_stderr := "" |}).

End Scenario.

(** ** Notions used by the statements *)

(** The seven values [createSDKFromHomePath] reads from section [mojo-max]. *)
Definition sdkOfSection (k : SDKKind) (ver homeDir : string) (sec : gmap string string)
    (prefix : option string) : SDK :=
  homeSDK k ver homeDir
    (sec !! "lsp_server_path") (sec !! "mblack_path") (sec !! "lldb_plugin_path")
    (sec !! "lldb_vscode_path") (sec !! "driver_path") (sec !! "lldb_visualizers_path")
    (sec !! "lldb_path") prefix.

(** The seven required keys of section [mojo-max], and the descriptor field
    each of them fills. *)
Definition requiredKeys : list string :=
  ["lsp_server_path"; "mblack_path"; "lldb_plugin_path"; "lldb_vscode_path";
   "driver_path"; "lldb_visualizers_path"; "lldb_path"].

Definition pathField (key : string) (sdk : SDK) : option string :=
  if bool_decide (key = "lsp_server_path") then lspPath sdk
  else if bool_decide (key = "mblack_path") then mblackPath sdk
  else if bool_decide (key = "lldb_plugin_path") then lldbPluginPath sdk
  else if bool_decide (key = "lldb_vscode_path") then dapPath sdk
  else if bool_decide (key = "driver_path") then mojoPath sdk
  else if bool_decide (key = "lldb_visualizers_path") then visualizersPath sdk
  else if bool_decide (key = "lldb_path") then lldbPath sdk
  else None.

(** The fixed layout of a wheel installation under the environment prefix. *)
Definition wheelBin (w : World) (env : ResolvedEnvironment) (name : string) : string :=
  path_join w [path_join w [sysPrefix env; "bin"]; name].

Definition wheelLibDir (w : World) (env : ResolvedEnvironment) (v : VersionInfo) : string :=
  path_join w [sysPrefix env; "lib";
               "python" +:+ show_num (major v) +:+ "." +:+ show_num (minor v);
               "site-packages"; "modular"; "lib"].

Definition wheelLib (w : World) (env : ResolvedEnvironment) (v : VersionInfo)
    (name : string) : string :=
  path_join w [wheelLibDir w env v; name].

Definition wheelPlugin (w : World) (env : ResolvedEnvironment) (v : VersionInfo) : string :=
  wheelLib w env v (if bool_decide (platform w = "darwin")
                    then "libMojoLLDB.dylib" else "libMojoLLDB.so").



(** The descriptor built when every path exists. *)
Definition wheelDescriptor (w : World) (env : ResolvedEnvironment) (v : VersionInfo)
    (stdout : string) : SDK :=
  wheelSDK stdout (Some (wheelBin w env "mojo-lsp-server")) (Some (wheelBin w env "mblack"))
    (Some (wheelPlugin w env v)) (Some (wheelBin w env "lldb-dap"))
    (Some (wheelBin w env "mojo")) (Some (wheelLib w env v "lldb-visualizers"))
    (Some (wheelBin w env "mojo-lldb")).

(** What [retrievePath] answers for a target. *)
Definition found (w : World) (target : string) : option string :=
  match fs_stat w target with
  | Some _ => Some target
  | None => None
  end.

(** [pat] occurs somewhere in [s]. *)
Definition contains (s pat : string) : Prop :=
  ∃ pre post, s = pre +:+ pat +:+ post.

(** Consecutive calls of the probe on one instance, each against the host
    as it is at that moment. *)
Fixpoint probeRepeatedly (ws : list World) (r : ref) (st : State)
    : list (Outcome bool) * State * list Event :=
  match ws with
  | [] => ([], st, [])
  | w :: rest =>
      let '(o, st1, tr1) := lldbHasPythonScriptingSupport w r st in
      let '(os, st2, tr2) := probeRepeatedly rest r st1 in
      (o :: os, st2, tr1 ++ tr2)
  end.

Definition probeArgs : list string := ["-b"; "-o"; "script print(100+1)"].

Module ScenarioProbe.

(** A debugger with scripting support. *)
Definition scripting : World :=
  Posix.world None (λ _, Some Scenario.file) (λ _, inl "ENOENT") (λ _, Some ∅)
    (λ _, false) (λ _, Some Scenario.venv) (λ _, Some "mojo 25.1.0")
    (λ _ _, Some ("(lldb) script print(100+1) 101", ""))
    (λ _, {| exec_error := None; exec_stdout := ""; exec_stderr := "" |}).

(** The state after the wheel installation has been resolved. *)
Definition resolved : State :=
  {| mgr := set_activeSDK (Some 0) (set_lastLoadedEnv (Some "/venv/bin/python") readyManager);
     heap := [wheelDescriptor Scenario.wheel Scenario.venv
                {| major := Some 3%N; minor := Some 12%N |} "mojo 25.1.0"] |}.

End ScenarioProbe.

Definition b2n (b : bool) : nat := if b then 1 else 0.

(** A computation is [quiet] when it never notifies subscribers and never
    lowers the error-already-shown flag, and shows a dialog exactly when it
    raises that flag. *)
Definition quiet {A} (m : M A) : Prop :=
  ∀ st,
    dialogs (m st).2 + b2n (displayedSDKError (mgr st))
      = b2n (displayedSDKError (mgr (m st).1.2))
    ∧ fires (m st).2 = 0.

(** The operations the rest of the extension performs on a manager, one call
    at a time. *)
Inductive Op :=
  | CallGetActiveSDK (w : World)
  | CallFindActiveSDK (w : World)
  | CallCreateSDKFromHomePath (w : World) (k : SDKKind) (homeDir : string)
      (prefix : option string)
  | CallLldbHasPythonScriptingSupport (w : World) (r : ref)
  | CallFormat (w : World) (document : TextDocument)
  | EnvironmentChanged (newEnv : string).

Definition step (op : Op) (st : State) : State * list Event :=
  match op with
  | CallGetActiveSDK w => let '(_, st1, tr) := getActiveSDK w st in (st1, tr)
  | CallFindActiveSDK w => let '(_, st1, tr) := findActiveSDK w st in (st1, tr)
  | CallCreateSDKFromHomePath w k homeDir prefix =>
      let '(_, st1, tr) := createSDKFromHomePath w k homeDir prefix st in (st1, tr)
  | CallLldbHasPythonScriptingSupport w r =>
      let '(_, st1, tr) := lldbHasPythonScriptingSupport w r st in (st1, tr)
  | CallFormat w document =>
      let '(_, st1, tr) := provideDocumentFormattingEdits w document st in (st1, tr)
  | EnvironmentChanged newEnv =>
      let '(_, st1, tr) := handleEnvironmentChange newEnv st in (st1, tr)
  end.

Fixpoint run (ops : list Op) (st : State) : State * list Event :=
  match ops with
  | [] => (st, [])
  | op :: rest =>
      let '(st1, tr1) := step op st in
      let '(st2, tr2) := run rest st1 in
      (st2, tr1 ++ tr2)
  end.

Module ScenarioFormat.

(** A one-line document. *)
Definition document : TextDocument :=
  {| uri := "/repo/main.mojo";
     getText := "fn main():pass";
     lines := [ {| range := {| range_start := {| line := 0; character := 0 |};
                               range_end := {| line := 0; character := 14 |} |};
                   rangeIncludingLineBreak :=
                     {| range_start := {| line := 0; character := 0 |};
                        range_end := {| line := 0; character := 14 |} |} |} ] |}.

(** A wheel installation whose formatter answers with formatted text. *)
Definition formatting : World :=
  Posix.world None (λ _, Some Scenario.file) (λ _, inl "ENOENT") (λ _, Some ∅)
    (λ _, false) (λ _, Some Scenario.venv) (λ _, Some "mojo 25.1.0") (λ _ _, None)
    (λ _, {| exec_error := None; exec_stdout := "fn main(): pass"; exec_stderr := "" |}).

End ScenarioFormat.

(** ** Invariants of the descriptor heap *)

(** A descriptor without the slot of the memoized probe: what its
    constructor was given. *)
Definition clearMemo (sdk : SDK) : SDK :=
  {| kind := kind sdk; version := version sdk; lspPath := lspPath sdk;
     mblackPath := mblackPath sdk; lldbPluginPath := lldbPluginPath sdk;
     dapPath := dapPath sdk; mojoPath := mojoPath sdk;
     visualizersPath := visualizersPath sdk; lldbPath := lldbPath sdk;
     home := home sdk; memo := None |}.

(** [h'] extends [h]: every reference of [h] still denotes a descriptor with
    the same constructor arguments, and a probe answer that was stored is
    still the stored answer. *)
Definition heap_ext (h h' : list SDK) : Prop :=
  ∀ r sdk, h !! r = Some sdk →
    ∃ sdk', h' !! r = Some sdk'
            ∧ clearMemo sdk' = clearMemo sdk
            ∧ ∀ b, memo sdk = Some b → memo sdk' = Some b.

(** A computation that leaves the API handle and the cache slot alone and
    only extends the heap. *)
Definition frame {A} (m : M A) : Prop :=
  ∀ st,
    api (mgr (m st).1.2) = api (mgr st)
    ∧ activeSDK (mgr (m st).1.2) = activeSDK (mgr st)
    ∧ heap_ext (heap st) (heap (m st).1.2).

(** What every operation on the manager keeps: the API handle, a filled
    cache slot, and the descriptors allocated so far. *)
Definition kept (st st' : State) : Prop :=
  api (mgr st') = api (mgr st)
  ∧ (∀ r, activeSDK (mgr st) = Some r → activeSDK (mgr st') = Some r)
  ∧ heap_ext (heap st) (heap st').

Module ScenarioVersion.

(** A wheel environment for which the Python extension reports no version. *)
Definition unknown : World :=
  Posix.world None (λ _, Some Scenario.file) (λ _, inl "ENOENT") (λ _, Some ∅)
    (λ _, false) (λ _, Some {| sysPrefix := "/venv"; pyversion := None |})
    (λ _, Some "mojo 25.1.0") (λ _ _, None)
    (λ _, {| exec_error := None; exec_stdout := ""; exec_stderr := "" |}).

End ScenarioVersion.


(** ** [debug/debug.ts]: resolving debug configurations

    The resolvers run after the operations of the manager; besides those they
    read a directory and consult helpers that are not part of the files at
    hand, so their trace extends the manager's. *)
Module Debug.

(** [s.endsWith(suffix)]. *)
Fixpoint endsWith (s suffix : string) : bool :=
  bool_decide (s = suffix)
  || match s with
     | EmptyString => false
     | String _ s' => endsWith s' suffix
     end.

(** [s.replace(/\/+$/, '')]: the string without its trailing run of slashes. *)
Fixpoint stripTrailingSlashes (s : string) : string :=
  match s with
  | EmptyString => EmptyString
  | String c s' =>
      let rest := stripTrailingSlashes s' in
      if bool_decide (rest = "") && bool_decide (c = Ascii.ascii_of_nat 47)
      then EmptyString
      else String c rest
  end.

(** [s.replace(/<suffix>$/, '')] for a literal suffix: [s] without that
    suffix at its end, or [s] itself. *)
Fixpoint dropSuffix (s suffix : string) : string :=
  if bool_decide (s = suffix) then EmptyString
  else match s with
       | EmptyString => EmptyString
       | String c s' => String c (dropSuffix s' suffix)
       end.

(** [s.split(sep)] for a one-character separator. *)
Fixpoint splitOn (sep : Ascii.ascii) (s : string) : list string :=
  match s with
  | EmptyString => [EmptyString]
  | String c s' =>
      if bool_decide (c = sep) then EmptyString :: splitOn sep s'
      else match splitOn sep s' with
           | x :: xs => String c x :: xs
           | [] => [String c EmptyString]
           end
  end.

(** A value of type [string | undefined] inside a template literal. *)
Definition show (v : option string) : string := default "undefined" v.

(** [pid?: string | number]; a number is an integer or [NaN] ([None]). *)
Inductive Pid :=
  | PidString (s : string)
  | PidNumber (n : option Z).

(** [type MojoDebugConfiguration]: every attribute is optional. *)
Record MojoDebugConfiguration := {
  type : option string;
  name : option string;
  pid : option Pid;
  request : option string;
  modularHomePath : option string;
  modularConfigMojoSection : option string;
  args : option (list string);
  program : option string;
  mojoFile : option string;
  env : option (list string);
  enableAutoVariableSummaries : option bool;
  commandEscapePrefix : option string;
  timeout : option Z;
  initCommands : option (list string);
  customFrameFormat : option string;
  runInTerminal : option bool;
  buildArgs : option (list string);
  enableSyntheticChildDebugging : option bool
}.

(** What the resolvers ask of the host beyond [World]: the built-in
    [parseInt], [vscode.workspace.fs.readDirectory] ([None]: rejected), and
    two helpers defined outside the files at hand, [quote] of the shell-quote
    package and [checkNsightInstall] of [utils/checkNsight] (its answer is an
    error message or [undefined]). *)
Record Host := {
  parseInt : string → option Z;
  readDirectory : string → option (list (string * Z));
  quote : list string → string;
  checkNsightInstall : option string
}.

Inductive DebugEvent :=
  | Core (e : Event)
  | EvReadDirectory (dir : string)
  | EvCheckNsightInstall.

Definition DM (A : Type) : Type := State → Outcome A * State * list DebugEvent.

Definition dret {A} (a : A) : DM A := λ st, (Ret a, st, []).

Definition dthrow {A} (e : string) : DM A := λ st, (Throw e, st, []).

Definition dbind {A B} (m : DM A) (k : A → DM B) : DM B := λ st,
  match m st with
  | (Ret a, st1, tr1) =>
      match k a st1 with
      | (o, st2, tr2) => (o, st2, tr1 ++ tr2)
      end
  | (Throw e, st1, tr1) => (Throw e, st1, tr1)
  end.

Definition demit (e : DebugEvent) : DM unit := λ st, (Ret tt, st, [e]).

(** An operation of the manager, run inside a resolver. *)
Definition lift {A} (m : M A) : DM A := λ st,
  match m st with
  | (o, st1, tr1) => (o, st1, Core <$> tr1)
  end.

Notation "'dlet' x <- m ; k" := (dbind m (λ x, k))
  (at level 10, x name, m at level 100, k at level 200,
   format "'[v' 'dlet'  x  <-  m ; '/' k ']'").

(** The constant [DEBUG_TYPE]. *)
Definition DEBUG_TYPE : string := "mojo-lldb".

(** [Object.entries(sdk.getProcessEnv(withTelemetry))]: the properties in
    the order the object literals of [SDK] and [HomeSDK] create them. *)
Definition processEnvEntries (sdk : SDK) (withTelemetry : bool)
    : list (string * option string) :=
  let base := [("MODULAR_TELEMETRY_ENABLED",
                Some (if withTelemetry then "true" else "false"))] in
  match home sdk with
  | None => base
  | Some h => base ++ [("MODULAR_HOME", Some (homePath h)); ("CONDA_PREFIX", prefixPath h)]
  end.

Definition envDictToList (dict : list (string * option string)) : list string :=
  (λ kv, kv.1 +:+ "=" +:+ show kv.2) <$> dict.

(** The two local constants of [findSDKForDebugConfiguration]. *)
Definition customHomePath (modularHome : string) : string :=
  stripTrailingSlashes modularHome.

Definition customPrefixPath (homeDir : string) : option string :=
  if endsWith homeDir "/share/max" then Some (dropSuffix homeDir "/share/max")
  else None.

Definition findSDKForDebugConfiguration (w : World) (modularHome : option string)
    : M (option ref) :=
  match modularHome with
  | Some p =>
      let homeDir := customHomePath p in
      let prefix := customPrefixPath homeDir in
      createSDKFromHomePath w Custom homeDir prefix
  | None => getActiveSDK w
  end.

(** The first extension the resolver accepts, byte for byte as the source
    writes it: a dot followed by the nine bytes [C3 B0 C5 B8 E2 80 9D C2 A5]
    (the four characters U+00F0, U+0178, U+201D, U+00A5). *)
Definition fireExtension : string := ".ðŸ”¥".

Definition wheelFileMessage : string :=
  "Debugging a Mojo file using the 'mojoFile' option is not supported when the Mojo SDK is installed as a wheel.".

Definition extensionMessage (file : string) : string :=
  "Mojo Debug error: the file '" +:+ file +:+ "' doesn't have the "
  +:+ fireExtension +:+ " or .mojo extension.".

(** [mojo run] with its fixed flags, the build arguments, the file and the
    program arguments. *)
Definition fileLaunchArgs (cfg : MojoDebugConfiguration) (file : string) : list string :=
  ["run"; "--no-optimization"; "--debug-level"; "full"]
  ++ default [] (buildArgs cfg) ++ [file] ++ default [] (args cfg).

(** The constant [initializationTimeoutSec]. *)
Definition initializationTimeoutSec : Z := (5 * 60)%Z.

Definition defaultFrameFormat : string :=
  "${function.name-with-args}{${frame.is-artificial} [artificial]}".

(** The local constant [initCommands]. *)
Definition fixedInitCommands (sdk : SDK) : list string :=
  [ "?!plugin load '" +:+ show (lldbPluginPath sdk) +:+ "'";
    "?settings set target.show-hex-variable-values-with-leading-zeroes false";
    "?settings set target.process.optimization-warnings false";
    "?mojo statistics telemetry session.start vscode" ].

Definition visualizerCommands (visualizersDir : string) (visualizers : list (string * Z))
    : list string :=
  (λ entry, "?command script import " +:+ visualizersDir +:+ "/" +:+ entry.1)
    <$> visualizers.

(** The assignments that follow the launch check: the parsed [pid], the
    launch target, the defaults for the attributes the caller left unset,
    the init commands and the environment. *)
Definition resolvedConfiguration (h : Host) (cfg : MojoDebugConfiguration) (sdk : SDK)
    (launch : option (list string) * option string) (commands : list string)
    : MojoDebugConfiguration :=
  let pid1 := match pid cfg with
              | Some (PidString s) => Some (PidNumber (parseInt h s))
              | other => other
              end in
  let env1 :=
    ["LLDB_VSCODE_RIT_TIMEOUT_IN_MS=" +:+ pretty (initializationTimeoutSec * 1000)%Z]
    ++ envDictToList (processEnvEntries sdk true) in
  {| type := type cfg;
     name := name cfg;
     pid := pid1;
     request := request cfg;
     modularHomePath := modularHomePath cfg;
     modularConfigMojoSection := modularConfigMojoSection cfg;
     args := launch.1;
     program := launch.2;
     mojoFile := mojoFile cfg;
     env := Some (env1 ++ default [] (env cfg));
     enableAutoVariableSummaries := Some (default true (enableAutoVariableSummaries cfg));
     commandEscapePrefix := Some (default ":" (commandEscapePrefix cfg));
     timeout := Some (default initializationTimeoutSec (timeout cfg));
     initCommands := Some commands;
     customFrameFormat := Some (default defaultFrameFormat (customFrameFormat cfg));
     runInTerminal := runInTerminal cfg;
     buildArgs := buildArgs cfg;
     enableSyntheticChildDebugging :=
       Some (default true (enableSyntheticChildDebugging cfg)) |}.

(** The check of the launch target: the arguments and the program to
    launch, or the message of the error dialog. *)
Definition launchTarget (cfg : MojoDebugConfiguration) (sdk : SDK)
    : string + (option (list string) * option string) :=
  if truthy (mojoFile cfg) then
    let file := default "" (mojoFile cfg) in
    if negb (supportsFileDebug sdk) then inl wheelFileMessage
    else if negb (endsWith file fireExtension) && negb (endsWith file ".mojo")
    then inl (extensionMessage file)
    else inr (Some (fileLaunchArgs cfg file), mojoPath sdk)
  else inr (args cfg, program cfg).

(** [MojoDebugConfigurationResolver.resolveDebugConfigurationWithSubstitutedVariables]. *)
Definition resolveDebugConfigurationWithSubstitutedVariables (h : Host) (w : World)
    (cfg : MojoDebugConfiguration) : DM (option MojoDebugConfiguration) :=
  dlet found <- lift (findSDKForDebugConfiguration w (modularHomePath cfg));
  match found with
  | None => dret None
  | Some r =>
      dlet sdk <- lift (deref r);
      match launchTarget cfg sdk with
      | inl message =>
          dlet _ <- demit (Core (EvShowErrorMessage message));
          dret None
      | inr launch =>
          let initCommands1 := fixedInitCommands sdk ++ default [] (initCommands cfg) in
          dlet scripting <- lift (lldbHasPythonScriptingSupport w r);
          dlet initCommands2 <-
            (if (scripting : bool) then
               match visualizersPath sdk with
               | None => dthrow "TypeError"
               | Some visualizersDir =>
                   dlet _ <- demit (EvReadDirectory visualizersDir);
                   match readDirectory h visualizersDir with
                   | None => dthrow "Error"
                   | Some visualizers =>
                       dret (initCommands1 ++ visualizerCommands visualizersDir visualizers)
                   end
               end
             else dret initCommands1);
          dret (Some (resolvedConfiguration h cfg sdk launch initCommands2))
      end
  end.

(** [MojoDebugConfigurationResolver.resolveDebugConfiguration]. *)
Definition resolveDebugConfiguration (cfg : MojoDebugConfiguration)
    : MojoDebugConfiguration :=
  if negb (truthy (request cfg)) then
    {| type := Some DEBUG_TYPE;
       name := name cfg;
       pid := pid cfg;
       request := Some "launch";
       modularHomePath := modularHomePath cfg;
       modularConfigMojoSection := modularConfigMojoSection cfg;
       args := args cfg;
       program := program cfg;
       mojoFile := Some "${file}";
       env := env cfg;
       enableAutoVariableSummaries := enableAutoVariableSummaries cfg;
       commandEscapePrefix := commandEscapePrefix cfg;
       timeout := timeout cfg;
       initCommands := initCommands cfg;
       customFrameFormat := customFrameFormat cfg;
       runInTerminal := runInTerminal cfg;
       buildArgs := buildArgs cfg;
       enableSyntheticChildDebugging := enableSyntheticChildDebugging cfg |}
  else cfg.

End Debug.

(** ** [debug/debug.ts]: the translation to cuda-gdb *)
Module CudaGdb.

(** [type MojoCudaGdbDebugConfiguration]. *)
Record MojoCudaGdbDebugConfiguration := {
  type : option string;
  description : option string;
  name : option string;
  pid : option Debug.Pid;
  modularHomePath : option string;
  args : option (list string);
  program : option string;
  mojoFile : option string;
  env : option (list string);
  cwd : option (list string);
  initCommands : option (list string);
  stopOnEntry : option bool;
  breakOnLaunch : option bool
}.

(** The configuration object after the translation: the properties that were
    left as they were (read from [source]; its [type], [args] and [program]
    are superseded) and the ones that were written. *)
Record CudaGdbDebugConfiguration := {
  source : MojoCudaGdbDebugConfiguration;
  out_type : string;
  out_program : option string;
  out_args : string;
  environment : list (string * string);     (* { name, value } *)
  stopAtEntry : option bool;
  processId : option Debug.Pid
}.

(** The callback mapped over [env]: [envStr.split('=')], then the first piece
    and the others joined again. *)
Definition splitEnv (envStr : string) : string * string :=
  let split := Debug.splitOn (Ascii.ascii_of_nat 61) envStr in
  (hd EmptyString split, String.concat "=" (tl split)).

(** [MojoCudaGdbDebugConfigurationResolver.resolveDebugConfigurationWithSubstitutedVariables]. *)
Definition resolveDebugConfigurationWithSubstitutedVariables (h : Debug.Host) (w : World)
    (debugConfigIn : MojoCudaGdbDebugConfiguration)
    : Debug.DM (option CudaGdbDebugConfiguration) :=
  Debug.dbind (Debug.demit Debug.EvCheckNsightInstall) (λ _,
  if truthy (Debug.checkNsightInstall h) then Debug.dret None
  else
    let args0 := default [] (args debugConfigIn) in
    Debug.dbind
      (Debug.lift (Debug.findSDKForDebugConfiguration w (modularHomePath debugConfigIn)))
      (λ found,
       match found with
       | None => Debug.dret None
       | Some r =>
           Debug.dbind (Debug.lift (deref r)) (λ sdk,
           let launch :=
             if truthy (mojoFile debugConfigIn) then
               (mojoPath sdk,
                ["run"; "--no-optimization"; "--debug-level"; "full";
                 default "" (mojoFile debugConfigIn)] ++ args0)
             else (program debugConfigIn, args0) in
           Debug.dret (Some
             {| source := debugConfigIn;
                out_type := "cuda-gdb";
                out_program := launch.1;
                out_args := Debug.quote h launch.2;
                environment := splitEnv <$> default [] (env debugConfigIn);
                stopAtEntry := stopOnEntry debugConfigIn;
                processId := pid debugConfigIn |}))
       end)).

End CudaGdb.

(** ** [lsp/lsp.ts]: suppressing diagnostics inside docstrings *)
Module Lsp.

(** [vscode.FoldingRange] and [vscode.Diagnostic], restricted to what the
    middleware reads. *)
Record FoldingRange := { start : nat; end_ : nat }.

Record Diagnostic := { range : Range; message : string }.

(** What [handleDiagnostics] asks of the host: the setting
    [lsp.suppress.diagnostics.in.docstring], the text of a line of the
    document ([None]: [lineAt] throws), the built-in [trimStart], and the
    folding ranges of the document. *)
Record Host := {
  suppressInDocstring : bool;
  lineText : nat → option string;
  trimStart : string → string;
  foldingRanges : list FoldingRange
}.

Definition tripleQuote : string := dquote +:+ dquote +:+ dquote.

(** [foldingRanges.filter(r => document.lineAt(r.start).text.trimStart()
    .startsWith(tripleQuote))]; [None] when a [lineAt] throws. *)
Fixpoint docstringRanges (h : Host) (ranges : list FoldingRange)
    : option (list FoldingRange) :=
  match ranges with
  | [] => Some []
  | r :: rest =>
      match lineText h (start r) with
      | None => None
      | Some text =>
          match docstringRanges h rest with
          | None => None
          | Some kept =>
              Some (if String.prefix tripleQuote (trimStart h text) then r :: kept else kept)
          end
      end
  end.

(** The loop of the second filter: some docstring range holds the
    diagnostic strictly inside. *)
Fixpoint insideDocstring (ranges : list FoldingRange) (d : Diagnostic) : bool :=
  match ranges with
  | [] => false
  | r :: rest =>
      if Nat.ltb (start r) (line (range_start (range d)))
         && Nat.ltb (line (range_end (range d))) (end_ r)
      then true
      else insideDocstring rest d
  end.

(** The [handleDiagnostics] middleware: the diagnostics handed to [next], or
    [None] when the handler rejects and [next] is never called. *)
Definition handleDiagnostics (h : Host) (diagnostics : list Diagnostic)
    : option (list Diagnostic) :=
  if suppressInDocstring h then
    match docstringRanges h (foldingRanges h) with
    | None => None
    | Some ranges => Some (List.filter (λ d, negb (insideDocstring ranges d)) diagnostics)
    end
  else Some diagnostics.

End Lsp.

(** ** Notions used by the statements about the resolvers *)

(** [n] slashes. *)
Fixpoint slashes (n : nat) : string :=
  match n with
  | 0 => EmptyString
  | S k => String (Ascii.ascii_of_nat 47) (slashes k)
  end.

(** The character [c] occurs in [s]. *)
Fixpoint occurs (c : Ascii.ascii) (s : string) : bool :=
  match s with
  | EmptyString => false
  | String d s' => bool_decide (d = c) || occurs c s'
  end.

(** The character [=]. *)
Definition equalsSign : Ascii.ascii := Ascii.ascii_of_nat 61.

(** ** Scenarios for the resolvers *)
Module ScenarioDebug.

Definition section : gmap string string :=
  <[ "lsp_server_path" := "/sdk/bin/mojo-lsp-server" ]>
  (<[ "mblack_path" := "/sdk/bin/mblack" ]>
   (<[ "lldb_plugin_path" := "/sdk/lib/libMojoLLDB.so" ]>
    (<[ "lldb_vscode_path" := "/sdk/bin/lldb-dap" ]>
     (<[ "driver_path" := "/sdk/bin/mojo" ]>
      (<[ "lldb_visualizers_path" := "/sdk/lib/lldb-visualizers" ]>
       {[ "lldb_path" := "/sdk/bin/mojo-lldb" ]}))))).

(** The descriptor of a Conda-like environment. *)
Definition condaSDK : SDK :=
  sdkOfSection Environment "25.1.0" "/venv/share/max" section (Some "/venv").

(** The manager after that environment has been resolved. *)
Definition condaState : State :=
  {| mgr := set_activeSDK (Some 0)
              (set_lastLoadedEnv (Some "/venv/bin/python") readyManager);
     heap := [condaSDK] |}.

(** A host with two visualizers; its [quote] joins words that need no
    quoting, and the Nsight extension is installed. *)
Definition host : Debug.Host :=
  {| Debug.parseInt := λ s, if bool_decide (s = "42") then Some 42%Z else None;
     Debug.readDirectory := λ dir,
       if bool_decide (dir = "/sdk/lib/lldb-visualizers")
       then Some [("lists.py", 1%Z); ("strings.py", 1%Z)] else None;
     Debug.quote := String.concat " ";
     Debug.checkNsightInstall := None |}.

(** The same host without the Nsight extension. *)
Definition hostWithoutNsight : Debug.Host :=
  {| Debug.parseInt := Debug.parseInt host;
     Debug.readDirectory := Debug.readDirectory host;
     Debug.quote := Debug.quote host;
     Debug.checkNsightInstall := Some "Nsight is not installed" |}.

(** No attribute set: what [Start Debugging] passes without a launch.json. *)
Definition empty : Debug.MojoDebugConfiguration :=
  {| Debug.type := None; Debug.name := None; Debug.pid := None; Debug.request := None;
     Debug.modularHomePath := None; Debug.modularConfigMojoSection := None;
     Debug.args := None; Debug.program := None; Debug.mojoFile := None;
     Debug.env := None; Debug.enableAutoVariableSummaries := None;
     Debug.commandEscapePrefix := None; Debug.timeout := None;
     Debug.initCommands := None; Debug.customFrameFormat := None;
     Debug.runInTerminal := None; Debug.buildArgs := None;
     Debug.enableSyntheticChildDebugging := None |}.

(** Launching a file with build and program arguments. *)
Definition launch (file : string) : Debug.MojoDebugConfiguration :=
  {| Debug.type := Some "mojo-lldb"; Debug.name := Some "Debug main";
     Debug.pid := Some (Debug.PidString "42"); Debug.request := Some "launch";
     Debug.modularHomePath := None; Debug.modularConfigMojoSection := None;
     Debug.args := Some ["--flag"]; Debug.program := None;
     Debug.mojoFile := Some file;
     Debug.env := Some ["A=1"]; Debug.enableAutoVariableSummaries := Some false;
     Debug.commandEscapePrefix := None; Debug.timeout := Some 10%Z;
     Debug.initCommands := Some ["settings show"]; Debug.customFrameFormat := None;
     Debug.runInTerminal := None; Debug.buildArgs := Some ["-D"; "X=1"];
     Debug.enableSyntheticChildDebugging := None |}.

End ScenarioDebug.

(** ** Scenarios for the translation and the diagnostics filter *)
Module ScenarioCuda.

(** The translation example: a process id, stop on entry, two environment
    strings. *)
Definition attach : CudaGdb.MojoCudaGdbDebugConfiguration :=
  {| CudaGdb.type := Some "mojo-cuda-gdb"; CudaGdb.description := None;
     CudaGdb.name := Some "attach"; CudaGdb.pid := Some (Debug.PidNumber (Some 42%Z));
     CudaGdb.modularHomePath := None; CudaGdb.args := None; CudaGdb.program := None;
     CudaGdb.mojoFile := None; CudaGdb.env := Some ["A=1"; "B=2=3"];
     CudaGdb.cwd := None; CudaGdb.initCommands := None;
     CudaGdb.stopOnEntry := Some true; CudaGdb.breakOnLaunch := None |}.

(** Launching a file that is no Mojo source. *)
Definition launchText : CudaGdb.MojoCudaGdbDebugConfiguration :=
  {| CudaGdb.type := Some "mojo-cuda-gdb"; CudaGdb.description := None;
     CudaGdb.name := None; CudaGdb.pid := None;
     CudaGdb.modularHomePath := None; CudaGdb.args := Some ["--flag"];
     CudaGdb.program := None; CudaGdb.mojoFile := Some "/a/b/main.txt";
     CudaGdb.env := None; CudaGdb.cwd := None; CudaGdb.initCommands := None;
     CudaGdb.stopOnEntry := None; CudaGdb.breakOnLaunch := None |}.

End ScenarioCuda.

Module ScenarioLsp.

Definition diagnostic (first last : nat) (text : string) : Lsp.Diagnostic :=
  {| Lsp.range := {| range_start := {| line := first; character := 0 |};
                     range_end := {| line := last; character := 1 |} |};
     Lsp.message := text |}.

(** A document of six lines: a function whose docstring spans lines 1 to 4. *)
Definition docstringHost : Lsp.Host :=
  {| Lsp.suppressInDocstring := true;
     Lsp.lineText := λ n,
       [ "fn f():";
         "    " +:+ Lsp.tripleQuote +:+ "Summary.";
         "    Uses `undefined_name`.";
         "    More text.";
         "    " +:+ Lsp.tripleQuote;
         "    return g()" ] !! n;
     Lsp.trimStart := λ s, String.substring 4 (String.length s - 4) s;
     Lsp.foldingRanges := [ {| Lsp.start := 0; Lsp.end_ := 5 |};
                            {| Lsp.start := 1; Lsp.end_ := 4 |} ] |}.

(** The same document with a stale folding range that starts past its end. *)
Definition staleHost : Lsp.Host :=
  {| Lsp.suppressInDocstring := true;
     Lsp.lineText := Lsp.lineText docstringHost;
     Lsp.trimStart := Lsp.trimStart docstringHost;
     Lsp.foldingRanges := [ {| Lsp.start := 1; Lsp.end_ := 4 |};
                            {| Lsp.start := 9; Lsp.end_ := 12 |} ] |}.

End ScenarioLsp.

(** A folding range that is a docstring: the text of its first line, with
    leading white space trimmed, starts with three double quotes. *)
Definition isDocstring (h : Lsp.Host) (r : Lsp.FoldingRange) : Prop :=
  ∃ text, Lsp.lineText h (Lsp.start r) = Some text
          ∧ String.prefix Lsp.tripleQuote (Lsp.trimStart h text) = true.

(** The diagnostic lies strictly inside the range: it starts after the first
    line of the range and ends before its last line. *)
Definition strictlyInside (d : Lsp.Diagnostic) (r : Lsp.FoldingRange) : Prop :=
  Lsp.start r < line (range_start (Lsp.range d))
  ∧ line (range_end (Lsp.range d)) < Lsp.end_ r.

(** The diagnostic lies strictly inside one of the folding ranges of the
    document that is a docstring. *)
Definition inDocstring (h : Lsp.Host) (d : Lsp.Diagnostic) : Prop :=
  ∃ r, r ∈ Lsp.foldingRanges h ∧ isDocstring h r ∧ strictlyInside d r.

#[global] Instance isDocstring_dec (h : Lsp.Host) (r : Lsp.FoldingRange) :
  Decision (isDocstring h r).
Proof.
  unfold isDocstring. destruct (Lsp.lineText h (Lsp.start r)) as [text|].
  - destruct (String.prefix Lsp.tripleQuote (Lsp.trimStart h text)) eqn:E.
    + left. by exists text.
    + right. intros (t & [= <-] & Ht). congruence.
  - right. by intros (t & Ht & _).
Defined.

#[global] Instance strictlyInside_dec (d : Lsp.Diagnostic) (r : Lsp.FoldingRange) :
  Decision (strictlyInside d r).
Proof. unfold strictlyInside. apply _. Defined.

#[global] Instance inDocstring_dec (h : Lsp.Host) (d : Lsp.Diagnostic) :
  Decision (inDocstring h d).
Proof.
  refine (cast_if (decide (Exists (λ r, isDocstring h r ∧ strictlyInside d r)
                             (Lsp.foldingRanges h))));
    unfold inDocstring; rewrite Exists_exists in *; naive_solver.
Defined.

(** ** Running the monad *)

Example posix_join_raw_mojo :
  Posix.join ["/venv/lib/python3.12/site-packages/modular/lib"; ".."; "bin"; "mojo"]
  = "/venv/lib/python3.12/site-packages/modular/bin/mojo".
Proof. vm_compute. reflexivity. Qed.

Example posix_join_relative : Posix.join [""; "a"; "."; "b/"] = "a/b/".
Proof. vm_compute. reflexivity. Qed.

(** Before [init()] has stored the API object the assertion at the head of
    [findActiveSDK] throws, and nothing is probed. *)
Lemma findActiveSDK_before_init (w : World) :
  findActiveSDK w {| mgr := initialManager; heap := [] |}
    = (Throw "AssertionError", {| mgr := initialManager; heap := [] |}, []).
Proof. reflexivity. Qed.

Lemma displaySDKError_run (message : string) (st : State) :
  displaySDKError message st =
    if displayedSDKError (mgr st) then (Ret tt, st, [])
    else (Ret tt, {| mgr := set_displayedSDKError true (mgr st); heap := heap st |},
          [EvShowErrorMessage message]).
Proof.
  unfold displaySDKError, bind, getMgr. simpl.
  destruct (displayedSDKError (mgr st)); reflexivity.
Qed.

Lemma handleEnvironmentChange_run (newEnv : string) (st : State) :
  handleEnvironmentChange newEnv st =
    if bool_decide (Some newEnv = lastLoadedEnv (mgr st)) then (Ret tt, st, [])
    else (Ret tt, {| mgr := set_displayedSDKError false (mgr st); heap := heap st |},
          [EvFire]).
Proof.
  unfold handleEnvironmentChange, bind, getMgr. simpl.
  case_bool_decide; reflexivity.
Qed.

(** ** The environment-change handler (C1) *)

(** A call with the key that was observed last changes nothing and notifies
    nobody. *)
Lemma handleEnvironmentChange_same_key (newEnv : string) (st : State) :
  lastLoadedEnv (mgr st) = Some newEnv →
  handleEnvironmentChange newEnv st = (Ret tt, st, []).
Proof.
  intros H. rewrite handleEnvironmentChange_run, H.
  by rewrite bool_decide_eq_true_2.
Qed.

(** C1 (the code departs from the claim).  With a key that differs from the
    last observed one the handler fires exactly one notification and clears
    the error-already-shown flag, but the cached descriptor stays in its slot:
    the next [getActiveSDK] answers with that same instance and probes
    nothing, whatever the host would now report. *)
Theorem handleEnvironmentChange_keeps_cache (w : World) (newEnv : string)
    (st : State) (r : ref) :
  Some newEnv ≠ lastLoadedEnv (mgr st) →
  activeSDK (mgr st) = Some r →
  ∃ st', handleEnvironmentChange newEnv st = (Ret tt, st', [EvFire])
         ∧ displayedSDKError (mgr st') = false
         ∧ lastLoadedEnv (mgr st') = lastLoadedEnv (mgr st)
         ∧ activeSDK (mgr st') = Some r
         ∧ heap st' = heap st
         ∧ getActiveSDK w st' = (Ret (Some r), st', []).
Proof.
  intros Hne Hc. eexists. split.
  - rewrite handleEnvironmentChange_run. by rewrite bool_decide_eq_false_2.
  - simpl. repeat split; try done.
    unfold getActiveSDK, bind, getMgr. simpl. by rewrite Hc.
Qed.

(** The cache holds the descriptor of [/envA]; the active environment becomes
    [/envB]. *)
Lemma handleEnvironmentChange_keeps_cache_witness :
  let st := {| mgr := {| api := true; displayedSDKError := true;
                         lastLoadedEnv := Some "/envA"; activeSDK := Some 0 |};
               heap := [wheelSDK "mojo 25.1.0" (Some "/envA/bin/mojo-lsp-server")
                          (Some "/envA/bin/mblack") (Some "/envA/lib/libMojoLLDB.so")
                          (Some "/envA/bin/lldb-dap") (Some "/envA/bin/mojo")
                          (Some "/envA/lib/lldb-visualizers") (Some "/envA/bin/mojo-lldb")] |} in
  ∃ st', handleEnvironmentChange "/envB" st = (Ret tt, st', [EvFire])
         ∧ displayedSDKError (mgr st') = false
         ∧ lastLoadedEnv (mgr st') = Some "/envA"
         ∧ activeSDK (mgr st') = Some 0
         ∧ heap st' = heap st
         ∧ getActiveSDK Scenario.wheel st' = (Ret (Some 0), st', []).
Proof.
  intros st.
  apply (handleEnvironmentChange_keeps_cache Scenario.wheel "/envB" st 0).
  - simpl. congruence.
  - reflexivity.
Defined.

(** ** Home-path descriptor construction (C2) *)

(** With both sections present the [try] block runs to its end: the
    descriptor is allocated with whatever the seven lookups produced. *)
Lemma createSDKFromHomePath_with_sections (w : World) (k : SDKKind)
    (homeDir : string) (prefix : option string) (st : State)
    (bytes : list Byte.byte) (contents : string) (config : gmap string IniValue)
    (mx sec : gmap string string) :
  fs_readFile w (path_join w [homeDir; "modular.cfg"]) = inr bytes →
  decode w bytes = Some contents →
  ini_parse w contents = Some config →
  config !! "max" = Some (IniSection mx) →
  config !! "mojo-max" = Some (IniSection sec) →
  createSDKFromHomePath w k homeDir prefix st =
    (Ret (Some (length (heap st))),
     {| mgr := mgr st;
        heap := heap st ++ [sdkOfSection k (default "0.0.0" (mx !! "version"))
                              homeDir sec prefix] |},
     [EvReadFile (path_join w [homeDir; "modular.cfg"]);
      EvTelemetry "sdkLoaded" (default "0.0.0" (mx !! "version")) k]).
Proof.
  intros Hread Hdec Hparse Hmax Hsec.
  unfold createSDKFromHomePath, bind, emit. simpl.
  rewrite Hread, Hdec, Hparse. unfold try_catch, bind. rewrite Hmax, Hsec. simpl.
  destruct (mx !! "version") as [v|] eqn:Hv; simpl; reflexivity.
Qed.

(** C2 (the code departs from the claim).  Take a descriptor file that is
    readable, decodable and parsable and has both a [max] and a [mojo-max]
    section, and let one of the seven required keys be absent from the
    latter.  Construction still succeeds: it returns a new descriptor whose
    field for that key is unset, shows no dialog and leaves the
    error-already-shown flag alone. *)
Theorem createSDKFromHomePath_missing_key_unset (w : World) (k : SDKKind)
    (homeDir : string) (prefix : option string) (st : State)
    (bytes : list Byte.byte) (contents : string) (config : gmap string IniValue)
    (mx sec : gmap string string) (key : string) :
  fs_readFile w (path_join w [homeDir; "modular.cfg"]) = inr bytes →
  decode w bytes = Some contents →
  ini_parse w contents = Some config →
  config !! "max" = Some (IniSection mx) →
  config !! "mojo-max" = Some (IniSection sec) →
  key ∈ requiredKeys →
  sec !! key = None →
  ∃ st' tr sdk,
    createSDKFromHomePath w k homeDir prefix st = (Ret (Some (length (heap st))), st', tr)
    ∧ heap st' !! length (heap st) = Some sdk
    ∧ pathField key sdk = None
    ∧ dialogs tr = 0
    ∧ mgr st' = mgr st.
Proof.
  intros Hread Hdec Hparse Hmax Hsec Hkey Hnone.
  do 3 eexists. split; [by eapply createSDKFromHomePath_with_sections|].
  split; [|split; [|done]].
  - cbn [heap]. rewrite lookup_app_r by done. by rewrite Nat.sub_diag.
  - unfold requiredKeys in Hkey.
    repeat (apply elem_of_cons in Hkey as [->|Hkey]; [exact Hnone|]).
    by apply elem_of_nil in Hkey.
Qed.

(** The failing input: a file with both sections from which only
    [lsp_server_path] is absent yields a descriptor whose language-server
    path is unset, and no error is reported. *)
Lemma createSDKFromHomePath_missing_key_unset_witness :
  let w := Scenario.conda Scenario.cfg_without_lsp in
  ∃ st' tr sdk,
    createSDKFromHomePath w Environment "/venv/share/max" (Some "/venv") readyState
      = (Ret (Some 0), st', tr)
    ∧ heap st' !! 0 = Some sdk
    ∧ lspPath sdk = None
    ∧ dialogs tr = 0
    ∧ mgr st' = readyManager.
Proof.
  intros w.
  apply (createSDKFromHomePath_missing_key_unset w Environment "/venv/share/max"
           (Some "/venv") readyState [] "" Scenario.cfg_without_lsp
           {[ "version" := "25.1.0" ]}
           (<[ "mblack_path" := "/sdk/bin/mblack" ]>
            (<[ "lldb_plugin_path" := "/sdk/lib/libMojoLLDB.so" ]>
             (<[ "lldb_vscode_path" := "/sdk/bin/lldb-dap" ]>
              (<[ "driver_path" := "/sdk/bin/mojo" ]>
               (<[ "lldb_visualizers_path" := "/sdk/lib/lldb-visualizers" ]>
                {[ "lldb_path" := "/sdk/bin/mojo-lldb" ]})))))
           "lsp_server_path");
    try (vm_compute; reflexivity).
  constructor.
Defined.

(** Without a [mojo-max] section the construction does fail, after the
    telemetry event has been sent. *)
Lemma createSDKFromHomePath_no_section (w : World) (k : SDKKind)
    (homeDir : string) (prefix : option string) (st : State)
    (bytes : list Byte.byte) (contents : string) (config : gmap string IniValue)
    (mx : gmap string string) :
  fs_readFile w (path_join w [homeDir; "modular.cfg"]) = inr bytes →
  decode w bytes = Some contents →
  ini_parse w contents = Some config →
  config !! "max" = Some (IniSection mx) →
  config !! "mojo-max" = None →
  ∃ st' tr, createSDKFromHomePath w k homeDir prefix st = (Ret None, st', tr)
            ∧ heap st' = heap st
            ∧ displayedSDKError (mgr st') = true.
Proof.
  intros Hread Hdec Hparse Hmax Hsec.
  unfold createSDKFromHomePath, bind, emit. simpl.
  rewrite Hread, Hdec, Hparse. unfold try_catch, bind. rewrite Hmax, Hsec. simpl.
  destruct (mx !! "version"); simpl;
    rewrite displaySDKError_run;
    destruct (displayedSDKError (mgr st)) eqn:E; simpl; eauto 10.
Qed.

(** ** The cache of [getActiveSDK] (C4) *)

(** C4.  Once [getActiveSDK] has returned a descriptor, the next call returns
    the same reference, leaves the manager and the heap (hence the instance
    itself) as they are, and interacts with nothing: its trace is empty
    whatever the host would answer by then. *)
Theorem getActiveSDK_cached (w1 w2 : World) (st st1 : State) (tr1 : list Event)
    (r : ref) :
  getActiveSDK w1 st = (Ret (Some r), st1, tr1) →
  getActiveSDK w2 st1 = (Ret (Some r), st1, []).
Proof.
  unfold getActiveSDK, bind, getMgr. simpl.
  destruct (activeSDK (mgr st)) as [c|] eqn:Hc.
  - intros [= -> <- <-]. by rewrite Hc.
  - destruct (findActiveSDK w1 st) as [[[found|e] st0] tr0]; simpl.
    + intros [= -> <- <-]. reflexivity.
    + discriminate.
Qed.

(** A wheel installation is resolved once; the second call happens after
    everything has vanished from the host. *)
Lemma getActiveSDK_cached_witness :
  ∃ st1 tr1,
    getActiveSDK Scenario.wheel readyState = (Ret (Some 0), st1, tr1)
    ∧ length tr1 = 12
    ∧ getActiveSDK Posix.bare st1 = (Ret (Some 0), st1, []).
Proof.
  do 2 eexists. split; [vm_compute; reflexivity|]. split; [reflexivity|].
  eapply (getActiveSDK_cached Scenario.wheel Posix.bare readyState).
  vm_compute. reflexivity.
Defined.

(** ** Process environments (C6) *)

(** C6, as stated, would make the legacy variable carry the value of
    [MODULAR_HOME].  The descriptor of a Conda-like environment is built with
    home [<prefix>/share/max] and prefix [<prefix>]: the two variables differ. *)
Lemma getProcessEnv_legacy_is_not_home :
  let sdk := sdkOfSection Environment "25.1.0" "/venv/share/max" ∅ (Some "/venv") in
  getProcessEnv sdk true !! "MODULAR_HOME" = Some (Some "/venv/share/max")
  ∧ getProcessEnv sdk true !! "CONDA_PREFIX" = Some (Some "/venv")
  ∧ getProcessEnv sdk true !! "CONDA_PREFIX" ≠ getProcessEnv sdk true !! "MODULAR_HOME".
Proof. vm_compute. repeat split; congruence. Qed.

(** C6 (amended).  Every descriptor's environment binds
    [MODULAR_TELEMETRY_ENABLED] to ['true'] or ['false'] as the argument says.
    A home-path descriptor binds, besides, [MODULAR_HOME] to its home path and
    [CONDA_PREFIX] to its optional prefix path ([undefined] when none was
    given), and nothing else; any other descriptor binds the telemetry flag
    only. *)
Theorem getProcessEnv_contents (sdk : SDK) (withTelemetry : bool) :
  let env := getProcessEnv sdk withTelemetry in
  env !! "MODULAR_TELEMETRY_ENABLED" = Some (Some (if withTelemetry then "true" else "false"))
  ∧ (∀ h, home sdk = Some h →
       env !! "MODULAR_HOME" = Some (Some (homePath h))
       ∧ env !! "CONDA_PREFIX" = Some (prefixPath h)
       ∧ dom env = {[ "MODULAR_TELEMETRY_ENABLED"; "MODULAR_HOME"; "CONDA_PREFIX" ]})
  ∧ (home sdk = None →
       env = {[ "MODULAR_TELEMETRY_ENABLED" := Some (if withTelemetry then "true" else "false") ]}).
Proof.
  unfold getProcessEnv. destruct (home sdk) as [h|]; simpl.
  - split; [|split].
    + rewrite !lookup_insert_ne by done. apply lookup_singleton_eq.
    + intros h' [= <-]. split; [|split].
      * rewrite lookup_insert_ne by done. apply lookup_insert_eq.
      * apply lookup_insert_eq.
      * rewrite !dom_insert_L, dom_singleton_L. set_solver.
    + discriminate.
  - split; [|split].
    + apply lookup_singleton_eq.
    + discriminate.
    + reflexivity.
Qed.

(** The descriptors the manager builds: a wheel descriptor has the telemetry
    flag only; a workspace-local one, built without a prefix, has
    [CONDA_PREFIX] bound to [undefined]. *)
Lemma getProcessEnv_contents_witness :
  getProcessEnv (wheelSDK "mojo 25.1.0" None None None None None None None) false
    = {[ "MODULAR_TELEMETRY_ENABLED" := Some "false" ]}
  ∧ getProcessEnv (sdkOfSection Internal "0.0.0" "/repo/.derived" ∅ None) true
      !! "CONDA_PREFIX" = Some None
  ∧ getProcessEnv (sdkOfSection Internal "0.0.0" "/repo/.derived" ∅ None) true
      !! "MODULAR_HOME" = Some (Some "/repo/.derived").
Proof.
  pose proof (getProcessEnv_contents
                (wheelSDK "mojo 25.1.0" None None None None None None None) false) as Hw.
  pose proof (getProcessEnv_contents
                (sdkOfSection Internal "0.0.0" "/repo/.derived" ∅ None) true) as Hh.
  cbv zeta in Hw, Hh.
  destruct Hw as (_ & _ & Hw). destruct Hh as (_ & Hh & _).
  destruct (Hh _ eq_refl) as (Hhome & Hprefix & _).
  exact (conj (Hw eq_refl) (conj Hprefix Hhome)).
Defined.

(** ** Source priority in [findActiveSDK] (C3, C7) *)

Section FindActiveSDK.

Variable w : World.

Let envPath := activeEnvironmentPath w.

(** What [findActiveSDK] does once the workspace-local source has answered
    [undefined]. *)
Lemma findActiveSDK_after_monorepo (st st1 : State) (tr1 : list Event) :
  api (mgr st) = true →
  tryGetMonorepoSDK w st = (Ret None, st1, tr1) →
  findActiveSDK w st =
    (let '(o, st2, tr2) :=
       (match resolveEnvironment w envPath with
        | None =>
            displaySDKError
              "Unable to load a Python enviroment from the VS Code Python extension.";;
            ret None
        | Some env =>
            do cfg <- envHasModularCfg w env;
            if cfg then
              createSDKFromHomePath w Environment
                (path_join w [sysPrefix env; "share"; "max"]) (Some (sysPrefix env))
            else createSDKFromWheelEnv w env
        end) {| mgr := set_lastLoadedEnv (Some envPath) (mgr st1); heap := heap st1 |} in
     (o, st2, tr1 ++ EvGetActiveEnvironmentPath :: EvResolveEnvironment envPath :: tr2)).
Proof.
  intros Hapi Hm. unfold findActiveSDK, bind at 1, getMgr. rewrite Hapi. simpl.
  unfold bind at 1. rewrite Hm.
  unfold bind at 1, emit. unfold bind at 1. unfold bind at 1, modifyMgr. simpl.
  fold envPath.
  match goal with
  | |- context [?m {| mgr := set_lastLoadedEnv ?e ?g; heap := ?h |}] =>
      destruct (m {| mgr := set_lastLoadedEnv e g; heap := h |}) as [[o st2] tr2]
  end.
  reflexivity.
Qed.

(** A workspace-local descriptor is returned as it is: the state and the
    trace are those of [tryGetMonorepoSDK]. *)
Lemma findActiveSDK_monorepo_found (st st1 : State) (tr1 : list Event) (r : ref) :
  api (mgr st) = true →
  tryGetMonorepoSDK w st = (Ret (Some r), st1, tr1) →
  findActiveSDK w st = (Ret (Some r), st1, tr1).
Proof.
  intros Hapi Hm. unfold findActiveSDK, bind at 1, getMgr. rewrite Hapi. simpl.
  unfold bind, ret. rewrite Hm. by rewrite app_nil_r.
Qed.

(** The workspace-local source probes nothing unless exactly one workspace
    root is open. *)
Lemma tryGetMonorepoSDK_needs_single_root (st : State) :
  (∀ root, workspaceFolders w ≠ Some [root]) →
  tryGetMonorepoSDK w st = (Ret None, st, []).
Proof.
  intros Hroots. unfold tryGetMonorepoSDK.
  destruct (workspaceFolders w) as [[|root [|root' rest]]|]; try reflexivity.
  by destruct (Hroots root).
Qed.

(** A [.derived] that cannot be stat-ed, or is no directory, is skipped
    without a trace beyond the probe. *)
Lemma tryGetMonorepoSDK_no_directory (st : State) (root : string) :
  workspaceFolders w = Some [root] →
  match fs_stat w (uri_joinPath w root ".derived") with
  | None => True
  | Some info => Z.land (ftype info) FileType_Directory = 0%Z
  end →
  tryGetMonorepoSDK w st = (Ret None, st, [EvStat (uri_joinPath w root ".derived")]).
Proof.
  intros Hroots Hstat. unfold tryGetMonorepoSDK. rewrite Hroots. simpl.
  unfold bind, emit. simpl.
  destruct (fs_stat w (uri_joinPath w root ".derived")) as [info|]; [|reflexivity].
  by rewrite bool_decide_eq_true_2.
Qed.

(** A [.derived] directory is handed to the home-path construction with
    kind [Internal] and no prefix. *)
Lemma tryGetMonorepoSDK_directory (st : State) (root : string) (info : FileStat) :
  workspaceFolders w = Some [root] →
  fs_stat w (uri_joinPath w root ".derived") = Some info →
  Z.land (ftype info) FileType_Directory ≠ 0%Z →
  tryGetMonorepoSDK w st =
    (let '(o, st1, tr1) :=
       createSDKFromHomePath w Internal (uri_joinPath w root ".derived") None st in
     (o, st1, EvStat (uri_joinPath w root ".derived") :: tr1)).
Proof.
  intros Hroots Hstat Hdir. unfold tryGetMonorepoSDK. rewrite Hroots. simpl.
  unfold bind at 1, emit. simpl. rewrite Hstat.
  by rewrite bool_decide_eq_false_2.
Qed.

End FindActiveSDK.

Lemma getActiveSDK_miss (w : World) (st st1 : State) (tr : list Event)
    (found : option ref) :
  activeSDK (mgr st) = None →
  findActiveSDK w st = (Ret found, st1, tr) →
  getActiveSDK w st =
    (Ret found, {| mgr := set_activeSDK found (mgr st1); heap := heap st1 |}, tr).
Proof.
  intros Hc Hf. unfold getActiveSDK, bind at 1, getMgr. simpl. rewrite Hc.
  unfold bind, modifyMgr, ret. rewrite Hf. simpl. by rewrite app_nil_r.
Qed.

(** Every failed construction from a home path has gone through
    [displaySDKError]: nothing is allocated, the error-already-shown flag is
    raised afterwards, and exactly one dialog has been shown unless the flag
    was raised before. *)
Lemma createSDKFromHomePath_failure_reported (w : World) (k : SDKKind)
    (homeDir : string) (prefix : option string) (st st1 : State) (tr1 : list Event) :
  createSDKFromHomePath w k homeDir prefix st = (Ret None, st1, tr1) →
  heap st1 = heap st
  ∧ displayedSDKError (mgr st1) = true
  ∧ dialogs tr1 = b2n (negb (displayedSDKError (mgr st))).
Proof.
  unfold createSDKFromHomePath, bind, emit. simpl.
  destruct (fs_readFile w (path_join w [homeDir; "modular.cfg"])) as [e|bytes].
  { rewrite displaySDKError_run.
    destruct (displayedSDKError (mgr st)) eqn:E; simpl; by intros [= <- <-]. }
  destruct (decode w bytes) as [contents|].
  2:{ rewrite displaySDKError_run.
      destruct (displayedSDKError (mgr st)) eqn:E; simpl; by intros [= <- <-]. }
  destruct (ini_parse w contents) as [config|].
  2:{ rewrite displaySDKError_run.
      destruct (displayedSDKError (mgr st)) eqn:E; simpl; by intros [= <- <-]. }
  unfold try_catch, bind.
  destruct (config !! "max") as [[s|mx]|]; simpl.
  1,3: rewrite displaySDKError_run;
    destruct (displayedSDKError (mgr st)) eqn:E; simpl; by intros [= <- <-].
  destruct (config !! "mojo-max") as [[s|sec]|];
    destruct (mx !! "version") as [v|]; simpl; try discriminate;
    rewrite displaySDKError_run;
    destruct (displayedSDKError (mgr st)) eqn:E; simpl; by intros [= <- <-].
Qed.

(** C3, as stated, lets every failure of the workspace-local source pass
    without a user-visible error.  With one root [/repo] whose [.derived]
    directory holds no readable [modular.cfg], the source fails and falls
    through, but a dialog has been shown on the way. *)
Lemma tryGetMonorepoSDK_failure_shows_dialog :
  tryGetMonorepoSDK Scenario.derived_without_cfg readyState
    = (Ret None,
       {| mgr := set_displayedSDKError true readyManager; heap := [] |},
       [EvStat "/repo/.derived"; EvReadFile "/repo/.derived/modular.cfg";
        EvShowErrorMessage "Unable to read modular.cfg: ENOENT"])
  ∧ findActiveSDK Scenario.derived_without_cfg readyState
    = (Ret None,
       {| mgr := set_displayedSDKError true
                   (set_lastLoadedEnv (Some "/venv/bin/python") readyManager);
          heap := [] |},
       [EvStat "/repo/.derived"; EvReadFile "/repo/.derived/modular.cfg";
        EvShowErrorMessage "Unable to read modular.cfg: ENOENT";
        EvGetActiveEnvironmentPath; EvResolveEnvironment "/venv/bin/python"]).
Proof. split; vm_compute; reflexivity. Qed.

(** C3 (amended).  For a manager whose API is initialised:
    - a [.derived] directory under the single workspace root whose descriptor
      file has both sections is resolved as an [Internal] descriptor, and the
      trace shows that the active environment was never consulted, whatever it
      holds; [getActiveSDK] with an empty cache returns and caches it;
    - unless exactly one workspace root is open the workspace-local source
      probes nothing;
    - when [.derived] cannot be stat-ed or is not a directory, the source
      yields [undefined] with no dialog and an unchanged state;
    - when [.derived] is a directory and the construction from it fails, the
      failure has been reported through the deduplicated dialog: nothing is
      allocated, the error-already-shown flag is raised afterwards, and the
      trace holds exactly one dialog unless the flag was already raised, in
      which case it holds none;
    - whenever the source yields [undefined], for whatever reason,
      [findActiveSDK] goes on to query the active environment. *)
Theorem findActiveSDK_workspace_priority (w : World) (st : State) :
  api (mgr st) = true →
  (∀ root info bytes contents config mx sec,
     let folder := uri_joinPath w root ".derived" in
     let ver := default "0.0.0" (mx !! "version") in
     let st1 := {| mgr := mgr st;
                   heap := heap st ++ [sdkOfSection Internal ver folder sec None] |} in
     let tr := [EvStat folder; EvReadFile (path_join w [folder; "modular.cfg"]);
                EvTelemetry "sdkLoaded" ver Internal] in
     workspaceFolders w = Some [root] →
     fs_stat w folder = Some info →
     Z.land (ftype info) FileType_Directory ≠ 0%Z →
     fs_readFile w (path_join w [folder; "modular.cfg"]) = inr bytes →
     decode w bytes = Some contents →
     ini_parse w contents = Some config →
     config !! "max" = Some (IniSection mx) →
     config !! "mojo-max" = Some (IniSection sec) →
     findActiveSDK w st = (Ret (Some (length (heap st))), st1, tr)
     ∧ (activeSDK (mgr st) = None →
        getActiveSDK w st =
          (Ret (Some (length (heap st))),
           {| mgr := set_activeSDK (Some (length (heap st))) (mgr st1); heap := heap st1 |},
           tr)))
  ∧ ((∀ root, workspaceFolders w ≠ Some [root]) →
     tryGetMonorepoSDK w st = (Ret None, st, []))
  ∧ (∀ root,
       workspaceFolders w = Some [root] →
       match fs_stat w (uri_joinPath w root ".derived") with
       | None => True
       | Some info => Z.land (ftype info) FileType_Directory = 0%Z
       end →
       tryGetMonorepoSDK w st = (Ret None, st, [EvStat (uri_joinPath w root ".derived")]))
  ∧ (∀ root info st1 tr1,
       workspaceFolders w = Some [root] →
       fs_stat w (uri_joinPath w root ".derived") = Some info →
       Z.land (ftype info) FileType_Directory ≠ 0%Z →
       tryGetMonorepoSDK w st = (Ret None, st1, tr1) →
       heap st1 = heap st
       ∧ displayedSDKError (mgr st1) = true
       ∧ dialogs tr1 = b2n (negb (displayedSDKError (mgr st))))
  ∧ (∀ st1 tr1,
       tryGetMonorepoSDK w st = (Ret None, st1, tr1) →
       ∃ o st2 tr2,
         findActiveSDK w st =
           (o, st2, tr1 ++ EvGetActiveEnvironmentPath
                        :: EvResolveEnvironment (activeEnvironmentPath w) :: tr2)).
Proof.
  intros Hapi. split; [|split; [|split; [|split]]].
  - intros root info bytes contents config mx sec folder ver st1 tr
      Hroots Hstat Hdir Hread Hdec Hparse Hmax Hsec.
    assert (findActiveSDK w st = (Ret (Some (length (heap st))), st1, tr)) as Hfind.
    { apply findActiveSDK_monorepo_found; [done|].
      rewrite (tryGetMonorepoSDK_directory w st root info Hroots Hstat Hdir).
      fold folder.
      by rewrite (createSDKFromHomePath_with_sections w Internal folder None st
                    bytes contents config mx sec Hread Hdec Hparse Hmax Hsec). }
    split; [done|]. intros Hc. by apply getActiveSDK_miss.
  - apply tryGetMonorepoSDK_needs_single_root.
  - apply tryGetMonorepoSDK_no_directory.
  - intros root info st1 tr1 Hroots Hstat Hdir.
    rewrite (tryGetMonorepoSDK_directory w st root info Hroots Hstat Hdir).
    destruct (createSDKFromHomePath w Internal (uri_joinPath w root ".derived") None st)
      as [[o st0] tr0] eqn:Hc.
    intros [= -> <- <-].
    destruct (createSDKFromHomePath_failure_reported _ _ _ _ _ _ _ Hc)
      as (Hheap & Hflag & Hdialogs).
    by repeat split.
  - intros st1 tr1 Hm. rewrite (findActiveSDK_after_monorepo w st st1 tr1 Hapi Hm).
    match goal with
    | |- context [?m {| mgr := set_lastLoadedEnv ?e ?g; heap := ?h |}] =>
        destruct (m {| mgr := set_lastLoadedEnv e g; heap := h |}) as [[o st2] tr2]
    end.
    eauto.
Qed.

(** A workspace [/repo] with a valid [.derived] installation next to a valid
    wheel installation in the active environment. *)
Lemma findActiveSDK_workspace_priority_witness :
  let w := Scenario.monorepo Scenario.complete_cfg in
  ∃ st1 sdk,
    findActiveSDK w readyState
      = (Ret (Some 0), st1,
         [EvStat "/repo/.derived"; EvReadFile "/repo/.derived/modular.cfg";
          EvTelemetry "sdkLoaded" "25.1.0" Internal])
    ∧ heap st1 !! 0 = Some sdk
    ∧ kind sdk = Internal
    ∧ lspPath sdk = Some "/sdk/bin/mojo-lsp-server".
Proof.
  intros w.
  destruct (findActiveSDK_workspace_priority w readyState eq_refl) as (Hprio & _).
  destruct (Hprio "/repo" Scenario.dir [] "" Scenario.complete_cfg
              {[ "version" := "25.1.0" ]}
              (<[ "lsp_server_path" := "/sdk/bin/mojo-lsp-server" ]>
               (<[ "mblack_path" := "/sdk/bin/mblack" ]>
                (<[ "lldb_plugin_path" := "/sdk/lib/libMojoLLDB.so" ]>
                 (<[ "lldb_vscode_path" := "/sdk/bin/lldb-dap" ]>
                  (<[ "driver_path" := "/sdk/bin/mojo" ]>
                   (<[ "lldb_visualizers_path" := "/sdk/lib/lldb-visualizers" ]>
                    {[ "lldb_path" := "/sdk/bin/mojo-lldb" ]}))))))
              eq_refl) as (Hfind & _);
    try (vm_compute; congruence).
  do 2 eexists. split.
  - rewrite Hfind. vm_compute. reflexivity.
  - vm_compute. repeat split; reflexivity.
Defined.

(** The terminal failure of the active-environment source. *)
Lemma findActiveSDK_unresolved (w : World) (st st1 : State) (tr1 : list Event) :
  api (mgr st) = true →
  tryGetMonorepoSDK w st = (Ret None, st1, tr1) →
  resolveEnvironment w (activeEnvironmentPath w) = None →
  findActiveSDK w st =
    (Ret None,
     {| mgr := set_displayedSDKError true
                 (set_lastLoadedEnv (Some (activeEnvironmentPath w)) (mgr st1));
        heap := heap st1 |},
     tr1 ++ [EvGetActiveEnvironmentPath; EvResolveEnvironment (activeEnvironmentPath w)]
         ++ (if displayedSDKError (mgr st1) then []
             else [EvShowErrorMessage
                     "Unable to load a Python enviroment from the VS Code Python extension."])).
Proof.
  intros Hapi Hm Hres.
  rewrite (findActiveSDK_after_monorepo w st st1 tr1 Hapi Hm), Hres.
  unfold bind. rewrite displaySDKError_run. simpl.
  destruct st1 as [[a d l c] h]. simpl. destruct d; reflexivity.
Qed.

(** C7.  When the workspace-local source has yielded [undefined] and the
    active environment path resolves to no environment record,
    [findActiveSDK] reports the error through [displaySDKError] (one dialog,
    unless one was already shown in this epoch) and returns [undefined]; after
    the two queries to the Python extension the trace holds nothing but that
    dialog, so no descriptor file is looked up or read, no path is stat-ed and
    no subprocess is run.  [getActiveSDK] with an empty cache answers
    alike. *)
Theorem findActiveSDK_no_environment (w : World) (st st1 : State)
    (tr1 : list Event) :
  api (mgr st) = true →
  tryGetMonorepoSDK w st = (Ret None, st1, tr1) →
  resolveEnvironment w (activeEnvironmentPath w) = None →
  let st2 :=
    {| mgr := set_displayedSDKError true
                (set_lastLoadedEnv (Some (activeEnvironmentPath w)) (mgr st1));
       heap := heap st1 |} in
  let tr :=
    tr1 ++ [EvGetActiveEnvironmentPath; EvResolveEnvironment (activeEnvironmentPath w)]
        ++ (if displayedSDKError (mgr st1) then []
            else [EvShowErrorMessage
                    "Unable to load a Python enviroment from the VS Code Python extension."]) in
  findActiveSDK w st = (Ret None, st2, tr)
  ∧ (activeSDK (mgr st) = None →
     getActiveSDK w st =
       (Ret None, {| mgr := set_activeSDK None (mgr st2); heap := heap st2 |}, tr)).
Proof.
  intros Hapi Hm Hres st2 tr.
  pose proof (findActiveSDK_unresolved w st st1 tr1 Hapi Hm Hres) as Hfind.
  split; [done|]. intros Hc. by apply getActiveSDK_miss.
Qed.

(** No workspace and no resolvable environment: one dialog, then silence on
    the retry. *)
Lemma findActiveSDK_no_environment_witness :
  ∃ st2,
    findActiveSDK Posix.bare readyState
      = (Ret None, st2,
         [EvGetActiveEnvironmentPath; EvResolveEnvironment "/venv/bin/python";
          EvShowErrorMessage
            "Unable to load a Python enviroment from the VS Code Python extension."])
    ∧ findActiveSDK Posix.bare st2
      = (Ret None, st2,
         [EvGetActiveEnvironmentPath; EvResolveEnvironment "/venv/bin/python"]).
Proof.
  eexists. split.
  - apply (findActiveSDK_no_environment Posix.bare readyState readyState []);
      reflexivity.
  - vm_compute. reflexivity.
Defined.

(** ** Packaged-distribution (wheel) construction (C8) *)








(** ** The scripting-support probe (C9) *)

Lemma append_cons (c : Ascii.ascii) (s t : string) :
  String c s +:+ t = String c (s +:+ t).
Proof. reflexivity. Qed.

Lemma append_nil (t : string) : "" +:+ t = t.
Proof. reflexivity. Qed.

Lemma prefix_spec (p s : string) :
  String.prefix p s = true ↔ ∃ post, s = p +:+ post.
Proof.
  revert s. induction p as [|c p IH]; intros s.
  - split; [intros _; by exists s | by destruct s].
  - destruct s as [|d s]; simpl.
    + split; [done|]. intros [post H]. by rewrite append_cons in H.
    + destruct (Ascii.ascii_dec c d) as [->|Hne].
      * rewrite IH. split; intros [post H]; exists post.
        -- by rewrite H.
        -- rewrite append_cons in H. congruence.
      * split; [done|]. intros [post H]. rewrite append_cons in H. congruence.
Qed.

Lemma contains_cons (c : Ascii.ascii) (s pat : string) :
  contains (String c s) pat ↔ String.prefix pat (String c s) = true ∨ contains s pat.
Proof.
  rewrite prefix_spec. split.
  - intros ([|d pre] & post & H).
    + left. by exists post.
    + right. rewrite append_cons in H. injection H as -> ->. by exists pre, post.
  - intros [[post H]|(pre & post & ->)].
    + by exists "", post.
    + by exists (String c pre), post.
Qed.

Lemma indexOf_from_spec (pat s : string) (i : Z) :
  (0 ≤ i)%Z → indexOf_from i s pat ≠ (-1)%Z ↔ contains s pat.
Proof.
  revert i. induction s as [|c s IH]; intros i Hi; cbn [indexOf_from].
  - destruct (String.prefix pat "") eqn:Hp.
    + split; [|intros _; lia]. intros _. apply prefix_spec in Hp as [post Hp].
      by exists "", post.
    + split; [done|]. intros ([|d pre] & post & H);
        [|by rewrite append_cons in H].
      rewrite append_nil in H. assert (String.prefix pat "" = true) as Hp'
        by (apply prefix_spec; by exists post).
      congruence.
  - rewrite contains_cons.
    destruct (String.prefix pat (String c s)) eqn:Hp.
    + split; [by left | intros _; lia].
    + rewrite IH by lia. split; [by right | by intros [?|?]].
Qed.

Lemma indexOf_contains (s pat : string) :
  indexOf s pat ≠ (-1)%Z ↔ contains s pat.
Proof. by apply indexOf_from_spec. Qed.

Example indexOf_found : indexOf "(lldb) script print(100+1)" "101" = (-1)%Z
                        ∧ indexOf "script print(100+1) 101" "101" = 20%Z.
Proof. split; reflexivity. Qed.

Lemma lldbHasPythonScriptingSupport_memoized (w : World) (r : ref) (st : State)
    (sdk : SDK) (b : bool) :
  heap st !! r = Some sdk →
  memo sdk = Some b →
  lldbHasPythonScriptingSupport w r st = (Ret b, st, []).
Proof.
  intros Hr Hm. unfold lldbHasPythonScriptingSupport, bind, deref.
  rewrite Hr, Hm. reflexivity.
Qed.

Lemma probeRepeatedly_memoized (ws : list World) (r : ref) (st : State)
    (sdk : SDK) (b : bool) :
  heap st !! r = Some sdk →
  memo sdk = Some b →
  probeRepeatedly ws r st = (replicate (length ws) (Ret b), st, []).
Proof.
  intros Hr Hm. induction ws as [|w ws IH]; simpl; [done|].
  by rewrite (lldbHasPythonScriptingSupport_memoized w r st sdk b), IH.
Qed.

Lemma lldbHasPythonScriptingSupport_first (w : World) (r : ref) (st : State)
    (sdk : SDK) (file : string) :
  heap st !! r = Some sdk →
  memo sdk = None →
  lldbPath sdk = Some file →
  let b := match execFile w file probeArgs with
           | Some (stdout, _) => negb (bool_decide (indexOf stdout "101" = (-1)%Z))
           | None => false
           end in
  lldbHasPythonScriptingSupport w r st =
    (Ret b, {| mgr := mgr st; heap := alter (set_memo b) r (heap st) |},
     [EvExecFile file probeArgs]).
Proof.
  intros Hr Hm Hf b. unfold lldbHasPythonScriptingSupport, bind at 1, deref.
  rewrite Hr, Hm. unfold probeScripting. rewrite Hf. fold probeArgs. subst b.
  unfold bind, try_catch, emit, store_memo. simpl.
  destruct (execFile w file probeArgs) as [[stdout stderr]|]; simpl; [|done].
  by destruct (bool_decide (indexOf stdout "101" = (-1)%Z)).
Qed.

(** C9.  On an instance that has not been probed yet and has a debugger path,
    the first call runs the debugger once with the scripted check and answers
    [true] exactly when the invocation succeeded and its standard output
    contains [101]; a failed invocation answers [false].  The answer is kept
    on the instance: however many calls follow, against whatever host, each
    returns the same answer, and the whole run has spawned the one
    subprocess. *)
Theorem lldbHasPythonScriptingSupport_spec (w : World) (r : ref) (st : State)
    (sdk : SDK) (file : string) :
  heap st !! r = Some sdk →
  memo sdk = None →
  lldbPath sdk = Some file →
  ∃ b : bool,
    (b = true ↔ ∃ stdout stderr, execFile w file probeArgs = Some (stdout, stderr)
                                 ∧ contains stdout "101")
    ∧ (execFile w file probeArgs = None → b = false)
    ∧ ∀ ws : list World,
        probeRepeatedly (w :: ws) r st =
          (replicate (S (length ws)) (Ret b),
           {| mgr := mgr st; heap := alter (set_memo b) r (heap st) |},
           [EvExecFile file probeArgs])
        ∧ probes (snd (probeRepeatedly (w :: ws) r st)) = 1.
Proof.
  intros Hr Hm Hf.
  pose proof (lldbHasPythonScriptingSupport_first w r st sdk file Hr Hm Hf) as Hfirst.
  cbv zeta in Hfirst.
  set (b := match execFile w file probeArgs with
            | Some (stdout, _) => negb (bool_decide (indexOf stdout "101" = (-1)%Z))
            | None => false
            end) in *.
  exists b. split; [|split].
  - subst b. destruct (execFile w file probeArgs) as [[stdout stderr]|].
    + rewrite negb_true_iff, bool_decide_eq_false, indexOf_contains.
      split.
      * intros Hc. by exists stdout, stderr.
      * intros (out & err & [= <- <-] & Hc). done.
    + split; [done|]. by intros (out & err & [=] & _).
  - subst b. by intros ->.
  - intros ws.
    assert (probeRepeatedly (w :: ws) r st =
              (replicate (S (length ws)) (Ret b),
               {| mgr := mgr st; heap := alter (set_memo b) r (heap st) |},
               [EvExecFile file probeArgs])) as Hrun.
    { simpl. rewrite Hfirst.
      rewrite (probeRepeatedly_memoized ws r _ (set_memo b sdk) b).
      - reflexivity.
      - cbn [heap]. rewrite list_lookup_alter_eq, Hr. reflexivity.
      - reflexivity. }
    split; [done|]. rewrite Hrun. reflexivity.
Qed.

(** Three calls on the descriptor of a wheel installation; the debugger is
    gone from the host after the first. *)
Lemma lldbHasPythonScriptingSupport_spec_witness :
  ∃ st1,
    probeRepeatedly [ScenarioProbe.scripting; Posix.bare; Posix.bare] 0
      ScenarioProbe.resolved
    = ([Ret true; Ret true; Ret true], st1, [EvExecFile "/venv/bin/mojo-lldb" probeArgs]).
Proof.
  destruct (lldbHasPythonScriptingSupport_spec ScenarioProbe.scripting 0
              ScenarioProbe.resolved
              (wheelDescriptor Scenario.wheel Scenario.venv
                 {| major := Some 3%N; minor := Some 12%N |} "mojo 25.1.0")
              "/venv/bin/mojo-lldb" eq_refl eq_refl eq_refl)
    as (b & Hiff & _ & Hrun).
  assert (b = true) as ->.
  { apply Hiff. exists "(lldb) script print(100+1) 101", "". split; [reflexivity|].
    by exists "(lldb) script print(100+1) ", "". }
  eexists. apply (proj1 (Hrun [Posix.bare; Posix.bare])).
Defined.

(** ** Error dialogs per epoch (C5) *)

Lemma dialogs_app (tr1 tr2 : list Event) : dialogs (tr1 ++ tr2) = dialogs tr1 + dialogs tr2.
Proof. unfold dialogs. by rewrite List.filter_app, length_app. Qed.

Lemma fires_app (tr1 tr2 : list Event) : fires (tr1 ++ tr2) = fires tr1 + fires tr2.
Proof. unfold fires. by rewrite List.filter_app, length_app. Qed.

Create HintDb quiet.

Lemma quiet_ret {A} (a : A) : quiet (ret a).
Proof. by intros st. Qed.

Lemma quiet_throw {A} (e : string) : quiet (@throw A e).
Proof. by intros st. Qed.

Lemma quiet_getMgr : quiet getMgr.
Proof. by intros st. Qed.

Lemma quiet_emit (e : Event) : is_dialog e = false → is_fire e = false → quiet (emit e).
Proof.
  intros Hd Hf st. unfold emit, dialogs, fires. simpl. by rewrite Hd, Hf.
Qed.

Lemma quiet_modifyMgr (f : Manager → Manager) :
  (∀ m, displayedSDKError (f m) = displayedSDKError m) → quiet (modifyMgr f).
Proof. intros Hf st. simpl. by rewrite Hf. Qed.

Lemma quiet_alloc (sdk : SDK) : quiet (alloc sdk).
Proof. by intros st. Qed.

Lemma quiet_deref (r : ref) : quiet (deref r).
Proof. intros st. unfold deref. by destruct (heap st !! r). Qed.

Lemma quiet_store_memo (r : ref) (b : bool) : quiet (store_memo r b).
Proof. by intros st. Qed.

Lemma quiet_displaySDKError (message : string) : quiet (displaySDKError message).
Proof.
  intros st. rewrite displaySDKError_run.
  by destruct (displayedSDKError (mgr st)) eqn:E; simpl; rewrite ?E.
Qed.

Lemma quiet_bind {A B} (m : M A) (k : A → M B) :
  quiet m → (∀ a, quiet (k a)) → quiet (bind m k).
Proof.
  intros Hm Hk st. unfold bind. specialize (Hm st).
  destruct (m st) as [[[a|e] st1] tr1]; simpl in *; [|done].
  specialize (Hk a st1). destruct (k a st1) as [[o st2] tr2]; simpl in *.
  rewrite dialogs_app, fires_app. lia.
Qed.

Lemma quiet_try_catch {A} (m : M A) (h : string → M A) :
  quiet m → (∀ e, quiet (h e)) → quiet (try_catch m h).
Proof.
  intros Hm Hh st. unfold try_catch. specialize (Hm st).
  destruct (m st) as [[[a|e] st1] tr1]; simpl in *; [done|].
  specialize (Hh e st1). destruct (h e st1) as [[o st2] tr2]; simpl in *.
  rewrite dialogs_app, fires_app. lia.
Qed.

#[local] Hint Resolve quiet_ret quiet_throw quiet_getMgr quiet_alloc quiet_deref
  quiet_store_memo quiet_displaySDKError : quiet.
#[local] Hint Extern 1 (quiet (emit _)) => (apply quiet_emit; reflexivity) : quiet.
#[local] Hint Extern 1 (quiet (modifyMgr _)) =>
  (apply quiet_modifyMgr; intros []; reflexivity) : quiet.

(** One step through the syntax of a computation. *)
Ltac quiet_step :=
  lazymatch goal with
  | |- quiet (bind _ _) => apply quiet_bind; [|intros ?]
  | |- quiet (try_catch _ _) => apply quiet_try_catch; [|intros ?]
  | |- quiet (match ?x with _ => _ end) => destruct x
  | |- quiet _ => solve [auto with quiet]
  end.

Ltac quiet_auto := cbv zeta; repeat quiet_step.

Lemma quiet_retrievePath (w : World) (target : string) : quiet (retrievePath w target).
Proof. unfold retrievePath. quiet_auto. Qed.

Lemma quiet_envHasModularCfg (w : World) (env : ResolvedEnvironment) :
  quiet (envHasModularCfg w env).
Proof. unfold envHasModularCfg. quiet_auto. Qed.

Lemma quiet_prop_in (key : string) (obj : option IniValue) : quiet (prop_in key obj).
Proof. unfold prop_in. quiet_auto. Qed.

Lemma quiet_prop_get (obj : option IniValue) (key : string) : quiet (prop_get obj key).
Proof. unfold prop_get. quiet_auto. Qed.

#[local] Hint Resolve quiet_retrievePath quiet_envHasModularCfg quiet_prop_in
  quiet_prop_get : quiet.

Lemma quiet_createSDKFromWheelEnv (w : World) (env : ResolvedEnvironment) :
  quiet (createSDKFromWheelEnv w env).
Proof. unfold createSDKFromWheelEnv. quiet_auto. Qed.

Lemma quiet_createSDKFromHomePath (w : World) (k : SDKKind) (homeDir : string)
    (prefix : option string) :
  quiet (createSDKFromHomePath w k homeDir prefix).
Proof. unfold createSDKFromHomePath. quiet_auto. Qed.

#[local] Hint Resolve quiet_createSDKFromWheelEnv quiet_createSDKFromHomePath : quiet.

Lemma quiet_tryGetMonorepoSDK (w : World) : quiet (tryGetMonorepoSDK w).
Proof. unfold tryGetMonorepoSDK. quiet_auto. Qed.

#[local] Hint Resolve quiet_tryGetMonorepoSDK : quiet.

Lemma quiet_findActiveSDK (w : World) : quiet (findActiveSDK w).
Proof. unfold findActiveSDK. quiet_auto. Qed.

#[local] Hint Resolve quiet_findActiveSDK : quiet.

Lemma quiet_getActiveSDK (w : World) : quiet (getActiveSDK w).
Proof. unfold getActiveSDK. quiet_auto. Qed.

Lemma quiet_lldbHasPythonScriptingSupport (w : World) (r : ref) :
  quiet (lldbHasPythonScriptingSupport w r).
Proof. unfold lldbHasPythonScriptingSupport, probeScripting. quiet_auto. Qed.

Lemma quiet_counts {A} (m : M A) (st : State) :
  quiet m →
  (dialogs (m st).2 + b2n (displayedSDKError (mgr st))
   ≤ fires (m st).2 + b2n (displayedSDKError (mgr (m st).1.2)))%nat.
Proof. intros Hq. destruct (Hq st) as [-> ->]. lia. Qed.

Lemma provideDocumentFormattingEdits_counts (w : World) (document : TextDocument)
    (st : State) :
  let res := provideDocumentFormattingEdits w document st in
  (dialogs res.2 + b2n (displayedSDKError (mgr st))
   ≤ fires res.2 + b2n (displayedSDKError (mgr res.1.2)))%nat.
Proof.
  pose proof (quiet_counts (getActiveSDK w) st (quiet_getActiveSDK w)) as Hq.
  unfold provideDocumentFormattingEdits.
  destruct (getActiveSDK w st) as [[[[r|]|e] st1] tr1]; simpl in *; try done.
  destruct (heap st1 !! r) as [sdk|]; simpl; [|done].
  destruct (mblackPath sdk); simpl; [|done].
  rewrite dialogs_app, fires_app. unfold dialogs, fires in *. simpl. lia.
Qed.

(** Every operation shows at most as many dialogs as the flag and the
    notifications account for. *)
Lemma step_counts (op : Op) (st : State) :
  (dialogs (step op st).2 + b2n (displayedSDKError (mgr st))
   ≤ fires (step op st).2 + b2n (displayedSDKError (mgr (step op st).1)))%nat.
Proof.
  destruct op as [w|w|w k homeDir prefix|w r|w document|newEnv]; simpl.
  - pose proof (quiet_counts _ st (quiet_getActiveSDK w)) as H.
    by destruct (getActiveSDK w st) as [[o st1] tr].
  - pose proof (quiet_counts _ st (quiet_findActiveSDK w)) as H.
    by destruct (findActiveSDK w st) as [[o st1] tr].
  - pose proof (quiet_counts _ st (quiet_createSDKFromHomePath w k homeDir prefix)) as H.
    by destruct (createSDKFromHomePath w k homeDir prefix st) as [[o st1] tr].
  - pose proof (quiet_counts _ st (quiet_lldbHasPythonScriptingSupport w r)) as H.
    by destruct (lldbHasPythonScriptingSupport w r st) as [[o st1] tr].
  - pose proof (provideDocumentFormattingEdits_counts w document st) as H.
    by destruct (provideDocumentFormattingEdits w document st) as [[o st1] tr].
  - rewrite handleEnvironmentChange_run.
    case_bool_decide; simpl; [lia|].
    unfold dialogs, fires. simpl. destruct (displayedSDKError (mgr st)); simpl; lia.
Qed.

Lemma run_counts (ops : list Op) (st : State) :
  (dialogs (run ops st).2 + b2n (displayedSDKError (mgr st))
   ≤ fires (run ops st).2 + b2n (displayedSDKError (mgr (run ops st).1)))%nat.
Proof.
  revert st. induction ops as [|op ops IH]; intros st; simpl; [lia|].
  pose proof (step_counts op st) as Hs.
  destruct (step op st) as [st1 tr1]. specialize (IH st1).
  destruct (run ops st1) as [st2 tr2]. simpl in *.
  rewrite dialogs_app, fires_app. lia.
Qed.

(** C5.  Over any sequence of operations on the manager the number of error
    dialogs is at most one more than the number of change notifications, and
    a sequence without a notification (a single epoch) shows at most one
    dialog, none if the flag was already set.  A call of the handler with a
    key that differs from the last observed one lowers the flag, so that the
    next reported failure shows its dialog again: the next [displaySDKError]
    shows exactly one, and so does a resolution that finds no workspace root
    and no resolvable environment. *)
Theorem displaySDKError_once_per_epoch (ops : list Op) (st : State) :
  (dialogs (run ops st).2 ≤ fires (run ops st).2 + 1)%nat
  ∧ (fires (run ops st).2 = 0 →
     (dialogs (run ops st).2 + b2n (displayedSDKError (mgr st)) ≤ 1)%nat)
  ∧ (∀ newEnv message w,
       Some newEnv ≠ lastLoadedEnv (mgr (run ops st).1) →
       let st1 := (handleEnvironmentChange newEnv (run ops st).1).1.2 in
       displayedSDKError (mgr st1) = false
       ∧ (displaySDKError message st1).2 = [EvShowErrorMessage message]
       ∧ (api (mgr st1) = true →
          (∀ root, workspaceFolders w ≠ Some [root]) →
          resolveEnvironment w (activeEnvironmentPath w) = None →
          dialogs (findActiveSDK w st1).2 = 1)).
Proof.
  pose proof (run_counts ops st) as Hc.
  destruct (run ops st) as [st0 tr0] eqn:Hrun. simpl in *.
  split; [|split].
  - destruct (displayedSDKError (mgr st)), (displayedSDKError (mgr st0));
      simpl in *; lia.
  - intros Hf. destruct (displayedSDKError (mgr st0)); simpl in *; lia.
  - intros newEnv message w Hne.
    rewrite handleEnvironmentChange_run, bool_decide_eq_false_2 by done. simpl.
    split; [done|]. split.
    + reflexivity.
    + intros Hapi Hroots Hres.
      set (st1 := {| mgr := set_displayedSDKError false (mgr st0); heap := heap st0 |}).
      rewrite (findActiveSDK_unresolved w st1 st1 [] Hapi
                 (tryGetMonorepoSDK_needs_single_root w st1 Hroots) Hres).
      reflexivity.
Qed.

(** A first failure shows its dialog, the retries in the same epoch do not;
    after the environment has changed the next failure shows a second one. *)
Lemma displaySDKError_once_per_epoch_witness :
  let epoch1 := [CallGetActiveSDK Posix.bare; CallGetActiveSDK Posix.bare;
                 CallFindActiveSDK Posix.bare] in
  dialogs (run epoch1 readyState).2 = 1
  ∧ dialogs (run (epoch1 ++ [EnvironmentChanged "/other/bin/python";
                             CallGetActiveSDK Posix.bare;
                             CallGetActiveSDK Posix.bare]) readyState).2 = 2
  ∧ (dialogs (run epoch1 readyState).2 + b2n (displayedSDKError (mgr readyState)) ≤ 1)%nat.
Proof.
  intros epoch1. split; [reflexivity|]. split; [reflexivity|].
  apply (displaySDKError_once_per_epoch epoch1 readyState). reflexivity.
Defined.

(** ** The formatting provider (C10) *)

Lemma length_zero_empty (s : string) : String.length s = 0 ↔ s = "".
Proof. by destruct s. Qed.

Lemma formatterCallback_empty_output (document : TextDocument) (text : string)
    (res : ExecResult) :
  text ≠ "" → exec_error res = None → exec_stdout res = "" →
  formatterCallback document text res = Resolved [].
Proof.
  intros Htext Herr Hout. unfold formatterCallback. rewrite Herr, Hout.
  destruct text as [|c text]; [done|].
  rewrite bool_decide_eq_true_2 by (simpl; lia). reflexivity.
Qed.

Lemma formatterCallback_edits (document : TextDocument) (text : string)
    (res : ExecResult) (edits : list TextEdit) :
  text ≠ "" →
  formatterCallback document text res = Resolved edits →
  ∀ e, e ∈ edits → newText e ≠ "".
Proof.
  intros Htext. unfold formatterCallback.
  destruct (exec_error res); [done|].
  destruct text as [|c text]; [done|].
  rewrite (bool_decide_eq_true_2 (0 < String.length (String c text))) by (simpl; lia).
  cbn [andb].
  case_bool_decide as Hlen.
  - intros [= <-] e He. by apply elem_of_nil in He.
  - destruct (lines document !! 0); [|done].
    destruct (lines document !! (length (lines document) - 1)); [|done].
    intros [= <-] e He. apply list_elem_of_singleton in He as ->. simpl.
    by rewrite <- length_zero_empty.
Qed.

(** C10.  For a non-empty document: when the formatter process run with the
    descriptor's formatter path exits without error and with empty output,
    the provider resolves with an empty edit list; and whatever the host
    does, no edit the provider resolves with carries empty text. *)
Theorem provideDocumentFormattingEdits_keeps_document (w : World)
    (document : TextDocument) (st : State) :
  getText document ≠ "" →
  (∀ st1 tr1 r sdk file,
     getActiveSDK w st = (Ret (Some r), st1, tr1) →
     heap st1 !! r = Some sdk →
     mblackPath sdk = Some file →
     let res := runFormatter w file (formatterArgv w document) (formatterCwd w document)
                  (getProcessEnv sdk true) (getText document) in
     exec_error res = None →
     exec_stdout res = "" →
     provideDocumentFormattingEdits w document st =
       (Resolved [], st1,
        tr1 ++ [EvRunFormatter file (formatterArgv w document) (getText document)]))
  ∧ (∀ edits st1 tr,
       provideDocumentFormattingEdits w document st = (Resolved edits, st1, tr) →
       ∀ e, e ∈ edits → newText e ≠ "").
Proof.
  intros Htext. split.
  - intros st1 tr1 r sdk file Hsdk Hr Hfile res Herr Hout.
    unfold provideDocumentFormattingEdits. rewrite Hsdk, Hr, Hfile.
    by rewrite formatterCallback_empty_output.
  - intros edits st1 tr. unfold provideDocumentFormattingEdits.
    destruct (getActiveSDK w st) as [[[[r|]|err] st0] tr0].
    + destruct (heap st0 !! r) as [sdk|]; [|done].
      destruct (mblackPath sdk) as [file|]; [|done].
      intros [= Hcb _ _]. by eapply formatterCallback_edits.
    + intros [= <- _ _] e He. by apply elem_of_nil in He.
    + done.
Qed.

(** The formatter of a wheel installation prints nothing for a one-line
    document: no edit.  When it prints the formatted text, that text replaces
    the whole document. *)
Lemma provideDocumentFormattingEdits_keeps_document_witness :
  (∃ st1 tr1,
     provideDocumentFormattingEdits Scenario.wheel ScenarioFormat.document readyState
       = (Resolved [], st1,
          tr1 ++ [EvRunFormatter "/venv/bin/mblack"
                    ["--fast"; "--preview"; "--quiet"; "-t"; "mojo"; "-"]
                    "fn main():pass"]))
  ∧ ∃ st1 tr1,
      provideDocumentFormattingEdits ScenarioFormat.formatting ScenarioFormat.document
        readyState
      = (Resolved [ {| edit_range := {| range_start := {| line := 0; character := 0 |};
                                        range_end := {| line := 0; character := 14 |} |};
                       newText := "fn main(): pass" |} ], st1, tr1).
Proof.
  split.
  - destruct (provideDocumentFormattingEdits_keeps_document Scenario.wheel
                ScenarioFormat.document readyState) as [Hempty _]; [done|].
    do 2 eexists.
    apply (Hempty _ _ 0 (wheelDescriptor Scenario.wheel Scenario.venv
                           {| major := Some 3%N; minor := Some 12%N |} "mojo 25.1.0")
             "/venv/bin/mblack"); vm_compute; reflexivity.
  - do 2 eexists. vm_compute. reflexivity.
Defined.

(** * Further properties of the code *)

(** ** Descriptors and the cache slot over any sequence of operations *)

Lemma heap_ext_refl (h : list SDK) : heap_ext h h.
Proof. intros r sdk Hr. by exists sdk. Qed.

Lemma heap_ext_trans (h1 h2 h3 : list SDK) :
  heap_ext h1 h2 → heap_ext h2 h3 → heap_ext h1 h3.
Proof.
  intros H12 H23 r sdk Hr.
  destruct (H12 r sdk Hr) as (sdk2 & Hr2 & Hc2 & Hm2).
  destruct (H23 r sdk2 Hr2) as (sdk3 & Hr3 & Hc3 & Hm3).
  exists sdk3. split; [done|]. split; [congruence|]. auto.
Qed.

Lemma heap_ext_alloc (h : list SDK) (sdk : SDK) : heap_ext h (h ++ [sdk]).
Proof.
  intros r sdk0 Hr. exists sdk0. split; [|done].
  by apply lookup_app_l_Some.
Qed.

Lemma heap_ext_store (h : list SDK) (r : ref) (sdk : SDK) (b : bool) :
  h !! r = Some sdk → memo sdk = None → heap_ext h (alter (set_memo b) r h).
Proof.
  intros Hr Hm r' sdk' Hr'. destruct (decide (r = r')) as [<-|Hne].
  - exists (set_memo b sdk). rewrite list_lookup_alter_eq, Hr.
    assert (sdk' = sdk) as -> by congruence.
    split; [done|]. split; [done|]. intros b'. by rewrite Hm.
  - exists sdk'. by rewrite list_lookup_alter_ne.
Qed.

Create HintDb frame.

Lemma frame_ret {A} (a : A) : frame (ret a).
Proof. intros st. auto using heap_ext_refl. Qed.

Lemma frame_throw {A} (e : string) : frame (@throw A e).
Proof. intros st. auto using heap_ext_refl. Qed.

Lemma frame_getMgr : frame getMgr.
Proof. intros st. auto using heap_ext_refl. Qed.

Lemma frame_emit (e : Event) : frame (emit e).
Proof. intros st. auto using heap_ext_refl. Qed.

Lemma frame_modifyMgr (f : Manager → Manager) :
  (∀ m, api (f m) = api m ∧ activeSDK (f m) = activeSDK m) → frame (modifyMgr f).
Proof.
  intros Hf st. simpl. destruct (Hf (mgr st)) as [-> ->].
  auto using heap_ext_refl.
Qed.

Lemma frame_alloc (sdk : SDK) : frame (alloc sdk).
Proof. intros st. simpl. auto using heap_ext_alloc. Qed.

Lemma frame_deref (r : ref) : frame (deref r).
Proof. intros st. unfold deref. destruct (heap st !! r); simpl; auto using heap_ext_refl. Qed.

Lemma frame_bind {A B} (m : M A) (k : A → M B) :
  frame m → (∀ a, frame (k a)) → frame (bind m k).
Proof.
  intros Hm Hk st. unfold bind. specialize (Hm st).
  destruct (m st) as [[[a|e] st1] tr1]; simpl in *; [|done].
  specialize (Hk a st1). destruct (k a st1) as [[o st2] tr2]; simpl in *.
  destruct Hm as (Ha1 & Hc1 & H1), Hk as (Ha2 & Hc2 & H2).
  split; [congruence|]. split; [congruence|]. eauto using heap_ext_trans.
Qed.

Lemma frame_try_catch {A} (m : M A) (h : string → M A) :
  frame m → (∀ e, frame (h e)) → frame (try_catch m h).
Proof.
  intros Hm Hh st. unfold try_catch. specialize (Hm st).
  destruct (m st) as [[[a|e] st1] tr1]; simpl in *; [done|].
  specialize (Hh e st1). destruct (h e st1) as [[o st2] tr2]; simpl in *.
  destruct Hm as (Ha1 & Hc1 & H1), Hh as (Ha2 & Hc2 & H2).
  split; [congruence|]. split; [congruence|]. eauto using heap_ext_trans.
Qed.

#[local] Hint Resolve frame_ret frame_throw frame_getMgr frame_emit frame_alloc
  frame_deref : frame.
#[local] Hint Extern 1 (frame (modifyMgr _)) =>
  (apply frame_modifyMgr; intros []; split; reflexivity) : frame.

Ltac frame_step :=
  lazymatch goal with
  | |- frame (bind _ _) => apply frame_bind; [|intros ?]
  | |- frame (try_catch _ _) => apply frame_try_catch; [|intros ?]
  | |- frame (match ?x with _ => _ end) => destruct x
  | |- frame _ => solve [auto with frame]
  end.

Ltac frame_auto := cbv zeta; repeat frame_step.

Lemma frame_displaySDKError (message : string) : frame (displaySDKError message).
Proof. unfold displaySDKError. frame_auto. Qed.

Lemma frame_retrievePath (w : World) (target : string) : frame (retrievePath w target).
Proof. unfold retrievePath. frame_auto. Qed.

Lemma frame_envHasModularCfg (w : World) (env : ResolvedEnvironment) :
  frame (envHasModularCfg w env).
Proof. unfold envHasModularCfg. frame_auto. Qed.

Lemma frame_prop_in (key : string) (obj : option IniValue) : frame (prop_in key obj).
Proof. unfold prop_in. frame_auto. Qed.

Lemma frame_prop_get (obj : option IniValue) (key : string) : frame (prop_get obj key).
Proof. unfold prop_get. frame_auto. Qed.

#[local] Hint Resolve frame_displaySDKError frame_retrievePath frame_envHasModularCfg
  frame_prop_in frame_prop_get : frame.

Lemma frame_createSDKFromWheelEnv (w : World) (env : ResolvedEnvironment) :
  frame (createSDKFromWheelEnv w env).
Proof. unfold createSDKFromWheelEnv. frame_auto. Qed.

Lemma frame_createSDKFromHomePath (w : World) (k : SDKKind) (homeDir : string)
    (prefix : option string) :
  frame (createSDKFromHomePath w k homeDir prefix).
Proof. unfold createSDKFromHomePath. frame_auto. Qed.

#[local] Hint Resolve frame_createSDKFromWheelEnv frame_createSDKFromHomePath : frame.

Lemma frame_tryGetMonorepoSDK (w : World) : frame (tryGetMonorepoSDK w).
Proof. unfold tryGetMonorepoSDK. frame_auto. Qed.

#[local] Hint Resolve frame_tryGetMonorepoSDK : frame.

Lemma frame_findActiveSDK (w : World) : frame (findActiveSDK w).
Proof. unfold findActiveSDK. frame_auto. Qed.

Lemma frame_probeScripting (w : World) (sdk : SDK) : frame (probeScripting w sdk).
Proof. unfold probeScripting. frame_auto. Qed.

(** The probe does not touch the state at all. *)
Lemma probeScripting_state (w : World) (sdk : SDK) (st : State) :
  (probeScripting w sdk st).1.2 = st.
Proof.
  unfold probeScripting, try_catch, bind, emit, throw, ret.
  destruct (lldbPath sdk) as [file|]; simpl; [|done].
  destruct (execFile w file _) as [[out err]|]; simpl; [|done].
  by destruct (negb _).
Qed.

Lemma frame_lldbHasPythonScriptingSupport (w : World) (r : ref) :
  frame (lldbHasPythonScriptingSupport w r).
Proof.
  intros st.
  destruct (lldbHasPythonScriptingSupport w r st) as [[o st'] tr] eqn:Hrun. simpl.
  unfold lldbHasPythonScriptingSupport, bind, deref, store_memo, ret in Hrun.
  destruct (heap st !! r) as [sdk|] eqn:Hr;
    [|injection Hrun as _ <- _; repeat split; apply heap_ext_refl].
  destruct (memo sdk) as [known|] eqn:Hm;
    [injection Hrun as _ <- _; repeat split; apply heap_ext_refl|].
  pose proof (probeScripting_state w sdk st) as Hst.
  destruct (probeScripting w sdk st) as [[[ans|e] st1] tr1]; simpl in *; subst st1;
    injection Hrun as _ <- _; simpl.
  - repeat split. by apply heap_ext_store with sdk.
  - repeat split. apply heap_ext_refl.
Qed.

Lemma kept_refl (st : State) : kept st st.
Proof. split; [done|]. split; [done|]. apply heap_ext_refl. Qed.

Lemma kept_trans (st1 st2 st3 : State) : kept st1 st2 → kept st2 st3 → kept st1 st3.
Proof.
  intros (Ha & Hc & Hh) (Ha' & Hc' & Hh'). split; [congruence|].
  split; [auto|]. eauto using heap_ext_trans.
Qed.

Lemma frame_kept {A} (m : M A) (st : State) : frame m → kept st (m st).1.2.
Proof. intros Hf. destruct (Hf st) as (Ha & Hc & Hh). split; [done|]. split; [congruence|done]. Qed.

Lemma getActiveSDK_kept (w : World) (st : State) : kept st (getActiveSDK w st).1.2.
Proof.
  unfold getActiveSDK, bind at 1, getMgr. simpl.
  destruct (activeSDK (mgr st)) as [c|] eqn:Hc; simpl; [apply kept_refl|].
  unfold bind, modifyMgr, ret.
  pose proof (frame_findActiveSDK w st) as (Ha & _ & Hh).
  destruct (findActiveSDK w st) as [[[found|e] st1] tr1]; simpl in *.
  - split; [done|]. split; [by rewrite Hc|done].
  - split; [done|]. split; [by rewrite Hc|done].
Qed.

Lemma step_kept (op : Op) (st : State) : kept st (step op st).1.
Proof.
  destruct op as [w|w|w k homeDir prefix|w r|w document|newEnv]; simpl.
  - pose proof (getActiveSDK_kept w st) as H.
    by destruct (getActiveSDK w st) as [[o st1] tr].
  - pose proof (frame_kept _ st (frame_findActiveSDK w)) as H.
    by destruct (findActiveSDK w st) as [[o st1] tr].
  - pose proof (frame_kept _ st (frame_createSDKFromHomePath w k homeDir prefix)) as H.
    by destruct (createSDKFromHomePath w k homeDir prefix st) as [[o st1] tr].
  - pose proof (frame_kept _ st (frame_lldbHasPythonScriptingSupport w r)) as H.
    by destruct (lldbHasPythonScriptingSupport w r st) as [[o st1] tr].
  - pose proof (getActiveSDK_kept w st) as H.
    unfold provideDocumentFormattingEdits.
    destruct (getActiveSDK w st) as [[[[r|]|e] st1] tr]; simpl in *; try done.
    destruct (heap st1 !! r) as [sdk|]; simpl; [|done].
    by destruct (mblackPath sdk).
  - rewrite handleEnvironmentChange_run. case_bool_decide; simpl; [apply kept_refl|].
    split; [done|]. split; [done|]. apply heap_ext_refl.
Qed.

Lemma run_kept (ops : list Op) (st : State) : kept st (run ops st).1.
Proof.
  revert st. induction ops as [|op ops IH]; intros st; simpl; [apply kept_refl|].
  pose proof (step_kept op st) as Hs.
  destruct (step op st) as [st1 tr1]. specialize (IH st1).
  destruct (run ops st1) as [st2 tr2]. simpl in *. eauto using kept_trans.
Qed.

(** X1.  Over any sequence of operations on the manager a descriptor, once
    allocated, stays what its constructor made it: its reference keeps
    denoting a descriptor with the same kind, version, paths and home fields,
    and an answer of the scripting probe that was stored on it is never
    replaced. *)
Theorem run_descriptors_immutable (ops : list Op) (st : State) (r : ref) (sdk : SDK) :
  heap st !! r = Some sdk →
  ∃ sdk', heap (run ops st).1 !! r = Some sdk'
          ∧ clearMemo sdk' = clearMemo sdk
          ∧ ∀ b, memo sdk = Some b → memo sdk' = Some b.
Proof. intros Hr. by destruct (run_kept ops st) as (_ & _ & Hh); apply Hh. Qed.

(** X2.  Once the cache slot holds a descriptor, no sequence of operations
    (resolutions, direct constructions, probes, formatting requests,
    environment changes) clears or replaces it, and the API handle never
    changes either. *)
Theorem run_cache_permanent (ops : list Op) (st : State) (r : ref) :
  activeSDK (mgr st) = Some r →
  activeSDK (mgr (run ops st).1) = Some r
  ∧ api (mgr (run ops st).1) = api (mgr st).
Proof. intros Hc. destruct (run_kept ops st) as (Ha & Hk & _). auto. Qed.

(** A filled cache and two descriptors, one of them probed. *)
Lemma run_descriptors_immutable_witness :
  let ops := [CallGetActiveSDK Scenario.wheel;
              CallLldbHasPythonScriptingSupport ScenarioProbe.scripting 0;
              EnvironmentChanged "/other/bin/python";
              CallCreateSDKFromHomePath (Scenario.conda Scenario.complete_cfg) Custom
                "/sdk" None;
              CallLldbHasPythonScriptingSupport Posix.bare 0] in
  ∃ sdk', heap (run ops ScenarioProbe.resolved).1 !! 0 = Some sdk'
          ∧ clearMemo sdk' = clearMemo (wheelDescriptor Scenario.wheel Scenario.venv
                                          {| major := Some 3%N; minor := Some 12%N |}
                                          "mojo 25.1.0")
          ∧ memo sdk' = Some true
          ∧ length (heap (run ops ScenarioProbe.resolved).1) = 2.
Proof.
  intros ops.
  destruct (run_descriptors_immutable ops ScenarioProbe.resolved 0 _ eq_refl)
    as (sdk' & Hr & Hc & _).
  exists sdk'. split; [done|]. split; [done|].
  vm_compute in Hr. injection Hr as <-. split; reflexivity.
Defined.

(** The cache survives a change of environment followed by new resolutions. *)
Lemma run_cache_permanent_witness :
  let ops := [EnvironmentChanged "/other/bin/python"; CallGetActiveSDK Posix.bare;
              CallFindActiveSDK Posix.bare; EnvironmentChanged "/venv/bin/python"] in
  activeSDK (mgr (run ops ScenarioProbe.resolved).1) = Some 0
  ∧ api (mgr (run ops ScenarioProbe.resolved).1) = true.
Proof.
  intros ops. apply (run_cache_permanent ops ScenarioProbe.resolved 0). reflexivity.
Defined.

(** ** Failure modes of the home-path construction *)

(** X3.  When the descriptor file cannot be read, decoded or parsed,
    construction returns [undefined] after trying to show the matching
    message (the read error is quoted in the first one); nothing is allocated,
    no telemetry event is sent, and the only other change is the raised
    error-already-shown flag. *)
Theorem createSDKFromHomePath_unusable_file (w : World) (k : SDKKind)
    (homeDir : string) (prefix : option string) (st : State) (message : string) :
  match fs_readFile w (path_join w [homeDir; "modular.cfg"]) with
  | inl e => message = "Unable to read modular.cfg: " +:+ e
  | inr bytes =>
      match decode w bytes with
      | None =>
          message = "Unable to decode modular.cfg; your MAX installation may be corrupted."
      | Some contents =>
          ini_parse w contents = None
          ∧ message = "Unable to parse modular.cfg; your MAX installation may be corrupted."
      end
  end →
  createSDKFromHomePath w k homeDir prefix st =
    (Ret None,
     {| mgr := set_displayedSDKError true (mgr st); heap := heap st |},
     EvReadFile (path_join w [homeDir; "modular.cfg"])
       :: (if displayedSDKError (mgr st) then [] else [EvShowErrorMessage message])).
Proof.
  intros H. unfold createSDKFromHomePath, bind at 1, emit. simpl.
  destruct st as [[a d l c] hp].
  destruct (fs_readFile w _) as [e|bytes].
  - subst message. unfold bind. rewrite displaySDKError_run. simpl.
    by destruct d.
  - destruct (decode w bytes) as [contents|].
    + destruct H as [-> ->]. unfold bind. rewrite displaySDKError_run. simpl.
      by destruct d.
    + subst message. unfold bind. rewrite displaySDKError_run. simpl.
      by destruct d.
Qed.

Lemma createSDKFromHomePath_unusable_file_witness :
  createSDKFromHomePath Posix.bare Custom "/opt/max" None readyState
    = (Ret None,
       {| mgr := set_displayedSDKError true readyManager; heap := [] |},
       [EvReadFile "/opt/max/modular.cfg";
        EvShowErrorMessage "Unable to read modular.cfg: ENOENT"]).
Proof.
  apply (createSDKFromHomePath_unusable_file Posix.bare Custom "/opt/max" None
           readyState "Unable to read modular.cfg: ENOENT").
  reflexivity.
Defined.

(** X4.  For a readable, decodable and parsable descriptor file: when [max]
    is absent or a plain value, construction fails before any telemetry is
    sent; when
    [max] is a section but [mojo-max] is absent, the [sdkLoaded] telemetry
    event has already been sent (with the version found, or [0.0.0]) when
    construction fails.  In both cases the result is [undefined], nothing is
    allocated and the configuration-key message goes to the deduplicated
    dialog. *)
Theorem createSDKFromHomePath_missing_section (w : World) (k : SDKKind)
    (homeDir : string) (prefix : option string) (st : State)
    (bytes : list Byte.byte) (contents : string) (config : gmap string IniValue) :
  fs_readFile w (path_join w [homeDir; "modular.cfg"]) = inr bytes →
  decode w bytes = Some contents →
  ini_parse w contents = Some config →
  let failed (sent : list Event) :=
    (Ret None,
     {| mgr := set_displayedSDKError true (mgr st); heap := heap st |},
     EvReadFile (path_join w [homeDir; "modular.cfg"]) :: sent
       ++ (if displayedSDKError (mgr st) then []
           else [EvShowErrorMessage
                   "Unable to read a configuration key from modular.cfg; your MAX installation may be corrupted."])) in
  ((∀ mx, config !! "max" ≠ Some (IniSection mx)) →
   createSDKFromHomePath w k homeDir prefix st = failed [])
  ∧ (∀ mx, config !! "max" = Some (IniSection mx) →
           config !! "mojo-max" = None →
           createSDKFromHomePath w k homeDir prefix st
             = failed [EvTelemetry "sdkLoaded" (default "0.0.0" (mx !! "version")) k]).
Proof.
  intros Hread Hdec Hparse failed. subst failed. cbv beta.
  destruct st as [[a d l c] hp]. split.
  - intros Hmax. unfold createSDKFromHomePath, bind at 1, emit. simpl.
    rewrite Hread, Hdec, Hparse. unfold try_catch, bind at 1, prop_in.
    destruct (config !! "max") as [[s|mx]|]; [| by destruct (Hmax mx) |];
      simpl; unfold bind; rewrite displaySDKError_run; simpl; by destruct d.
  - intros mx Hmax Hsec. unfold createSDKFromHomePath, bind at 1, emit. simpl.
    rewrite Hread, Hdec, Hparse. unfold try_catch, bind. rewrite Hmax, Hsec. simpl.
    destruct (mx !! "version"); simpl; rewrite displaySDKError_run; simpl;
      by destruct d.
Qed.

Lemma createSDKFromHomePath_missing_section_witness :
  createSDKFromHomePath (Scenario.conda ∅) Environment "/venv/share/max" (Some "/venv")
    readyState
    = (Ret None, {| mgr := set_displayedSDKError true readyManager; heap := [] |},
       [EvReadFile "/venv/share/max/modular.cfg";
        EvShowErrorMessage
          "Unable to read a configuration key from modular.cfg; your MAX installation may be corrupted."])
  ∧ createSDKFromHomePath (Scenario.conda {[ "max" := IniSection ∅ ]}) Environment
      "/venv/share/max" (Some "/venv") readyState
    = (Ret None, {| mgr := set_displayedSDKError true readyManager; heap := [] |},
       [EvReadFile "/venv/share/max/modular.cfg";
        EvTelemetry "sdkLoaded" "0.0.0" Environment;
        EvShowErrorMessage
          "Unable to read a configuration key from modular.cfg; your MAX installation may be corrupted."]).
Proof.
  pose proof (createSDKFromHomePath_missing_section (Scenario.conda ∅) Environment
                "/venv/share/max" (Some "/venv") readyState [] "" ∅
                eq_refl eq_refl eq_refl) as [Hmax _].
  pose proof (createSDKFromHomePath_missing_section
                (Scenario.conda {[ "max" := IniSection ∅ ]}) Environment
                "/venv/share/max" (Some "/venv") readyState [] ""
                {[ "max" := IniSection ∅ ]} eq_refl eq_refl eq_refl) as [_ Hsec].
  split.
  - rewrite Hmax; [reflexivity|]. intros mx. by rewrite lookup_empty.
  - rewrite (Hsec ∅); reflexivity.
Defined.

(** ** The active-environment source *)

(** X5.  A resolvable environment that holds [share/max/modular.cfg] with both
    sections is resolved as an [Environment] home-path descriptor whose home
    is [<sysPrefix>/share/max] and whose prefix is [<sysPrefix>]: no path is
    stat-ed and no subprocess is run, the descriptor supports file debugging
    and exports [CONDA_PREFIX = <sysPrefix>], and the environment path is
    recorded, so that a later change notification for that same path is
    ignored. *)
Theorem findActiveSDK_conda_environment (w : World) (st st1 : State)
    (tr1 : list Event) (env : ResolvedEnvironment) (bytes : list Byte.byte)
    (contents : string) (config : gmap string IniValue) (mx sec : gmap string string) :
  api (mgr st) = true →
  tryGetMonorepoSDK w st = (Ret None, st1, tr1) →
  resolveEnvironment w (activeEnvironmentPath w) = Some env →
  fileExists w (path_join w [sysPrefix env; "share"; "max"; "modular.cfg"]) = true →
  let maxHome := path_join w [sysPrefix env; "share"; "max"] in
  fs_readFile w (path_join w [maxHome; "modular.cfg"]) = inr bytes →
  decode w bytes = Some contents →
  ini_parse w contents = Some config →
  config !! "max" = Some (IniSection mx) →
  config !! "mojo-max" = Some (IniSection sec) →
  let ver := default "0.0.0" (mx !! "version") in
  let sdk := sdkOfSection Environment ver maxHome sec (Some (sysPrefix env)) in
  let st2 := {| mgr := set_lastLoadedEnv (Some (activeEnvironmentPath w)) (mgr st1);
                heap := heap st1 ++ [sdk] |} in
  findActiveSDK w st =
    (Ret (Some (length (heap st1))), st2,
     tr1 ++ [EvGetActiveEnvironmentPath;
             EvResolveEnvironment (activeEnvironmentPath w);
             EvFileExists (path_join w [sysPrefix env; "share"; "max"; "modular.cfg"]);
             EvReadFile (path_join w [maxHome; "modular.cfg"]);
             EvTelemetry "sdkLoaded" ver Environment])
  ∧ supportsFileDebug sdk = true
  ∧ getProcessEnv sdk true !! "CONDA_PREFIX" = Some (Some (sysPrefix env))
  ∧ handleEnvironmentChange (activeEnvironmentPath w) st2 = (Ret tt, st2, []).
Proof.
  intros Hapi Hm Hres Hcfg maxHome Hread Hdec Hparse Hmax Hsec ver sdk st2.
  split; [|split; [|split]].
  - rewrite (findActiveSDK_after_monorepo w st st1 tr1 Hapi Hm), Hres.
    unfold bind at 1, envHasModularCfg, bind at 1, emit, ret. simpl. rewrite Hcfg.
    fold maxHome.
    by rewrite (createSDKFromHomePath_with_sections w Environment maxHome _ _
                  bytes contents config mx sec Hread Hdec Hparse Hmax Hsec).
  - reflexivity.
  - unfold getProcessEnv. simpl. apply lookup_insert_eq.
  - by apply handleEnvironmentChange_same_key.
Qed.

Lemma findActiveSDK_conda_environment_witness :
  ∃ st2 sdk,
    findActiveSDK (Scenario.conda Scenario.complete_cfg) readyState
      = (Ret (Some 0), st2,
         [EvGetActiveEnvironmentPath; EvResolveEnvironment "/venv/bin/python";
          EvFileExists "/venv/share/max/modular.cfg";
          EvReadFile "/venv/share/max/modular.cfg";
          EvTelemetry "sdkLoaded" "25.1.0" Environment])
    ∧ heap st2 !! 0 = Some sdk
    ∧ home sdk = Some {| homePath := "/venv/share/max"; prefixPath := Some "/venv" |}
    ∧ handleEnvironmentChange "/venv/bin/python" st2 = (Ret tt, st2, []).
Proof.
  destruct (findActiveSDK_conda_environment (Scenario.conda Scenario.complete_cfg)
              readyState readyState [] Scenario.venv [] "" Scenario.complete_cfg
              {[ "version" := "25.1.0" ]}
              (<[ "lsp_server_path" := "/sdk/bin/mojo-lsp-server" ]>
               (<[ "mblack_path" := "/sdk/bin/mblack" ]>
                (<[ "lldb_plugin_path" := "/sdk/lib/libMojoLLDB.so" ]>
                 (<[ "lldb_vscode_path" := "/sdk/bin/lldb-dap" ]>
                  (<[ "driver_path" := "/sdk/bin/mojo" ]>
                   (<[ "lldb_visualizers_path" := "/sdk/lib/lldb-visualizers" ]>
                    {[ "lldb_path" := "/sdk/bin/mojo-lldb" ]}))))))
              eq_refl eq_refl eq_refl eq_refl eq_refl eq_refl eq_refl)
    as (Hfind & _ & _ & Hsame); try (vm_compute; reflexivity).
  do 2 eexists. split; [|split; [|split]].
  - rewrite Hfind. vm_compute. reflexivity.
  - vm_compute. reflexivity.
  - reflexivity.
  - exact Hsame.
Defined.

(** X6.  A resolvable environment without [modular.cfg] whose Python version
    is unknown makes the resolution throw a [TypeError]: the library path
    cannot be built, so no path is stat-ed and no dialog is shown; the cache
    stays empty and a formatting request made in that state is rejected with
    the same error. *)
Theorem getActiveSDK_unknown_python_version (w : World) (st st1 : State)
    (tr1 : list Event) (env : ResolvedEnvironment) (document : TextDocument) :
  api (mgr st) = true →
  activeSDK (mgr st) = None →
  tryGetMonorepoSDK w st = (Ret None, st1, tr1) →
  resolveEnvironment w (activeEnvironmentPath w) = Some env →
  fileExists w (path_join w [sysPrefix env; "share"; "max"; "modular.cfg"]) = false →
  pyversion env = None →
  let st2 := {| mgr := set_lastLoadedEnv (Some (activeEnvironmentPath w)) (mgr st1);
                heap := heap st1 |} in
  let tr := tr1 ++ [EvGetActiveEnvironmentPath;
                    EvResolveEnvironment (activeEnvironmentPath w);
                    EvFileExists (path_join w [sysPrefix env; "share"; "max"; "modular.cfg"])] in
  getActiveSDK w st = (Throw "TypeError", st2, tr)
  ∧ provideDocumentFormattingEdits w document st = (Rejected "TypeError", st2, tr).
Proof.
  intros Hapi Hc Hm Hres Hcfg Hver st2 tr.
  assert (findActiveSDK w st = (Throw "TypeError", st2, tr)) as Hfind.
  { rewrite (findActiveSDK_after_monorepo w st st1 tr1 Hapi Hm), Hres.
    unfold bind at 1, envHasModularCfg, bind at 1, emit, ret. simpl. rewrite Hcfg.
    unfold createSDKFromWheelEnv. rewrite Hver. reflexivity. }
  assert (getActiveSDK w st = (Throw "TypeError", st2, tr)) as Hget.
  { unfold getActiveSDK, bind at 1, getMgr. simpl. rewrite Hc.
    unfold bind. by rewrite Hfind. }
  split; [done|]. unfold provideDocumentFormattingEdits. by rewrite Hget.
Qed.

Lemma getActiveSDK_unknown_python_version_witness :
  getActiveSDK ScenarioVersion.unknown readyState
    = (Throw "TypeError",
       {| mgr := set_lastLoadedEnv (Some "/venv/bin/python") readyManager; heap := [] |},
       [EvGetActiveEnvironmentPath; EvResolveEnvironment "/venv/bin/python";
        EvFileExists "/venv/share/max/modular.cfg"]).
Proof.
  apply (getActiveSDK_unknown_python_version ScenarioVersion.unknown readyState
           readyState [] {| sysPrefix := "/venv"; pyversion := None |}
           ScenarioFormat.document); reflexivity.
Defined.

(** ** What a failed resolution leaves behind *)

Lemma createSDKFromHomePath_returns (w : World) (k : SDKKind) (homeDir : string)
    (prefix : option string) (st : State) :
  ∃ o st1 tr,
    createSDKFromHomePath w k homeDir prefix st
      = (Ret o, st1, EvReadFile (path_join w [homeDir; "modular.cfg"]) :: tr).
Proof.
  unfold createSDKFromHomePath, bind at 1, emit. simpl.
  destruct (fs_readFile w _) as [e|bytes].
  { unfold bind. rewrite displaySDKError_run.
    destruct (displayedSDKError (mgr st)); simpl; eauto. }
  destruct (decode w bytes) as [contents|]; cycle 1.
  { unfold bind. rewrite displaySDKError_run.
    destruct (displayedSDKError (mgr st)); simpl; eauto. }
  destruct (ini_parse w contents) as [config|]; cycle 1.
  { unfold bind. rewrite displaySDKError_run.
    destruct (displayedSDKError (mgr st)); simpl; eauto. }
  unfold try_catch, bind, prop_in, prop_get.
  destruct (config !! "max") as [[s|mx]|]; simpl;
    try (rewrite displaySDKError_run;
         destruct (displayedSDKError (mgr st)); simpl; eauto).
  destruct (config !! "mojo-max") as [[s|sec]|];
    destruct (mx !! "version"); simpl;
    try (rewrite displaySDKError_run;
         destruct (displayedSDKError (mgr st)); simpl; eauto); eauto.
Qed.

Lemma tryGetMonorepoSDK_returns (w : World) (st : State) :
  ∃ o st1 tr, tryGetMonorepoSDK w st = (Ret o, st1, tr) ∧ (o ≠ None → tr ≠ []).
Proof.
  unfold tryGetMonorepoSDK.
  destruct (workspaceFolders w) as [[|root [|root' rest]]|]; simpl;
    try (do 3 eexists; split; [reflexivity|done]).
  unfold bind at 1, emit. simpl.
  destruct (fs_stat w _) as [info|]; [|do 3 eexists; split; [reflexivity|done]].
  case_bool_decide; simpl; [do 3 eexists; split; [reflexivity|done]|].
  destruct (createSDKFromHomePath_returns w Internal
              (uri_joinPath w root ".derived") None st) as (o & st1 & tr & ->).
  do 3 eexists. split; [reflexivity|done].
Qed.

Lemma findActiveSDK_probes (w : World) (st : State) :
  api (mgr st) = true → (findActiveSDK w st).2 ≠ [].
Proof.
  intros Hapi.
  destruct (tryGetMonorepoSDK_returns w st) as ([r|] & st1 & tr1 & Hm & Htr).
  - rewrite (findActiveSDK_monorepo_found w st st1 tr1 r Hapi Hm). simpl. by apply Htr.
  - rewrite (findActiveSDK_after_monorepo w st st1 tr1 Hapi Hm).
    match goal with
    | |- context [?m {| mgr := set_lastLoadedEnv ?e ?g; heap := ?h |}] =>
        destruct (m {| mgr := set_lastLoadedEnv e g; heap := h |}) as [[o st2] tr2]
    end.
    simpl. by destruct tr1.
Qed.

(** X7.  An unsuccessful resolution is not remembered: after [getActiveSDK]
    has returned [undefined] the cache slot is still empty, every later call
    probes the sources again (its trace is never empty), and it returns and
    caches whatever [findActiveSDK] finds by then. *)
Theorem getActiveSDK_failure_not_cached (w w2 : World) (st st1 : State)
    (tr : list Event) :
  getActiveSDK w st = (Ret None, st1, tr) →
  activeSDK (mgr st1) = None
  ∧ (getActiveSDK w2 st1).2 ≠ []
  ∧ ∀ found st2 tr2,
      findActiveSDK w2 st1 = (Ret found, st2, tr2) →
      getActiveSDK w2 st1 =
        (Ret found, {| mgr := set_activeSDK found (mgr st2); heap := heap st2 |}, tr2).
Proof.
  intros Hget.
  assert (activeSDK (mgr st1) = None ∧ api (mgr st1) = true) as [Hc Hapi].
  { revert Hget. unfold getActiveSDK, bind at 1, getMgr. simpl.
    destruct (activeSDK (mgr st)) as [c|] eqn:Hc; [done|].
    unfold bind, modifyMgr, ret.
    pose proof (frame_findActiveSDK w st) as (Ha & _ & _).
    destruct (findActiveSDK w st) as [[[found|e] st0] tr0] eqn:Hfind; [|done].
    simpl in *. intros [= -> <- _]. simpl. split; [done|]. rewrite Ha.
    revert Hfind. unfold findActiveSDK, bind at 1, getMgr. simpl.
    by destruct (api (mgr st)). }
  split; [done|]. split.
  - pose proof (findActiveSDK_probes w2 st1 Hapi) as Hp.
    unfold getActiveSDK, bind at 1, getMgr. simpl. rewrite Hc.
    unfold bind, modifyMgr, ret.
    destruct (findActiveSDK w2 st1) as [[[found|e] st2] tr2]; simpl in *;
      by rewrite ?app_nil_r.
  - intros found st2 tr2 Hfind. by apply getActiveSDK_miss.
Qed.

(** Nothing is installed at first; the wheel installation appears later. *)
Lemma getActiveSDK_failure_not_cached_witness :
  ∃ st1 tr st2 tr2,
    getActiveSDK Posix.bare readyState = (Ret None, st1, tr)
    ∧ activeSDK (mgr st1) = None
    ∧ getActiveSDK Scenario.wheel st1 = (Ret (Some 0), st2, tr2)
    ∧ length tr2 = 12.
Proof.
  do 4 eexists. split; [vm_compute; reflexivity|].
  destruct (getActiveSDK_failure_not_cached Posix.bare Scenario.wheel readyState _ _
              eq_refl) as (Hc & _ & Hnext).
  split; [exact Hc|]. split.
  - apply Hnext. vm_compute. reflexivity.
  - reflexivity.
Defined.

(** ** The handler and the last observed key *)

(** X8.  The handler never records the key it is given: the last observed
    key is only written by a resolution that reaches the active-environment
    source.  Hence [n] consecutive notifications with one and the same key
    that differs from the last observed one fire [n] change notifications,
    show no dialog and leave [lastLoadedEnv] as it was. *)
Theorem handleEnvironmentChange_repeats (n : nat) (newEnv : string) (st : State) :
  Some newEnv ≠ lastLoadedEnv (mgr st) →
  let res := run (replicate n (EnvironmentChanged newEnv)) st in
  fires res.2 = n
  ∧ dialogs res.2 = 0
  ∧ lastLoadedEnv (mgr res.1) = lastLoadedEnv (mgr st)
  ∧ activeSDK (mgr res.1) = activeSDK (mgr st)
  ∧ heap res.1 = heap st.
Proof.
  intros Hne. cbv zeta. revert st Hne.
  induction n as [|n IH]; intros st Hne; simpl; [done|].
  rewrite handleEnvironmentChange_run, bool_decide_eq_false_2 by done.
  set (st1 := {| mgr := set_displayedSDKError false (mgr st); heap := heap st |}).
  specialize (IH st1 Hne).
  destruct (run (replicate n (EnvironmentChanged newEnv)) st1) as [st2 tr2].
  simpl in *. destruct IH as (Hf & Hd & Hl & Hc & Hh).
  unfold fires, dialogs in *. simpl. by rewrite Hf, Hd, Hl, Hc, Hh.
Qed.

(** After a workspace-local resolution no key has been observed, so the same
    notification fires every time. *)
Lemma handleEnvironmentChange_repeats_witness :
  let st := (run [CallGetActiveSDK (Scenario.monorepo Scenario.complete_cfg)]
               readyState).1 in
  lastLoadedEnv (mgr st) = None
  ∧ fires (run (replicate 3 (EnvironmentChanged "/venv/bin/python")) st).2 = 3.
Proof.
  intros st. split; [reflexivity|].
  apply (handleEnvironmentChange_repeats 3 "/venv/bin/python" st). done.
Defined.

(** ** The probe on a descriptor without a debugger path *)

(** X9.  On a descriptor whose debugger path is unset (a descriptor file
    without [lldb_path]) the probe spawns nothing and answers [false], and
    that answer is stored: later calls answer [false] without spawning
    anything either, whatever the host offers by then. *)
Theorem lldbHasPythonScriptingSupport_unset_path (w : World) (ws : list World)
    (r : ref) (st : State) (sdk : SDK) :
  heap st !! r = Some sdk →
  memo sdk = None →
  lldbPath sdk = None →
  probeRepeatedly (w :: ws) r st =
    (replicate (S (length ws)) (Ret false),
     {| mgr := mgr st; heap := alter (set_memo false) r (heap st) |}, []).
Proof.
  intros Hr Hm Hp. simpl.
  assert (lldbHasPythonScriptingSupport w r st =
            (Ret false, {| mgr := mgr st; heap := alter (set_memo false) r (heap st) |}, []))
    as ->.
  { unfold lldbHasPythonScriptingSupport, bind at 1, deref. rewrite Hr, Hm.
    unfold probeScripting. rewrite Hp. reflexivity. }
  rewrite (probeRepeatedly_memoized ws r _ (set_memo false sdk) false).
  - reflexivity.
  - cbn [heap]. by rewrite list_lookup_alter_eq, Hr.
  - reflexivity.
Qed.

Lemma lldbHasPythonScriptingSupport_unset_path_witness :
  let st := {| mgr := readyManager;
               heap := [sdkOfSection Custom "0.0.0" "/opt/max" ∅ None] |} in
  probeRepeatedly [ScenarioProbe.scripting; ScenarioProbe.scripting] 0 st
    = ([Ret false; Ret false],
       {| mgr := readyManager;
          heap := [set_memo false (sdkOfSection Custom "0.0.0" "/opt/max" ∅ None)] |}, []).
Proof.
  intros st.
  apply (lldbHasPythonScriptingSupport_unset_path ScenarioProbe.scripting
           [ScenarioProbe.scripting] 0 st (sdkOfSection Custom "0.0.0" "/opt/max" ∅ None));
    reflexivity.
Defined.

(** ** Strings in the debug resolvers *)

Lemma endsWith_spec (s suffix : string) :
  Debug.endsWith s suffix = true ↔ ∃ pre, s = pre +:+ suffix.
Proof.
  induction s as [|c s IH]; simpl.
  - rewrite orb_false_r, bool_decide_eq_true. split.
    + intros <-. by exists "".
    + intros ([|d pre] & H); [done|]. by rewrite append_cons in H.
  - rewrite orb_true_iff, bool_decide_eq_true, IH. split.
    + intros [<-|[pre ->]]; [by exists ""|by exists (String c pre)].
    + intros ([|d pre] & H); [by left|].
      rewrite append_cons in H. injection H as -> ->. right. by exists pre.
Qed.

Lemma dropSuffix_ends (s suffix : string) :
  Debug.endsWith s suffix = true → Debug.dropSuffix s suffix +:+ suffix = s.
Proof.
  induction s as [|c s IH]; simpl.
  - rewrite orb_false_r. case_bool_decide; [by subst|done].
  - case_bool_decide as Heq; [by subst|]. simpl. intros H.
    rewrite append_cons. by rewrite IH.
Qed.

Lemma stripTrailingSlashes_spec (s : string) :
  ∃ n, s = Debug.stripTrailingSlashes s +:+ slashes n.
Proof.
  induction s as [|c s [n IH]]; simpl; [by exists 0|].
  destruct (bool_decide (Debug.stripTrailingSlashes s = "")) eqn:He; simpl.
  - apply bool_decide_eq_true in He. rewrite He in IH. simpl in IH.
    case_bool_decide as Hc.
    + exists (S n). simpl. by rewrite Hc, IH.
    + exists n. rewrite append_cons, He. simpl. by rewrite <- IH.
  - exists n. rewrite append_cons. by rewrite <- IH.
Qed.

Lemma stripTrailingSlashes_fixed (s : string) :
  Debug.endsWith s "/" = false → Debug.stripTrailingSlashes s = s.
Proof.
  induction s as [|c s IH]; simpl; [done|].
  rewrite orb_false_iff, bool_decide_eq_false. intros [Hne Hs].
  rewrite (IH Hs). destruct (bool_decide (s = "")) eqn:He; simpl; [|done].
  apply bool_decide_eq_true in He. subst s.
  case_bool_decide as Hc; [|done]. by subst c.
Qed.

Lemma stripTrailingSlashes_ends (s : string) :
  Debug.endsWith (Debug.stripTrailingSlashes s) "/" = false.
Proof.
  induction s as [|c s IH]; simpl; [done|].
  destruct (bool_decide (Debug.stripTrailingSlashes s = "")) eqn:He; simpl.
  - apply bool_decide_eq_true in He. case_bool_decide as Hc; simpl; [done|].
    rewrite He. simpl. rewrite orb_false_r. apply bool_decide_eq_false.
    intros [= ?]. done.
  - rewrite IH, orb_false_r. apply bool_decide_eq_false. intros [= ? Hs].
    apply bool_decide_eq_false in He. done.
Qed.

(** X10.  The home path a debug configuration names is used without its
    trailing slashes: it is the given path minus a (possibly empty) run of
    slashes at its end, it does not end in a slash, and normalising it again
    changes nothing.  A path made of slashes only becomes the empty string. *)
Theorem customHomePath_spec (p : string) :
  (∃ n, p = Debug.customHomePath p +:+ slashes n)
  ∧ Debug.endsWith (Debug.customHomePath p) "/" = false
  ∧ Debug.customHomePath (Debug.customHomePath p) = Debug.customHomePath p
  ∧ ∀ n, Debug.customHomePath (slashes n) = "".
Proof.
  unfold Debug.customHomePath. split; [apply stripTrailingSlashes_spec|].
  split; [apply stripTrailingSlashes_ends|].
  split; [apply stripTrailingSlashes_fixed, stripTrailingSlashes_ends|].
  intros n. induction n as [|n IH]; simpl; [done|]. by rewrite IH.
Qed.

(** X11.  The prefix derived from a custom home path is [Some q] exactly when
    the home path is [q] followed by [/share/max], and then [q] is that very
    rest; a home path of any other shape has no prefix, so its descriptor
    exports [CONDA_PREFIX] as [undefined]. *)
Theorem customPrefixPath_spec (homeDir : string) :
  match Debug.customPrefixPath homeDir with
  | Some q => homeDir = q +:+ "/share/max"
  | None => ∀ q, homeDir ≠ q +:+ "/share/max"
  end.
Proof.
  unfold Debug.customPrefixPath.
  destruct (Debug.endsWith homeDir "/share/max") eqn:He.
  - by rewrite dropSuffix_ends.
  - intros q Hq. assert (Debug.endsWith homeDir "/share/max" = true) as He'
      by (apply endsWith_spec; by exists q).
    congruence.
Qed.

Example customPaths_run :
  Debug.customHomePath "/opt/conda/share/max//" = "/opt/conda/share/max"
  ∧ Debug.customPrefixPath "/opt/conda/share/max" = Some "/opt/conda"
  ∧ Debug.customPrefixPath "/opt/max" = None.
Proof. repeat split; reflexivity. Qed.

(** ** An explicit home path in a debug configuration *)

(** X12.  With [modularHomePath] set, the SDK is built from that home with
    kind [Custom] on every call: the workspace, the Python extension and the
    cache are neither consulted nor written, and two successive calls on one
    valid home allocate two distinct descriptors.  Without [modularHomePath]
    the cached resolution is used. *)
Theorem findSDKForDebugConfiguration_custom (w : World) (p : string) (st : State)
    (bytes : list Byte.byte) (contents : string) (config : gmap string IniValue)
    (mx sec : gmap string string) :
  let homeDir := Debug.customHomePath p in
  let cfgFile := path_join w [homeDir; "modular.cfg"] in
  fs_readFile w cfgFile = inr bytes →
  decode w bytes = Some contents →
  ini_parse w contents = Some config →
  config !! "max" = Some (IniSection mx) →
  config !! "mojo-max" = Some (IniSection sec) →
  let ver := default "0.0.0" (mx !! "version") in
  let sdk := sdkOfSection Custom ver homeDir sec (Debug.customPrefixPath homeDir) in
  let tr := [EvReadFile cfgFile; EvTelemetry "sdkLoaded" ver Custom] in
  let st1 := {| mgr := mgr st; heap := heap st ++ [sdk] |} in
  let st2 := {| mgr := mgr st; heap := (heap st ++ [sdk]) ++ [sdk] |} in
  Debug.findSDKForDebugConfiguration w (Some p) st
    = (Ret (Some (length (heap st))), st1, tr)
  ∧ Debug.findSDKForDebugConfiguration w (Some p) st1
    = (Ret (Some (S (length (heap st)))), st2, tr)
  ∧ Debug.findSDKForDebugConfiguration w None st = getActiveSDK w st.
Proof.
  intros homeDir cfgFile Hread Hdec Hparse Hmax Hsec ver sdk tr st1 st2.
  unfold Debug.findSDKForDebugConfiguration. fold homeDir. cbv zeta.
  split; [|split; [|done]].
  - by rewrite (createSDKFromHomePath_with_sections w Custom homeDir _ st
                  bytes contents config mx sec Hread Hdec Hparse Hmax Hsec).
  - rewrite (createSDKFromHomePath_with_sections w Custom homeDir _ st1
               bytes contents config mx sec Hread Hdec Hparse Hmax Hsec).
    subst st1 st2. simpl. rewrite length_app. simpl.
    by rewrite Nat.add_1_r.
Qed.

Lemma findSDKForDebugConfiguration_custom_witness :
  let w := Scenario.monorepo Scenario.complete_cfg in
  ∃ st1 st2 tr,
    Debug.findSDKForDebugConfiguration w (Some "/opt/conda/share/max/") ScenarioProbe.resolved
      = (Ret (Some 1), st1, tr)
    ∧ Debug.findSDKForDebugConfiguration w (Some "/opt/conda/share/max/") st1
      = (Ret (Some 2), st2, tr)
    ∧ tr = [EvReadFile "/opt/conda/share/max/modular.cfg";
            EvTelemetry "sdkLoaded" "25.1.0" Custom]
    ∧ activeSDK (mgr st2) = Some 0
    ∧ (home <$> heap st2 !! 2)
      = Some (Some {| homePath := "/opt/conda/share/max"; prefixPath := Some "/opt/conda" |}).
Proof.
  intros w.
  destruct (findSDKForDebugConfiguration_custom w "/opt/conda/share/max/"
              ScenarioProbe.resolved [] "" Scenario.complete_cfg
              {[ "version" := "25.1.0" ]}
              (<[ "lsp_server_path" := "/sdk/bin/mojo-lsp-server" ]>
               (<[ "mblack_path" := "/sdk/bin/mblack" ]>
                (<[ "lldb_plugin_path" := "/sdk/lib/libMojoLLDB.so" ]>
                 (<[ "lldb_vscode_path" := "/sdk/bin/lldb-dap" ]>
                  (<[ "driver_path" := "/sdk/bin/mojo" ]>
                   (<[ "lldb_visualizers_path" := "/sdk/lib/lldb-visualizers" ]>
                    {[ "lldb_path" := "/sdk/bin/mojo-lldb" ]}))))))
              eq_refl eq_refl eq_refl)
    as (H1 & H2 & _); try (vm_compute; reflexivity).
  do 3 eexists. split; [exact H1|]. split; [exact H2|].
  split; [vm_compute; reflexivity|]. split; vm_compute; reflexivity.
Defined.

(** ** Environment entries *)

Lemma splitOn_nonempty (sep : Ascii.ascii) (s : string) : Debug.splitOn sep s ≠ [].
Proof.
  destruct s as [|c s]; simpl; [done|].
  case_bool_decide; [done|]. by destruct (Debug.splitOn sep s).
Qed.

Lemma concat_cons_cons (sep x y : string) (l : list string) :
  String.concat sep (x :: y :: l) = x +:+ sep +:+ String.concat sep (y :: l).
Proof. reflexivity. Qed.

Lemma splitOn_join (sep : Ascii.ascii) (s : string) :
  String.concat (String sep "") (Debug.splitOn sep s) = s.
Proof.
  induction s as [|c s IH]; simpl; [done|].
  pose proof (splitOn_nonempty sep s) as Hne.
  destruct (Debug.splitOn sep s) as [|x xs] eqn:Hs; [done|].
  case_bool_decide as Hc.
  - rewrite concat_cons_cons, IH. by subst c.
  - destruct xs as [|y ys].
    + simpl in *. by rewrite IH.
    + rewrite concat_cons_cons in *. rewrite append_cons. by rewrite IH.
Qed.

Lemma splitOn_head_clean (sep : Ascii.ascii) (s : string) :
  occurs sep (hd "" (Debug.splitOn sep s)) = false.
Proof.
  induction s as [|c s IH]; simpl; [done|].
  case_bool_decide as Hc; [done|].
  pose proof (splitOn_nonempty sep s) as Hne.
  destruct (Debug.splitOn sep s) as [|x xs]; [done|]. simpl in *.
  rewrite IH, orb_false_r. by apply bool_decide_eq_false.
Qed.

Lemma splitOn_clean (sep : Ascii.ascii) (s : string) :
  occurs sep s = false → Debug.splitOn sep s = [s].
Proof.
  induction s as [|c s IH]; simpl; [done|].
  rewrite orb_false_iff, bool_decide_eq_false. intros [Hc Hs].
  rewrite bool_decide_eq_false_2 by done. by rewrite (IH Hs).
Qed.

Lemma splitOn_app (sep : Ascii.ascii) (k v : string) :
  occurs sep k = false →
  Debug.splitOn sep (k +:+ String sep v) = k :: Debug.splitOn sep v.
Proof.
  induction k as [|c k IH]; simpl.
  - intros _. by rewrite bool_decide_eq_true_2.
  - rewrite orb_false_iff, bool_decide_eq_false. intros [Hc Hk].
    rewrite ?append_cons. simpl. rewrite bool_decide_eq_false_2 by done.
    by rewrite (IH Hk).
Qed.

Lemma splitEnv_pair (k v : string) :
  occurs equalsSign k = false → CudaGdb.splitEnv (k +:+ "=" +:+ v) = (k, v).
Proof.
  intros Hk. unfold CudaGdb.splitEnv. fold equalsSign.
  change (k +:+ "=" +:+ v) with (k +:+ String equalsSign v).
  rewrite (splitOn_app _ _ _ Hk). simpl. f_equal.
  exact (splitOn_join equalsSign v).
Qed.

(** X13.  The split of an environment string yields a name without [=]; for
    a string that holds a [=] the name, a [=] and the value give the string
    back, so the value keeps every further [=]; a string without [=] is all
    name, with an empty value.  In particular [NAME=value] is split into
    exactly [NAME] and [value] whenever [NAME] holds no [=]. *)
Theorem splitEnv_spec (envStr : string) :
  let name := (CudaGdb.splitEnv envStr).1 in
  let value := (CudaGdb.splitEnv envStr).2 in
  occurs equalsSign name = false
  ∧ (if occurs equalsSign envStr then envStr = name +:+ "=" +:+ value
     else name = envStr ∧ value = "")
  ∧ ∀ k v, occurs equalsSign k = false →
           CudaGdb.splitEnv (k +:+ "=" +:+ v) = (k, v).
Proof.
  cbv zeta. unfold CudaGdb.splitEnv. fold equalsSign. simpl.
  split; [apply splitOn_head_clean|]. split.
  - destruct (occurs equalsSign envStr) eqn:Ho.
    + pose proof (splitOn_join equalsSign envStr) as Hj.
      destruct (Debug.splitOn equalsSign envStr) as [|x [|y ys]] eqn:Hs.
      * by destruct (splitOn_nonempty equalsSign envStr).
      * simpl in Hj. subst x.
        pose proof (splitOn_head_clean equalsSign envStr) as Hc.
        rewrite Hs in Hc. simpl in Hc. congruence.
      * rewrite concat_cons_cons in Hj. simpl. by rewrite <- Hj.
    + by rewrite (splitOn_clean _ _ Ho).
  - apply splitEnv_pair.
Qed.

Example splitEnv_run :
  CudaGdb.splitEnv <$> ["A=1"; "B=2=3"; "C"; "=x"]
  = [("A", "1"); ("B", "2=3"); ("C", ""); ("", "x")].
Proof. reflexivity. Qed.



(** ** The debug configuration resolver *)

Section Resolver.

Variables (h : Debug.Host) (w : World) (cfg : Debug.MojoDebugConfiguration).

Let userCommands := default [] (Debug.initCommands cfg).

(** The whole run of the resolver once the SDK has been found. *)
Lemma resolve_run (st st1 : State) (tr1 : list Event) (r : ref) (sdk : SDK) :
  Debug.findSDKForDebugConfiguration w (Debug.modularHomePath cfg) st
    = (Ret (Some r), st1, tr1) →
  heap st1 !! r = Some sdk →
  Debug.resolveDebugConfigurationWithSubstitutedVariables h w cfg st =
    match Debug.launchTarget cfg sdk with
    | inl message =>
        (Ret None, st1,
         (Debug.Core <$> tr1) ++ [Debug.Core (EvShowErrorMessage message)])
    | inr launch =>
        match lldbHasPythonScriptingSupport w r st1 with
        | (Throw e, st2, tr2) => (Throw e, st2, Debug.Core <$> (tr1 ++ tr2))
        | (Ret false, st2, tr2) =>
            (Ret (Some (Debug.resolvedConfiguration h cfg sdk launch
                          (Debug.fixedInitCommands sdk ++ userCommands))),
             st2, Debug.Core <$> (tr1 ++ tr2))
        | (Ret true, st2, tr2) =>
            match visualizersPath sdk with
            | None => (Throw "TypeError", st2, Debug.Core <$> (tr1 ++ tr2))
            | Some dir =>
                match Debug.readDirectory h dir with
                | None =>
                    (Throw "Error", st2,
                     (Debug.Core <$> (tr1 ++ tr2)) ++ [Debug.EvReadDirectory dir])
                | Some entries =>
                    (Ret (Some (Debug.resolvedConfiguration h cfg sdk launch
                                  (Debug.fixedInitCommands sdk ++ userCommands
                                   ++ Debug.visualizerCommands dir entries))),
                     st2,
                     (Debug.Core <$> (tr1 ++ tr2)) ++ [Debug.EvReadDirectory dir])
                end
            end
        end
    end.
Proof.
  intros Hfind Hr.
  unfold Debug.resolveDebugConfigurationWithSubstitutedVariables, Debug.dbind at 1,
    Debug.lift at 1.
  rewrite Hfind. unfold Debug.dbind at 1, Debug.lift at 1, deref. rewrite Hr.
  destruct (Debug.launchTarget cfg sdk) as [message|launch].
  { simpl. by rewrite ?app_nil_r. }
  unfold Debug.dbind at 1, Debug.lift at 1.
  destruct (lldbHasPythonScriptingSupport w r st1) as [[[[|]|e] st2] tr2];
    rewrite fmap_app.
  - destruct (visualizersPath sdk) as [dir|]; [|simpl; by rewrite ?app_nil_r].
    unfold Debug.dbind, Debug.demit, Debug.dret, Debug.dthrow.
    destruct (Debug.readDirectory h dir) as [entries|]; simpl;
      by rewrite ?app_nil_r, <- ?app_assoc.
  - simpl. by rewrite ?app_nil_r.
  - simpl. by rewrite ?app_nil_r.
Qed.

(** A resolver run that returns a configuration, taken apart. *)
Lemma resolve_inv (st st' : State) (tr : list Debug.DebugEvent)
    (cfg' : Debug.MojoDebugConfiguration) :
  Debug.resolveDebugConfigurationWithSubstitutedVariables h w cfg st
    = (Ret (Some cfg'), st', tr) →
  ∃ r sdk st1 tr1 launch extra tr2 (b : bool),
    Debug.findSDKForDebugConfiguration w (Debug.modularHomePath cfg) st
      = (Ret (Some r), st1, tr1)
    ∧ heap st1 !! r = Some sdk
    ∧ Debug.launchTarget cfg sdk = inr launch
    ∧ lldbHasPythonScriptingSupport w r st1 = (Ret b, st', tr2)
    ∧ cfg' = Debug.resolvedConfiguration h cfg sdk launch
               (Debug.fixedInitCommands sdk ++ userCommands ++ extra)
    ∧ (if b then
         ∃ dir entries,
           visualizersPath sdk = Some dir
           ∧ Debug.readDirectory h dir = Some entries
           ∧ extra = Debug.visualizerCommands dir entries
           ∧ tr = (Debug.Core <$> (tr1 ++ tr2)) ++ [Debug.EvReadDirectory dir]
       else extra = [] ∧ tr = Debug.Core <$> (tr1 ++ tr2)).
Proof.
  intros Hrun.
  destruct (Debug.findSDKForDebugConfiguration w (Debug.modularHomePath cfg) st)
    as [[[[r|]|e] st1] tr1] eqn:Hfind;
    [|revert Hrun;
      unfold Debug.resolveDebugConfigurationWithSubstitutedVariables, Debug.dbind,
        Debug.lift; by rewrite Hfind..].
  destruct (heap st1 !! r) as [sdk|] eqn:Hr; cycle 1.
  { revert Hrun.
    unfold Debug.resolveDebugConfigurationWithSubstitutedVariables, Debug.dbind,
      Debug.lift, deref. by rewrite Hfind, Hr. }
  rewrite (resolve_run st st1 tr1 r sdk Hfind Hr) in Hrun.
  destruct (Debug.launchTarget cfg sdk) as [message|launch] eqn:Hl; [done|].
  destruct (lldbHasPythonScriptingSupport w r st1) as [[[[|]|e] st2] tr2] eqn:Hp;
    [| |done].
  - destruct (visualizersPath sdk) as [dir|] eqn:Hv; [|done].
    destruct (Debug.readDirectory h dir) as [entries|] eqn:Hd; [|done].
    injection Hrun as <- <- <-.
    exists r, sdk, st1, tr1, launch, (Debug.visualizerCommands dir entries), tr2, true.
    repeat split; try done. by exists dir, entries.
  - injection Hrun as <- <- <-.
    exists r, sdk, st1, tr1, launch, [], tr2, false.
    repeat split; try done. by rewrite app_nil_r.
Qed.

End Resolver.

(** X15.  When the SDK has been found and the configuration names a file to
    debug, the resolver refuses a descriptor that does not support file
    debugging (a wheel installation) and a file whose name ends neither in
    the first extension the source tests (a dot followed by the bytes
    C3 B0 C5 B8 E2 80 9D C2 A5, as the file at hand writes it) nor in
    [.mojo]: it returns [undefined] and shows its
    error dialog directly, whether or not the error-already-shown flag of the
    manager is set, and neither the probe nor the visualizers directory is
    touched. *)
Theorem resolve_rejects_file (h : Debug.Host) (w : World)
    (cfg : Debug.MojoDebugConfiguration) (st st1 : State) (tr1 : list Event)
    (r : ref) (sdk : SDK) (file : string) :
  Debug.findSDKForDebugConfiguration w (Debug.modularHomePath cfg) st
    = (Ret (Some r), st1, tr1) →
  heap st1 !! r = Some sdk →
  Debug.mojoFile cfg = Some file →
  file ≠ "" →
  home sdk = None
  ∨ (Debug.endsWith file Debug.fireExtension = false
     ∧ Debug.endsWith file ".mojo" = false) →
  Debug.resolveDebugConfigurationWithSubstitutedVariables h w cfg st =
    (Ret None, st1,
     (Debug.Core <$> tr1)
       ++ [Debug.Core (EvShowErrorMessage
                         (if bool_decide (home sdk = None) then Debug.wheelFileMessage
                          else Debug.extensionMessage file))]).
Proof.
  intros Hfind Hr Hfile Hne Hbad.
  rewrite (resolve_run h w cfg st st1 tr1 r sdk Hfind Hr).
  unfold Debug.launchTarget, supportsFileDebug. rewrite Hfile. simpl.
  rewrite bool_decide_eq_false_2 by done. simpl.
  destruct (home sdk) as [hf|] eqn:Hh.
  - rewrite (bool_decide_eq_true_2 (is_Some (Some hf))) by eauto.
    rewrite (bool_decide_eq_false_2 (Some hf = None)) by done. simpl.
    destruct Hbad as [?|[-> ->]]; [done|]. reflexivity.
  - rewrite (bool_decide_eq_false_2 (is_Some None)) by (by intros [? ?]).
    reflexivity.
Qed.

(** The file of another language, refused twice in a row; the flag of the
    manager is set the whole time. *)
Lemma resolve_rejects_file_witness :
  let st := {| mgr := set_displayedSDKError true (mgr ScenarioDebug.condaState);
               heap := heap ScenarioDebug.condaState |} in
  let dialog :=
    [Debug.Core (EvShowErrorMessage
       ("Mojo Debug error: the file '/a/b/main.txt' doesn't have the "
        +:+ Debug.fireExtension +:+ " or .mojo extension."))] in
  Debug.resolveDebugConfigurationWithSubstitutedVariables ScenarioDebug.host
    ScenarioProbe.scripting (ScenarioDebug.launch "/a/b/main.txt") st
    = (Ret None, st, dialog).
Proof.
  intros st dialog.
  apply (resolve_rejects_file ScenarioDebug.host ScenarioProbe.scripting
           (ScenarioDebug.launch "/a/b/main.txt") st st [] 0 ScenarioDebug.condaSDK
           "/a/b/main.txt"); try reflexivity; try done.
  right. split; reflexivity.
Defined.

(** X16.  Whenever the resolver returns a configuration for a configuration
    that names a file, the arguments are [run --no-optimization
    --debug-level full], the caller's build arguments, the file, and the
    caller's program arguments, in that order; the program is the runtime
    path of the SDK that was found, which supports file debugging; and the
    file name ends in the first extension the source tests (a dot followed
    by the bytes C3 B0 C5 B8 E2 80 9D C2 A5, as the file at hand writes it)
    or in [.mojo].  Without a file the arguments and the program are the
    caller's. *)
Theorem resolve_file_launch (h : Debug.Host) (w : World)
    (cfg cfg' : Debug.MojoDebugConfiguration) (st st' : State)
    (tr : list Debug.DebugEvent) :
  Debug.resolveDebugConfigurationWithSubstitutedVariables h w cfg st
    = (Ret (Some cfg'), st', tr) →
  match Debug.mojoFile cfg with
  | Some file =>
      file ≠ "" →
      Debug.args cfg'
        = Some (["run"; "--no-optimization"; "--debug-level"; "full"]
                ++ default [] (Debug.buildArgs cfg) ++ [file]
                ++ default [] (Debug.args cfg))
      ∧ (Debug.endsWith file Debug.fireExtension = true
         ∨ Debug.endsWith file ".mojo" = true)
      ∧ ∃ r sdk st1 tr1,
          Debug.findSDKForDebugConfiguration w (Debug.modularHomePath cfg) st
            = (Ret (Some r), st1, tr1)
          ∧ heap st1 !! r = Some sdk
          ∧ supportsFileDebug sdk = true
          ∧ Debug.program cfg' = mojoPath sdk
  | None => Debug.args cfg' = Debug.args cfg ∧ Debug.program cfg' = Debug.program cfg
  end.
Proof.
  intros Hrun.
  destruct (resolve_inv h w cfg st st' tr cfg' Hrun)
    as (r & sdk & st1 & tr1 & launch & extra & tr2 & b & Hfind & Hr & Hl & _ & -> & _).
  revert Hl. unfold Debug.launchTarget.
  destruct (Debug.mojoFile cfg) as [file|] eqn:Hfile; simpl.
  - intros Hl Hne. rewrite bool_decide_eq_false_2 in Hl by done. simpl in Hl.
    destruct (supportsFileDebug sdk) eqn:Hs; simpl in Hl; [|done].
    destruct (Debug.endsWith file Debug.fireExtension) eqn:Hf;
      destruct (Debug.endsWith file ".mojo") eqn:Hm; simpl in Hl; try done;
      injection Hl as <-; (split; [done|]); (split; [auto|]);
      by exists r, sdk, st1, tr1.
  - by intros [= <-].
Qed.

Lemma resolve_file_launch_witness :
  ∃ cfg' st' tr,
    Debug.resolveDebugConfigurationWithSubstitutedVariables ScenarioDebug.host
      Posix.bare (ScenarioDebug.launch "/a/b/main.mojo") ScenarioDebug.condaState
      = (Ret (Some cfg'), st', tr)
    ∧ Debug.args cfg'
      = Some ["run"; "--no-optimization"; "--debug-level"; "full"; "-D"; "X=1";
              "/a/b/main.mojo"; "--flag"]
    ∧ Debug.program cfg' = Some "/sdk/bin/mojo".
Proof.
  do 3 eexists. split; [vm_compute; reflexivity|].
  match goal with
  | |- Debug.args ?c = _ ∧ _ =>
      pose proof (resolve_file_launch ScenarioDebug.host Posix.bare
                    (ScenarioDebug.launch "/a/b/main.mojo") c
                    ScenarioDebug.condaState) as H
  end.
  split; [|reflexivity]. eapply H; [vm_compute; reflexivity|done].
Defined.

(** X17.  In every configuration the resolver returns, the init commands are
    the four fixed commands (plugin load, the two settings, the telemetry
    marker) of the SDK that was found, then the caller's commands in their
    order, then one [command script import] per entry of the visualizers
    directory in listing order.  The directory is read exactly when the
    probe of that descriptor answered [true]; otherwise no visualizer
    command is added. *)
Theorem resolve_init_commands (h : Debug.Host) (w : World)
    (cfg cfg' : Debug.MojoDebugConfiguration) (st st' : State)
    (tr : list Debug.DebugEvent) :
  Debug.resolveDebugConfigurationWithSubstitutedVariables h w cfg st
    = (Ret (Some cfg'), st', tr) →
  ∃ r sdk st1 tr1 tr2 (b : bool) extra,
    Debug.findSDKForDebugConfiguration w (Debug.modularHomePath cfg) st
      = (Ret (Some r), st1, tr1)
    ∧ heap st1 !! r = Some sdk
    ∧ lldbHasPythonScriptingSupport w r st1 = (Ret b, st', tr2)
    ∧ Debug.initCommands cfg'
      = Some ([ "?!plugin load '" +:+ Debug.show (lldbPluginPath sdk) +:+ "'";
                "?settings set target.show-hex-variable-values-with-leading-zeroes false";
                "?settings set target.process.optimization-warnings false";
                "?mojo statistics telemetry session.start vscode" ]
              ++ default [] (Debug.initCommands cfg) ++ extra)
    ∧ (if b then
         ∃ dir entries,
           visualizersPath sdk = Some dir
           ∧ Debug.readDirectory h dir = Some entries
           ∧ extra = (λ e, "?command script import " +:+ dir +:+ "/" +:+ e.1) <$> entries
           ∧ tr = (Debug.Core <$> (tr1 ++ tr2)) ++ [Debug.EvReadDirectory dir]
       else extra = [] ∧ tr = Debug.Core <$> (tr1 ++ tr2)).
Proof.
  intros Hrun.
  destruct (resolve_inv h w cfg st st' tr cfg' Hrun)
    as (r & sdk & st1 & tr1 & launch & extra & tr2 & b & Hfind & Hr & _ & Hp & -> & Hb).
  by exists r, sdk, st1, tr1, tr2, b, extra.
Qed.

Lemma resolve_init_commands_witness :
  ∃ cfg' st' tr,
    Debug.resolveDebugConfigurationWithSubstitutedVariables ScenarioDebug.host
      ScenarioProbe.scripting (ScenarioDebug.launch "/a/b/main.mojo")
      ScenarioDebug.condaState
      = (Ret (Some cfg'), st', tr)
    ∧ Debug.initCommands cfg'
      = Some ["?!plugin load '/sdk/lib/libMojoLLDB.so'";
              "?settings set target.show-hex-variable-values-with-leading-zeroes false";
              "?settings set target.process.optimization-warnings false";
              "?mojo statistics telemetry session.start vscode";
              "settings show";
              "?command script import /sdk/lib/lldb-visualizers/lists.py";
              "?command script import /sdk/lib/lldb-visualizers/strings.py"]
    ∧ tr = [Debug.Core (EvExecFile "/sdk/bin/mojo-lldb" probeArgs);
            Debug.EvReadDirectory "/sdk/lib/lldb-visualizers"].
Proof.
  eassert (Debug.resolveDebugConfigurationWithSubstitutedVariables ScenarioDebug.host
             ScenarioProbe.scripting (ScenarioDebug.launch "/a/b/main.mojo")
             ScenarioDebug.condaState = (Ret (Some _), _, _)) as Hrun
    by (vm_compute; reflexivity).
  destruct (resolve_init_commands _ _ _ _ _ _ _ Hrun)
    as (r & sdk & st1 & tr1 & tr2 & b & extra & _).
  do 3 eexists. split; [exact Hrun|]. split; reflexivity.
Defined.

(** X18.  In every configuration the resolver returns, the environment list
    starts with [LLDB_VSCODE_RIT_TIMEOUT_IN_MS=300000], continues with the
    process environment of the SDK that was found, entry by entry, and ends
    with the caller's entries in their order: the caller's entries come last
    and none of them is dropped. *)
Theorem resolve_environment (h : Debug.Host) (w : World)
    (cfg cfg' : Debug.MojoDebugConfiguration) (st st' : State)
    (tr : list Debug.DebugEvent) :
  Debug.resolveDebugConfigurationWithSubstitutedVariables h w cfg st
    = (Ret (Some cfg'), st', tr) →
  ∃ r sdk st1 tr1,
    Debug.findSDKForDebugConfiguration w (Debug.modularHomePath cfg) st
      = (Ret (Some r), st1, tr1)
    ∧ heap st1 !! r = Some sdk
    ∧ Debug.env cfg'
      = Some ("LLDB_VSCODE_RIT_TIMEOUT_IN_MS=300000"
              :: Debug.envDictToList (Debug.processEnvEntries sdk true)
              ++ default [] (Debug.env cfg)).
Proof.
  intros Hrun.
  destruct (resolve_inv h w cfg st st' tr cfg' Hrun)
    as (r & sdk & st1 & tr1 & launch & extra & tr2 & b & Hfind & Hr & _ & _ & -> & _).
  by exists r, sdk, st1, tr1.
Qed.

Lemma resolve_environment_witness :
  ∃ cfg' st' tr,
    Debug.resolveDebugConfigurationWithSubstitutedVariables ScenarioDebug.host
      Posix.bare (ScenarioDebug.launch "/a/b/main.mojo") ScenarioDebug.condaState
      = (Ret (Some cfg'), st', tr)
    ∧ Debug.env cfg'
      = Some ["LLDB_VSCODE_RIT_TIMEOUT_IN_MS=300000"; "MODULAR_TELEMETRY_ENABLED=true";
              "MODULAR_HOME=/venv/share/max"; "CONDA_PREFIX=/venv"; "A=1"].
Proof.
  eassert (Debug.resolveDebugConfigurationWithSubstitutedVariables ScenarioDebug.host
             Posix.bare (ScenarioDebug.launch "/a/b/main.mojo")
             ScenarioDebug.condaState = (Ret (Some _), _, _)) as Hrun
    by (vm_compute; reflexivity).
  destruct (resolve_environment _ _ _ _ _ _ _ Hrun) as (r & sdk & st1 & tr1 & _).
  do 3 eexists. split; [exact Hrun|]. reflexivity.
Defined.

(** X19.  In every configuration the resolver returns, each of the five
    defaulted attributes has the caller's value when the caller set one and
    the fixed default otherwise (frame format, synthetic children [true],
    variable summaries [true], escape prefix [:], timeout 300 seconds); a
    [pid] given as a string has been replaced by what [parseInt] makes of
    it; and the attributes the resolver does not compute ([type], [name],
    [request], [mojoFile], [buildArgs], [runInTerminal], the two home-path
    attributes) are the caller's. *)
Theorem resolve_defaults (h : Debug.Host) (w : World)
    (cfg cfg' : Debug.MojoDebugConfiguration) (st st' : State)
    (tr : list Debug.DebugEvent) :
  Debug.resolveDebugConfigurationWithSubstitutedVariables h w cfg st
    = (Ret (Some cfg'), st', tr) →
  Debug.customFrameFormat cfg'
    = Some (default "${function.name-with-args}{${frame.is-artificial} [artificial]}"
              (Debug.customFrameFormat cfg))
  ∧ Debug.enableSyntheticChildDebugging cfg'
    = Some (default true (Debug.enableSyntheticChildDebugging cfg))
  ∧ Debug.enableAutoVariableSummaries cfg'
    = Some (default true (Debug.enableAutoVariableSummaries cfg))
  ∧ Debug.commandEscapePrefix cfg' = Some (default ":" (Debug.commandEscapePrefix cfg))
  ∧ Debug.timeout cfg' = Some (default 300%Z (Debug.timeout cfg))
  ∧ Debug.pid cfg'
    = match Debug.pid cfg with
      | Some (Debug.PidString s) => Some (Debug.PidNumber (Debug.parseInt h s))
      | other => other
      end
  ∧ (Debug.type cfg', Debug.name cfg', Debug.request cfg', Debug.mojoFile cfg',
     Debug.buildArgs cfg', Debug.runInTerminal cfg', Debug.modularHomePath cfg',
     Debug.modularConfigMojoSection cfg')
    = (Debug.type cfg, Debug.name cfg, Debug.request cfg, Debug.mojoFile cfg,
       Debug.buildArgs cfg, Debug.runInTerminal cfg, Debug.modularHomePath cfg,
       Debug.modularConfigMojoSection cfg).
Proof.
  intros Hrun.
  destruct (resolve_inv h w cfg st st' tr cfg' Hrun)
    as (r & sdk & st1 & tr1 & launch & extra & tr2 & b & _ & _ & _ & _ & -> & _).
  repeat split.
Qed.

Lemma resolve_defaults_witness :
  ∃ cfg' st' tr,
    Debug.resolveDebugConfigurationWithSubstitutedVariables ScenarioDebug.host
      Posix.bare (ScenarioDebug.launch "/a/b/main.mojo") ScenarioDebug.condaState
      = (Ret (Some cfg'), st', tr)
    ∧ Debug.timeout cfg' = Some 10%Z
    ∧ Debug.enableAutoVariableSummaries cfg' = Some false
    ∧ Debug.commandEscapePrefix cfg' = Some ":"
    ∧ Debug.pid cfg' = Some (Debug.PidNumber (Some 42%Z)).
Proof.
  eassert (Debug.resolveDebugConfigurationWithSubstitutedVariables ScenarioDebug.host
             Posix.bare (ScenarioDebug.launch "/a/b/main.mojo")
             ScenarioDebug.condaState = (Ret (Some _), _, _)) as Hrun
    by (vm_compute; reflexivity).
  destruct (resolve_defaults _ _ _ _ _ _ _ Hrun) as (_ & _ & Hs & Hp & Ht & Hpid & _).
  do 3 eexists. split; [exact Hrun|].
  split; [exact Ht|]. split; [exact Hs|]. split; [exact Hp|]. exact Hpid.
Defined.

(** X20.  When the probe of the descriptor that was found answers [true],
    the outcome hangs on the visualizers directory: if the descriptor has no
    visualizers path, or the directory cannot be read, the resolver throws
    and no configuration is returned, although the SDK and the launch target
    were fine; if it can be read the resolver returns a configuration. *)
Theorem resolve_visualizers (h : Debug.Host) (w : World)
    (cfg : Debug.MojoDebugConfiguration) (st st1 st2 : State)
    (tr1 tr2 : list Event) (r : ref) (sdk : SDK)
    (launch : option (list string) * option string) :
  Debug.findSDKForDebugConfiguration w (Debug.modularHomePath cfg) st
    = (Ret (Some r), st1, tr1) →
  heap st1 !! r = Some sdk →
  Debug.launchTarget cfg sdk = inr launch →
  lldbHasPythonScriptingSupport w r st1 = (Ret true, st2, tr2) →
  let run := Debug.resolveDebugConfigurationWithSubstitutedVariables h w cfg st in
  match visualizersPath sdk with
  | None => run = (Throw "TypeError", st2, Debug.Core <$> (tr1 ++ tr2))
  | Some dir =>
      match Debug.readDirectory h dir with
      | None =>
          run = (Throw "Error", st2,
                 (Debug.Core <$> (tr1 ++ tr2)) ++ [Debug.EvReadDirectory dir])
      | Some entries =>
          ∃ cfg', run = (Ret (Some cfg'), st2,
                         (Debug.Core <$> (tr1 ++ tr2)) ++ [Debug.EvReadDirectory dir])
                  ∧ length <$> Debug.initCommands cfg'
                    = Some (4 + length (default [] (Debug.initCommands cfg))
                            + length entries)
      end
  end.
Proof.
  intros Hfind Hr Hl Hp run. subst run.
  rewrite (resolve_run h w cfg st st1 tr1 r sdk Hfind Hr), Hl, Hp.
  destruct (visualizersPath sdk) as [dir|]; [|done].
  destruct (Debug.readDirectory h dir) as [entries|]; [|done].
  eexists. split; [reflexivity|]. simpl. f_equal.
  rewrite length_app. unfold Debug.visualizerCommands.
  rewrite length_fmap. lia.
Qed.

(** The debugger supports scripting but the visualizers directory is gone. *)
Lemma resolve_visualizers_witness :
  let host := {| Debug.parseInt := λ _, None; Debug.readDirectory := λ _, None;
                 Debug.quote := String.concat " "; Debug.checkNsightInstall := None |} in
  ∃ st2,
    Debug.resolveDebugConfigurationWithSubstitutedVariables host
      ScenarioProbe.scripting ScenarioDebug.empty ScenarioDebug.condaState
      = (Throw "Error", st2,
         [Debug.Core (EvExecFile "/sdk/bin/mojo-lldb" probeArgs);
          Debug.EvReadDirectory "/sdk/lib/lldb-visualizers"]).
Proof.
  intros host.
  eassert (lldbHasPythonScriptingSupport ScenarioProbe.scripting 0
             ScenarioDebug.condaState = (Ret true, _, _)) as Hp
    by (vm_compute; reflexivity).
  pose proof (resolve_visualizers host ScenarioProbe.scripting ScenarioDebug.empty
                ScenarioDebug.condaState ScenarioDebug.condaState _ [] _ 0
                ScenarioDebug.condaSDK (None, None) eq_refl eq_refl eq_refl Hp) as H.
  eexists. vm_compute in H. vm_compute. exact H.
Defined.

(** X21.  [resolveDebugConfiguration] fills in a configuration only when its
    [request] is missing or empty: then [type], [request] and [mojoFile]
    become [mojo-lldb], [launch] and the active-file placeholder (whatever
    they were) and each of the fifteen other attributes of the configuration
    is kept; a configuration with a request is returned as it is.  Applying
    it twice is applying it once. *)
Theorem resolveDebugConfiguration_spec (cfg : Debug.MojoDebugConfiguration) :
  let cfg' := Debug.resolveDebugConfiguration cfg in
  Debug.resolveDebugConfiguration cfg' = cfg'
  ∧ (truthy (Debug.request cfg) = true → cfg' = cfg)
  ∧ (truthy (Debug.request cfg) = false →
     Debug.type cfg' = Some "mojo-lldb"
     ∧ Debug.request cfg' = Some "launch"
     ∧ Debug.mojoFile cfg' = Some "${file}"
     ∧ Debug.name cfg' = Debug.name cfg
     ∧ Debug.pid cfg' = Debug.pid cfg
     ∧ Debug.modularHomePath cfg' = Debug.modularHomePath cfg
     ∧ Debug.modularConfigMojoSection cfg' = Debug.modularConfigMojoSection cfg
     ∧ Debug.args cfg' = Debug.args cfg
     ∧ Debug.program cfg' = Debug.program cfg
     ∧ Debug.env cfg' = Debug.env cfg
     ∧ Debug.enableAutoVariableSummaries cfg' = Debug.enableAutoVariableSummaries cfg
     ∧ Debug.commandEscapePrefix cfg' = Debug.commandEscapePrefix cfg
     ∧ Debug.timeout cfg' = Debug.timeout cfg
     ∧ Debug.initCommands cfg' = Debug.initCommands cfg
     ∧ Debug.customFrameFormat cfg' = Debug.customFrameFormat cfg
     ∧ Debug.runInTerminal cfg' = Debug.runInTerminal cfg
     ∧ Debug.buildArgs cfg' = Debug.buildArgs cfg
     ∧ Debug.enableSyntheticChildDebugging cfg'
       = Debug.enableSyntheticChildDebugging cfg).
Proof.
  cbv zeta. unfold Debug.resolveDebugConfiguration.
  destruct (truthy (Debug.request cfg)) eqn:Ht; simpl.
  - rewrite Ht. simpl. repeat split; done.
  - repeat split; done.
Qed.

Lemma resolveDebugConfiguration_spec_witness :
  Debug.request (Debug.resolveDebugConfiguration ScenarioDebug.empty) = Some "launch"
  ∧ Debug.resolveDebugConfiguration (ScenarioDebug.launch "/a/b/main.mojo")
    = ScenarioDebug.launch "/a/b/main.mojo".
Proof.
  destruct (resolveDebugConfiguration_spec ScenarioDebug.empty) as (_ & _ & Hfill).
  destruct (resolveDebugConfiguration_spec (ScenarioDebug.launch "/a/b/main.mojo"))
    as (_ & Hkeep & _).
  split; [by destruct (Hfill eq_refl) as (_ & Hrequest & _)|by apply Hkeep].
Defined.

(** ** The translation to cuda-gdb *)

(** X22.  When [checkNsightInstall] reports an error the translation stops
    at once: it returns [undefined] without looking for an SDK, so nothing
    is read, no dialog of the manager is shown and the state is as before. *)
Theorem cudaGdb_requires_nsight (h : Debug.Host) (w : World)
    (cfg : CudaGdb.MojoCudaGdbDebugConfiguration) (st : State) :
  truthy (Debug.checkNsightInstall h) = true →
  CudaGdb.resolveDebugConfigurationWithSubstitutedVariables h w cfg st
    = (Ret None, st, [Debug.EvCheckNsightInstall]).
Proof.
  intros Hn. unfold CudaGdb.resolveDebugConfigurationWithSubstitutedVariables,
    Debug.dbind, Debug.demit. simpl. by rewrite Hn.
Qed.

Lemma cudaGdb_requires_nsight_witness :
  CudaGdb.resolveDebugConfigurationWithSubstitutedVariables
    ScenarioDebug.hostWithoutNsight (Scenario.monorepo Scenario.complete_cfg)
    ScenarioCuda.attach readyState
  = (Ret None, readyState, [Debug.EvCheckNsightInstall]).
Proof.
  apply (cudaGdb_requires_nsight ScenarioDebug.hostWithoutNsight). reflexivity.
Defined.

(** X23.  With Nsight present and an SDK found, the translation always
    returns a configuration: its type is [cuda-gdb], the environment strings
    are split into name and value at their first [=], [stopAtEntry] and
    [processId] carry [stopOnEntry] and [pid], and the arguments are one
    quoted string.  For a configuration that names a file the program is the
    runtime of the SDK and the quoted arguments are [run --no-optimization
    --debug-level full], the file and the caller's arguments: unlike the
    LLDB resolver, neither the kind of installation nor the file extension is
    checked, and build arguments play no part. *)
Theorem cudaGdb_translates (h : Debug.Host) (w : World)
    (cfg : CudaGdb.MojoCudaGdbDebugConfiguration) (st st1 : State)
    (tr1 : list Event) (r : ref) (sdk : SDK) :
  truthy (Debug.checkNsightInstall h) = false →
  Debug.findSDKForDebugConfiguration w (CudaGdb.modularHomePath cfg) st
    = (Ret (Some r), st1, tr1) →
  heap st1 !! r = Some sdk →
  ∃ out,
    CudaGdb.resolveDebugConfigurationWithSubstitutedVariables h w cfg st
      = (Ret (Some out), st1, Debug.EvCheckNsightInstall :: (Debug.Core <$> tr1))
    ∧ CudaGdb.out_type out = "cuda-gdb"
    ∧ CudaGdb.source out = cfg
    ∧ CudaGdb.environment out = CudaGdb.splitEnv <$> default [] (CudaGdb.env cfg)
    ∧ CudaGdb.stopAtEntry out = CudaGdb.stopOnEntry cfg
    ∧ CudaGdb.processId out = CudaGdb.pid cfg
    ∧ match CudaGdb.mojoFile cfg with
      | Some file =>
          file ≠ "" →
          CudaGdb.out_program out = mojoPath sdk
          ∧ CudaGdb.out_args out
            = Debug.quote h (["run"; "--no-optimization"; "--debug-level"; "full"; file]
                             ++ default [] (CudaGdb.args cfg))
      | None =>
          CudaGdb.out_program out = CudaGdb.program cfg
          ∧ CudaGdb.out_args out = Debug.quote h (default [] (CudaGdb.args cfg))
      end.
Proof.
  intros Hn Hfind Hr.
  unfold CudaGdb.resolveDebugConfigurationWithSubstitutedVariables,
    Debug.dbind at 1, Debug.demit. rewrite Hn.
  unfold Debug.dbind at 1, Debug.lift at 1. rewrite Hfind.
  unfold Debug.dbind, Debug.lift, deref, Debug.dret. rewrite Hr. simpl.
  eexists. split; [by rewrite app_nil_r|]. simpl.
  repeat split.
  destruct (CudaGdb.mojoFile cfg) as [file|]; simpl; [|done].
  intros Hne. by rewrite bool_decide_eq_false_2.
Qed.

(** A wheel descriptor and a text file: the translation goes through; and
    the example of the environment strings. *)
Lemma cudaGdb_translates_witness :
  (∃ out st1 tr,
     CudaGdb.resolveDebugConfigurationWithSubstitutedVariables ScenarioDebug.host
       Posix.bare ScenarioCuda.launchText ScenarioProbe.resolved
       = (Ret (Some out), st1, tr)
     ∧ CudaGdb.out_program out = Some "/venv/bin/mojo"
     ∧ CudaGdb.out_args out
       = "run --no-optimization --debug-level full /a/b/main.txt --flag")
  ∧ ∃ out st1 tr,
      CudaGdb.resolveDebugConfigurationWithSubstitutedVariables ScenarioDebug.host
        Posix.bare ScenarioCuda.attach ScenarioProbe.resolved
        = (Ret (Some out), st1, tr)
      ∧ CudaGdb.environment out = [("A", "1"); ("B", "2=3")]
      ∧ CudaGdb.stopAtEntry out = Some true
      ∧ CudaGdb.processId out = Some (Debug.PidNumber (Some 42%Z)).
Proof.
  split.
  - destruct (cudaGdb_translates ScenarioDebug.host Posix.bare ScenarioCuda.launchText
                ScenarioProbe.resolved ScenarioProbe.resolved [] 0 _
                eq_refl eq_refl eq_refl)
      as (out & Hrun & _ & _ & _ & _ & _ & Hfile).
    destruct Hfile as [Hp Ha]; [done|].
    exists out. do 2 eexists. split; [exact Hrun|]. split; [exact Hp|].
    rewrite Ha. reflexivity.
  - destruct (cudaGdb_translates ScenarioDebug.host Posix.bare ScenarioCuda.attach
                ScenarioProbe.resolved ScenarioProbe.resolved [] 0 _
                eq_refl eq_refl eq_refl)
      as (out & Hrun & _ & _ & He & Hs & Hpid & _).
    exists out. do 2 eexists. split; [exact Hrun|]. split; [|split]; [|exact Hs|exact Hpid].
    rewrite He. reflexivity.
Defined.

(** ** Diagnostics inside docstrings *)

Lemma docstringRanges_spec (h : Lsp.Host) (ranges : list Lsp.FoldingRange) :
  (∀ r, r ∈ ranges → is_Some (Lsp.lineText h (Lsp.start r))) →
  ∃ kept, Lsp.docstringRanges h ranges = Some kept
          ∧ ∀ r, r ∈ kept ↔ r ∈ ranges ∧ isDocstring h r.
Proof.
  induction ranges as [|r ranges IH]; intros Hlines; simpl.
  - exists []. split; [done|]. intros r. split; [by intros ?%elem_of_nil|].
    by intros [?%elem_of_nil _].
  - destruct (Hlines r) as [text Htext]; [by left|]. rewrite Htext.
    destruct IH as (kept & -> & Hkept); [intros r' Hr'; apply Hlines; by right|].
    eexists. split; [reflexivity|]. intros r'.
    destruct (String.prefix Lsp.tripleQuote (Lsp.trimStart h text)) eqn:Hp.
    + rewrite !elem_of_cons, Hkept. split.
      * intros [->|[Hin Hd]]; [|by auto]. split; [by left|]. by exists text.
      * intros [[->|Hin] Hd]; by auto.
    + rewrite elem_of_cons, Hkept. split.
      * intros [Hin Hd]. by auto.
      * intros [[->|Hin] Hd]; [|done].
        destruct Hd as (text' & Htext' & Hp'). congruence.
Qed.

Lemma docstringRanges_missing_line (h : Lsp.Host) (ranges : list Lsp.FoldingRange)
    (r : Lsp.FoldingRange) :
  r ∈ ranges → Lsp.lineText h (Lsp.start r) = None → Lsp.docstringRanges h ranges = None.
Proof.
  induction ranges as [|r' ranges IH]; [by intros ?%elem_of_nil|].
  intros [->|Hin]%elem_of_cons Hnone; simpl.
  - by rewrite Hnone.
  - destruct (Lsp.lineText h (Lsp.start r')); [|done]. by rewrite IH.
Qed.

Lemma insideDocstring_spec (ranges : list Lsp.FoldingRange) (d : Lsp.Diagnostic) :
  Lsp.insideDocstring ranges d = true ↔ ∃ r, r ∈ ranges ∧ strictlyInside d r.
Proof.
  induction ranges as [|r ranges IH]; simpl.
  - split; [done|]. by intros (r & ?%elem_of_nil & _).
  - destruct (Nat.ltb_spec (Lsp.start r) (line (range_start (Lsp.range d))));
      destruct (Nat.ltb_spec (line (range_end (Lsp.range d))) (Lsp.end_ r)); simpl;
      try (rewrite IH; split;
           [ intros (r' & Hin & Hs); exists r'; split; [by right|done]
           | intros (r' & [->|Hin]%elem_of_cons & [Hs1 Hs2]); [lia|by exists r'] ]).
    split; [|done]. intros _. exists r. split; [by left|done].
Qed.

Lemma filter_sublist {A} (f : A → bool) (l : list A) : sublist (List.filter f l) l.
Proof.
  induction l as [|x l IH]; simpl; [constructor|].
  destruct (f x); by constructor.
Qed.

Lemma filter_decide {A} (P : A → Prop) `{∀ x, Decision (P x)} (f : A → bool)
    (l : list A) :
  (∀ x, f x = true ↔ P x) → List.filter f l = filter P l.
Proof.
  intros Hf. induction l as [|x l IH]; [done|].
  simpl. rewrite filter_cons, IH.
  destruct (decide (P x)) as [Hx|Hx], (f x) eqn:E; try done.
  - apply Hf in Hx. congruence.
  - apply Hf in E. done.
Qed.

(** X24.  With the setting off every diagnostic is forwarded.  With the
    setting on, and every folding range starting on a line of the document,
    the forwarded list is the given list with exactly the diagnostics
    removed that lie strictly inside a folding range that is a docstring:
    order and repetitions of the others are kept, and a diagnostic that
    starts on the opening line of the docstring or ends on its closing line
    is forwarded. *)
Theorem handleDiagnostics_spec (h : Lsp.Host) (diagnostics : list Lsp.Diagnostic) :
  (Lsp.suppressInDocstring h = false →
   Lsp.handleDiagnostics h diagnostics = Some diagnostics)
  ∧ (Lsp.suppressInDocstring h = true →
     (∀ r, r ∈ Lsp.foldingRanges h → is_Some (Lsp.lineText h (Lsp.start r))) →
     ∃ kept,
       Lsp.handleDiagnostics h diagnostics = Some kept
       ∧ kept = filter (λ d, ¬ inDocstring h d) diagnostics
       ∧ sublist kept diagnostics
       ∧ ∀ d, d ∈ kept ↔
              d ∈ diagnostics
              ∧ ¬ ∃ r, r ∈ Lsp.foldingRanges h ∧ isDocstring h r ∧ strictlyInside d r).
Proof.
  unfold Lsp.handleDiagnostics. split; [by intros ->|].
  intros -> Hlines.
  destruct (docstringRanges_spec h (Lsp.foldingRanges h) Hlines) as (ranges & -> & Hr).
  assert (∀ d, negb (Lsp.insideDocstring ranges d) = true ↔ ¬ inDocstring h d) as Hin.
  { intros d. rewrite negb_true_iff, <- not_true_iff_false, insideDocstring_spec.
    unfold inDocstring. split; intros Hnone.
    - intros (r & Hr1 & Hr2 & Hr3). apply Hnone. exists r. split; [|done].
      by apply Hr.
    - intros (r & Hr1 & Hr2). apply Hnone. exists r.
      apply Hr in Hr1 as [? ?]. done. }
  eexists. split; [reflexivity|]. split; [by apply filter_decide|].
  split; [apply filter_sublist|].
  intros d. rewrite list_elem_of_In, List.filter_In, <- list_elem_of_In, Hin.
  reflexivity.
Qed.

(** Five diagnostics around a docstring on lines 1 to 4: only the two on
    lines 2 and 3 are dropped. *)
Lemma handleDiagnostics_spec_witness :
  Lsp.handleDiagnostics ScenarioLsp.docstringHost
    [ScenarioLsp.diagnostic 1 1 "on the opening line";
     ScenarioLsp.diagnostic 2 2 "inside";
     ScenarioLsp.diagnostic 3 3 "inside too";
     ScenarioLsp.diagnostic 3 4 "ends on the closing line";
     ScenarioLsp.diagnostic 5 5 "after"]
  = Some [ScenarioLsp.diagnostic 1 1 "on the opening line";
          ScenarioLsp.diagnostic 3 4 "ends on the closing line";
          ScenarioLsp.diagnostic 5 5 "after"].
Proof.
  destruct (handleDiagnostics_spec ScenarioLsp.docstringHost
              [ScenarioLsp.diagnostic 1 1 "on the opening line";
               ScenarioLsp.diagnostic 2 2 "inside";
               ScenarioLsp.diagnostic 3 3 "inside too";
               ScenarioLsp.diagnostic 3 4 "ends on the closing line";
               ScenarioLsp.diagnostic 5 5 "after"]) as [_ Hon].
  destruct Hon as (kept & Hrun & _); [reflexivity| |].
  - intros r Hr. vm_compute in Hr.
    repeat (apply elem_of_cons in Hr as [->|Hr]; [by eexists|]).
    by apply elem_of_nil in Hr.
  - rewrite Hrun. vm_compute in Hrun. by injection Hrun as <-.
Defined.

(** X25.  With the setting on, one folding range that starts on a line the
    document does not have makes the handler fail before it reaches [next]:
    no diagnostic at all is forwarded, whether or not that range or any
    other is a docstring. *)
Theorem handleDiagnostics_stale_range (h : Lsp.Host) (diagnostics : list Lsp.Diagnostic)
    (r : Lsp.FoldingRange) :
  Lsp.suppressInDocstring h = true →
  r ∈ Lsp.foldingRanges h →
  Lsp.lineText h (Lsp.start r) = None →
  Lsp.handleDiagnostics h diagnostics = None.
Proof.
  intros Hs Hin Hnone. unfold Lsp.handleDiagnostics. rewrite Hs.
  by rewrite (docstringRanges_missing_line h _ r Hin Hnone).
Qed.

Lemma handleDiagnostics_stale_range_witness :
  Lsp.handleDiagnostics ScenarioLsp.staleHost [ScenarioLsp.diagnostic 5 5 "after"] = None.
Proof.
  apply (handleDiagnostics_stale_range ScenarioLsp.staleHost _
           {| Lsp.start := 9; Lsp.end_ := 12 |}); [reflexivity| |reflexivity].
  right. left.
Defined.

(** ** Resolving again against the cached SDK *)

Lemma getActiveSDK_hit (w : World) (st st1 : State) (tr1 : list Event) (r : ref) :
  getActiveSDK w st = (Ret (Some r), st1, tr1) → activeSDK (mgr st1) = Some r.
Proof.
  unfold getActiveSDK, bind, getMgr. simpl.
  destruct (activeSDK (mgr st)) as [c|] eqn:Hc.
  - by intros [= -> <- _].
  - destruct (findActiveSDK w st) as [[[found|e] st0] tr0]; simpl; [|done].
    by intros [= -> <- _].
Qed.

Lemma lldbHasPythonScriptingSupport_inv (w : World) (r : ref) (st st' : State)
    (tr : list Event) (b : bool) :
  lldbHasPythonScriptingSupport w r st = (Ret b, st', tr) →
  ∃ sdk sdk',
    heap st !! r = Some sdk
    ∧ heap st' !! r = Some sdk'
    ∧ clearMemo sdk' = clearMemo sdk
    ∧ memo sdk' = Some b
    ∧ mgr st' = mgr st.
Proof.
  unfold lldbHasPythonScriptingSupport, bind at 1, deref.
  destruct (heap st !! r) as [sdk|] eqn:Hr; [|done].
  destruct (memo sdk) as [known|] eqn:Hm.
  - intros [= -> <- _]. by exists sdk, sdk.
  - unfold bind, store_memo, ret.
    pose proof (probeScripting_state w sdk st) as Hst.
    destruct (probeScripting w sdk st) as [[[ans|e] st1] tr1]; simpl in *; [|done].
    subst st1. intros [= -> <- _]. exists sdk, (set_memo b sdk).
    split; [done|]. split; [|done]. cbn [heap]. by rewrite list_lookup_alter_eq, Hr.
Qed.

Lemma resolver_ignores_memo (h : Debug.Host) (cfg : Debug.MojoDebugConfiguration)
    (sdk sdk' : SDK) :
  clearMemo sdk' = clearMemo sdk →
  Debug.launchTarget cfg sdk' = Debug.launchTarget cfg sdk
  ∧ Debug.fixedInitCommands sdk' = Debug.fixedInitCommands sdk
  ∧ visualizersPath sdk' = visualizersPath sdk
  ∧ ∀ launch commands,
      Debug.resolvedConfiguration h cfg sdk' launch commands
      = Debug.resolvedConfiguration h cfg sdk launch commands.
Proof.
  intros [= Hk Hv Hl Hmb Hpl Hd Hmj Hvis Hld Hh].
  unfold Debug.launchTarget, Debug.fixedInitCommands, Debug.resolvedConfiguration,
    Debug.processEnvEntries, supportsFileDebug.
  by rewrite Hpl, Hvis, Hh, Hmj.
Qed.

Lemma resolvedConfiguration_host (h h2 : Debug.Host)
    (cfg : Debug.MojoDebugConfiguration) (sdk : SDK)
    (launch : option (list string) * option string) (commands : list string) :
  (∀ s, Debug.parseInt h2 s = Debug.parseInt h s) →
  Debug.resolvedConfiguration h2 cfg sdk launch commands
  = Debug.resolvedConfiguration h cfg sdk launch commands.
Proof.
  intros Hparse. unfold Debug.resolvedConfiguration.
  destruct (Debug.pid cfg) as [[s|n]|]; by rewrite ?Hparse.
Qed.

(** X26.  A configuration without [modularHomePath] that the resolver has
    resolved once is resolved again without any interaction with the
    manager's sources, whatever the file system, the Python extension and the
    debugger binary have become: the cached descriptor and the stored probe
    answer are reused, the state stays as the first resolution left it, and
    the only thing that may happen is the reading of the visualizers
    directory.  If [parseInt] and the directory listing answer as they did
    the first time, the configuration returned is the same one. *)
Theorem resolve_again (h h2 : Debug.Host) (w w2 : World)
    (cfg cfg' : Debug.MojoDebugConfiguration) (st st' : State)
    (tr : list Debug.DebugEvent) :
  Debug.modularHomePath cfg = None →
  Debug.resolveDebugConfigurationWithSubstitutedVariables h w cfg st
    = (Ret (Some cfg'), st', tr) →
  ∃ o tr',
    Debug.resolveDebugConfigurationWithSubstitutedVariables h2 w2 cfg st'
      = (o, st', tr')
    ∧ (tr' = [] ∨ ∃ dir, tr' = [Debug.EvReadDirectory dir])
    ∧ ((∀ s, Debug.parseInt h2 s = Debug.parseInt h s) →
       (∀ dir, Debug.readDirectory h2 dir = Debug.readDirectory h dir) →
       o = Ret (Some cfg')).
Proof.
  intros Hhome Hrun.
  destruct (resolve_inv h w cfg st st' tr cfg' Hrun)
    as (r & sdk & st1 & tr1 & launch & extra & tr2 & b
        & Hfind & Hr & Hl & Hp & -> & Hb).
  rewrite Hhome in Hfind. simpl in Hfind.
  apply getActiveSDK_hit in Hfind as Hc.
  destruct (lldbHasPythonScriptingSupport_inv w r st1 st' tr2 b Hp)
    as (sdk0 & sdk' & Hr0 & Hr' & Hsame & Hm & Hmgr).
  assert (sdk0 = sdk) as -> by congruence.
  destruct (resolver_ignores_memo h2 cfg sdk sdk' Hsame) as (Hl' & Hf' & Hv' & Hc').
  assert (Debug.findSDKForDebugConfiguration w2 (Debug.modularHomePath cfg) st'
          = (Ret (Some r), st', [])) as Hfind2.
  { rewrite Hhome. unfold Debug.findSDKForDebugConfiguration, getActiveSDK, bind, getMgr.
    simpl. by rewrite Hmgr, Hc. }
  rewrite (resolve_run h2 w2 cfg st' st' [] r sdk' Hfind2 Hr'), Hl', Hl.
  rewrite (lldbHasPythonScriptingSupport_memoized w2 r st' sdk' b Hr' Hm).
  rewrite Hf', Hv'. destruct b.
  - destruct Hb as (dir & entries & Hv & Hd & -> & _). rewrite Hv.
    destruct (Debug.readDirectory h2 dir) as [entries2|] eqn:Hd2.
    + do 2 eexists. split; [reflexivity|]. split; [right; by exists dir|].
      intros Hparse Hlist. rewrite Hlist, Hd in Hd2. injection Hd2 as <-.
      by rewrite Hc', (resolvedConfiguration_host h h2).
    + do 2 eexists. split; [reflexivity|]. split; [right; by exists dir|].
      intros _ Hlist. rewrite Hlist, Hd in Hd2. done.
  - destruct Hb as [-> _]. rewrite ?app_nil_r.
    do 2 eexists. split; [reflexivity|]. split; [by left|].
    intros Hparse _. by rewrite Hc', (resolvedConfiguration_host h h2).
Qed.

(** The second resolution runs on a host without Nsight and over an empty
    file system; the visualizers directory lists what it listed before. *)
Lemma resolve_again_witness :
  ∃ cfg' st' tr,
    Debug.resolveDebugConfigurationWithSubstitutedVariables ScenarioDebug.host
      ScenarioProbe.scripting (ScenarioDebug.launch "/a/b/main.mojo")
      ScenarioDebug.condaState
      = (Ret (Some cfg'), st', tr)
    ∧ Debug.resolveDebugConfigurationWithSubstitutedVariables
        ScenarioDebug.hostWithoutNsight Posix.bare
        (ScenarioDebug.launch "/a/b/main.mojo") st'
      = (Ret (Some cfg'), st', [Debug.EvReadDirectory "/sdk/lib/lldb-visualizers"]).
Proof.
  eassert (Debug.resolveDebugConfigurationWithSubstitutedVariables ScenarioDebug.host
             ScenarioProbe.scripting (ScenarioDebug.launch "/a/b/main.mojo")
             ScenarioDebug.condaState = (Ret (Some _), _, _)) as Hrun
    by (vm_compute; reflexivity).
  destruct (resolve_again ScenarioDebug.host ScenarioDebug.hostWithoutNsight
              ScenarioProbe.scripting Posix.bare
              (ScenarioDebug.launch "/a/b/main.mojo") _ _ _ _ eq_refl Hrun)
    as (o & tr' & Hagain & _ & Hsame).
  rewrite (Hsame (λ _, eq_refl) (λ _, eq_refl)) in Hagain.
  do 3 eexists. split; [exact Hrun|]. rewrite Hagain. f_equal.
  vm_compute in Hagain. by injection Hagain as <-.
Defined.

(** ** Outcomes of the formatting provider *)

(** X27.  With a descriptor that has a formatter path: an error of the
    formatter process rejects the request and yields no edit, whatever the
    process printed; a successful run with non-empty output yields exactly
    one edit, which replaces the range from the start of the first line to
    the end of the last line, line break included, by the output.  Without
    an SDK the provider resolves with no edit and never starts the
    formatter. *)
Theorem provideDocumentFormattingEdits_outcomes (w : World) (document : TextDocument)
    (st : State) :
  (∀ st1 tr1 r sdk file,
     getActiveSDK w st = (Ret (Some r), st1, tr1) →
     heap st1 !! r = Some sdk →
     mblackPath sdk = Some file →
     let res := runFormatter w file (formatterArgv w document) (formatterCwd w document)
                  (getProcessEnv sdk true) (getText document) in
     let tr := tr1 ++ [EvRunFormatter file (formatterArgv w document) (getText document)] in
     (∀ e, exec_error res = Some e →
           provideDocumentFormattingEdits w document st = (Rejected e, st1, tr))
     ∧ (∀ first last,
          exec_error res = None →
          exec_stdout res ≠ "" →
          lines document !! 0 = Some first →
          lines document !! (length (lines document) - 1) = Some last →
          provideDocumentFormattingEdits w document st =
            (Resolved [ {| edit_range :=
                             {| range_start := range_start (range first);
                                range_end := range_end (rangeIncludingLineBreak last) |};
                           newText := exec_stdout res |} ], st1, tr)))
  ∧ (∀ st1 tr1,
       getActiveSDK w st = (Ret None, st1, tr1) →
       provideDocumentFormattingEdits w document st = (Resolved [], st1, tr1)).
Proof.
  split.
  - intros st1 tr1 r sdk file Hsdk Hr Hfile res tr. split.
    + intros e He. unfold provideDocumentFormattingEdits. rewrite Hsdk, Hr, Hfile.
      fold res. unfold formatterCallback. by rewrite He.
    + intros first last He Hout Hfirst Hlast.
      unfold provideDocumentFormattingEdits. rewrite Hsdk, Hr, Hfile. fold res.
      unfold formatterCallback. rewrite He, Hfirst, Hlast.
      rewrite (bool_decide_eq_false_2 (String.length (exec_stdout res) = 0))
        by (by rewrite length_zero_empty).
      by rewrite andb_false_r.
  - intros st1 tr1 Hsdk. unfold provideDocumentFormattingEdits. by rewrite Hsdk.
Qed.

Lemma provideDocumentFormattingEdits_outcomes_witness :
  let failing :=
    Posix.world None (λ _, Some Scenario.file) (λ _, inl "ENOENT") (λ _, Some ∅)
      (λ _, false) (λ _, Some Scenario.venv) (λ _, Some "mojo 25.1.0") (λ _ _, None)
      (λ _, {| exec_error := Some "exit code 123";
               exec_stdout := "fn main(): pass"; exec_stderr := "cannot format" |}) in
  ∃ st1 tr,
    provideDocumentFormattingEdits failing ScenarioFormat.document ScenarioProbe.resolved
      = (Rejected "exit code 123", st1, tr).
Proof.
  intros failing.
  destruct (provideDocumentFormattingEdits_outcomes failing ScenarioFormat.document
              ScenarioProbe.resolved) as [Hrun _].
  destruct (Hrun ScenarioProbe.resolved [] 0 _ "/venv/bin/mblack" eq_refl eq_refl eq_refl)
    as [Herr _].
  do 2 eexists. by apply Herr.
Defined.

(** ** The directory test of the workspace-local source *)

Lemma land_two (t : Z) : Z.land t 2 = if Z.testbit t 1 then 2%Z else 0%Z.
Proof.
  apply Z.bits_inj'. intros n Hn. rewrite Z.land_spec.
  change 2%Z with (2 ^ 1)%Z at 1. rewrite Z.pow2_bits_eqb by lia.
  destruct (Z.eqb_spec 1 n) as [<-|Hne].
  - rewrite andb_true_r. destruct (Z.testbit t 1); [reflexivity|].
    by rewrite Z.bits_0.
  - rewrite andb_false_r. destruct (Z.testbit t 1); [|by rewrite Z.bits_0].
    change 2%Z with (2 ^ 1)%Z. rewrite Z.pow2_bits_eqb by lia.
    symmetry. by apply Z.eqb_neq.
Qed.

(** X28.  With one workspace root whose [.derived] can be stat-ed, the
    workspace-local source goes on to the descriptor file exactly when the
    directory bit of the file type is set, whatever the other bits are: a
    symbolic link to a directory is accepted, and a file, or a link to a
    file, is skipped without reading anything. *)
Theorem tryGetMonorepoSDK_directory_bit (w : World) (st : State) (root : string)
    (info : FileStat) :
  workspaceFolders w = Some [root] →
  fs_stat w (uri_joinPath w root ".derived") = Some info →
  tryGetMonorepoSDK w st =
    if Z.testbit (ftype info) 1 then
      (let '(o, st1, tr1) :=
         createSDKFromHomePath w Internal (uri_joinPath w root ".derived") None st in
       (o, st1, EvStat (uri_joinPath w root ".derived") :: tr1))
    else (Ret None, st, [EvStat (uri_joinPath w root ".derived")]).
Proof.
  intros Hroots Hstat. pose proof (land_two (ftype info)) as Hland.
  destruct (Z.testbit (ftype info) 1).
  - apply (tryGetMonorepoSDK_directory w st root info Hroots Hstat).
    unfold FileType_Directory. by rewrite Hland.
  - apply (tryGetMonorepoSDK_no_directory w st root Hroots). by rewrite Hstat.
Qed.

(** [.derived] is a symbolic link (64) to a directory (2). *)
Lemma tryGetMonorepoSDK_directory_bit_witness :
  let w := Posix.world (Some ["/repo"]) (λ _, Some {| ftype := 66 |})
             (λ _, inr []) (λ _, Some Scenario.complete_cfg) (λ _, false)
             (λ _, None) (λ _, None) (λ _ _, None)
             (λ _, {| exec_error := None; exec_stdout := ""; exec_stderr := "" |}) in
  ∃ st1,
    tryGetMonorepoSDK w readyState
      = (Ret (Some 0), st1,
         [EvStat "/repo/.derived"; EvReadFile "/repo/.derived/modular.cfg";
          EvTelemetry "sdkLoaded" "25.1.0" Internal]).
Proof.
  intros w. eexists.
  rewrite (tryGetMonorepoSDK_directory_bit w readyState "/repo" {| ftype := 66 |}
             eq_refl eq_refl).
  vm_compute. reflexivity.
Defined.
